(** * Mornoningo server: quiz parsing, page windows and learning notes

    A shallow embedding of [server/file_parsers.py],
    [server/learning_note_storage.py] and [server/main.py], followed by the
    properties of the window planner, the quiz parser, the note cache and
    the note store.

    Python values are kept close to the interpreter's own: a [str] is a
    list of Unicode code points, an [int] is a [Z], a [float] is an IEEE
    binary64 value ([spec_float]), a [dict] read from JSON is a finite map.
    Exceptions are values of [exn]; a function that may raise returns a
    [result]. Endpoints that talk to the remote model, the clock or the
    note directory run in the state monad [M] over [World]. *)

From Stdlib Require Import ZArith NArith Ascii String SpecFloat Lia.
From Stdlib.Strings Require Import Byte.
From stdpp Require Import base numbers option list gmap sorting.

Local Open Scope Z_scope.
Set Warnings "-register-all".
Set Default Proof Using "Type".

(* ===================================================================== *)
(** * Part I: the model                                                   *)
(* ===================================================================== *)

(** ** The Python runtime *)

Module Py.

(** A Python [str]: its code points, in order. *)
Abbreviation pystr := (list N).

Definition NUL : N := 0%N.
Definition TAB : N := 9%N.
Definition LF : N := 10%N.
Definition CR : N := 13%N.
Definition SPACE : N := 32%N.

(** [bytes.decode("utf-8")], strict: [None] stands for UnicodeDecodeError.
    A sequence is refused when a continuation byte is missing or out of
    10xxxxxx, when the code point has a shorter encoding (overlong), is a
    surrogate, or lies beyond U+10FFFF. *)
Definition is_cont (b : N) : bool := ((128 <=? b) && (b <? 192))%N.

Fixpoint utf8_decode (bs : list byte) : option pystr :=
  match bs with
  | [] => Some []
  | b0 :: r0 =>
    let c0 := Byte.to_N b0 in
    if (c0 <? 128)%N then (c0 ::.) <$> utf8_decode r0
    else if (c0 <? 194)%N then None
    else if (c0 <? 224)%N then
      match r0 with
      | b1 :: r1 =>
        let c1 := Byte.to_N b1 in
        if is_cont c1
        then (((c0 - 192) * 64 + (c1 - 128))%N ::.) <$> utf8_decode r1
        else None
      | _ => None
      end
    else if (c0 <? 240)%N then
      match r0 with
      | b1 :: b2 :: r2 =>
        let c1 := Byte.to_N b1 in
        let c2 := Byte.to_N b2 in
        let cp := ((c0 - 224) * 4096 + (c1 - 128) * 64 + (c2 - 128))%N in
        if is_cont c1 && is_cont c2 && (2048 <=? cp)%N
           && negb ((55296 <=? cp) && (cp <=? 57343))%N
        then (cp ::.) <$> utf8_decode r2
        else None
      | _ => None
      end
    else if (c0 <? 245)%N then
      match r0 with
      | b1 :: b2 :: b3 :: r3 =>
        let c1 := Byte.to_N b1 in
        let c2 := Byte.to_N b2 in
        let c3 := Byte.to_N b3 in
        let cp := ((c0 - 240) * 262144 + (c1 - 128) * 4096
                   + (c2 - 128) * 64 + (c3 - 128))%N in
        if is_cont c1 && is_cont c2 && is_cont c3
           && (65536 <=? cp)%N && (cp <=? 1114111)%N
        then (cp ::.) <$> utf8_decode r3
        else None
      | _ => None
      end
    else None
  end.

(** A string literal of this file, read as the source file reads its own
    literals (UTF-8). *)
Definition str (s : string) : pystr :=
  default [] (utf8_decode (list_byte_of_string s)).

(** [str.isspace] for one character, the set [str.strip()] removes
    (CPython's [_PyUnicode_IsWhitespace]). *)
Definition isspace (c : N) : bool :=
  ((9 <=? c) && (c <=? 13) || (28 <=? c) && (c <=? 32)
   || (c =? 133) || (c =? 160) || (c =? 5760)
   || (8192 <=? c) && (c <=? 8202)
   || (c =? 8232) || (c =? 8233) || (c =? 8239) || (c =? 8287)
   || (c =? 12288))%N.

Fixpoint lstrip (s : pystr) : pystr :=
  match s with
  | [] => []
  | c :: t => if isspace c then lstrip t else s
  end.

(** [rstrip]: a character is dropped when it is white and nothing is kept
    to its right. *)
Fixpoint rstrip (s : pystr) : pystr :=
  match s with
  | [] => []
  | c :: t =>
    match rstrip t with
    | [] => if isspace c then [] else [c]
    | r => c :: r
    end
  end.

Definition strip (s : pystr) : pystr := rstrip (lstrip s).

(** [s[:n]] for n >= 0. *)
Definition prefix_chars (n : Z) (s : pystr) : pystr := take (Z.to_nat n) s.

(** [len(s)] *)
Definition len {A} (l : list A) : Z := Z.of_nat (length l).

(** [seq[a:b]] for 0 <= a, 0 <= b. *)
Definition slice {A} (l : list A) (a b : Z) : list A :=
  take (Z.to_nat b - Z.to_nat a) (drop (Z.to_nat a) l).

(** [sep.join(parts)] *)
Fixpoint join (sep : pystr) (parts : list pystr) : pystr :=
  match parts with
  | [] => []
  | [p] => p
  | p :: rest => p ++ sep ++ join sep rest
  end.

Fixpoint starts_with (pre s : pystr) : bool :=
  match pre, s with
  | [], _ => true
  | a :: pre', b :: s' => (a =? b)%N && starts_with pre' s'
  | _ :: _, [] => false
  end.

(** [s.replace(old, new)] for a non-empty [old]: leftmost occurrences,
    not overlapping. [skip] counts the characters of a match still to be
    passed over. *)
Fixpoint replace_from (old new : pystr) (skip : nat) (s : pystr) : pystr :=
  match s with
  | [] => []
  | c :: t =>
    match skip with
    | S k => replace_from old new k t
    | O =>
      if starts_with old s
      then new ++ replace_from old new (length old - 1) t
      else c :: replace_from old new O t
    end
  end.

Definition replace (old new s : pystr) : pystr := replace_from old new 0 s.

(** The length of the run of [c] at the head of [s]. *)
Fixpoint run_length (c : N) (s : pystr) : nat :=
  match s with
  | x :: t => if (x =? c)%N then S (run_length c t) else O
  | [] => O
  end.

(** [re.sub(c{lo,}, repl, s)] for one character [c] and [1 <= lo]: the
    scan goes left to right; where at least [lo] copies of [c] start, the
    whole run (the quantifier is greedy) is replaced by [repl] and the scan
    goes on behind it; elsewhere the character is copied. [fuel] bounds the
    number of scan steps; [length s] is enough. *)
Fixpoint re_sub_run_from (c : N) (lo : nat) (repl : pystr)
    (fuel : nat) (s : pystr) : pystr :=
  match fuel, s with
  | _, [] => []
  | O, _ => s
  | S fuel', x :: t =>
    let n := run_length c s in
    if (lo <=? n)%nat
    then repl ++ re_sub_run_from c lo repl fuel' (drop n s)
    else x :: re_sub_run_from c lo repl fuel' t
  end.

Definition re_sub_run (c : N) (lo : nat) (repl s : pystr) : pystr :=
  re_sub_run_from c lo repl (length s) s.

(** Line boundaries of [str.splitlines]. *)
Definition is_linebreak (c : N) : bool :=
  ((10 <=? c) && (c <=? 13) || (28 <=? c) && (c <=? 30)
   || (c =? 133) || (c =? 8232) || (c =? 8233))%N.

(** [s.splitlines()]: [cur] is the line being read, reversed. CR LF is
    one boundary; a final boundary opens no empty line. *)
Fixpoint splitlines_from (cur : pystr) (s : pystr) : list pystr :=
  match s with
  | [] => match cur with [] => [] | _ => [rev cur] end
  | c :: t =>
    if is_linebreak c then
      rev cur ::
        match t with
        | d :: t' =>
          if ((c =? CR) && (d =? LF))%N then splitlines_from [] t'
          else splitlines_from [] t
        | [] => []
        end
    else splitlines_from (c :: cur) t
  end.

Definition splitlines (s : pystr) : list pystr := splitlines_from [] s.

(** Text-mode reading translates CR LF and a lone CR to LF (universal
    newlines, the default of [Path.read_text]). *)
Fixpoint universal_newlines (s : pystr) : pystr :=
  match s with
  | [] => []
  | c :: t =>
    if (c =? CR)%N then
      LF :: match t with
            | d :: t' =>
              if (d =? LF)%N then universal_newlines t'
              else universal_newlines t
            | [] => []
            end
    else c :: universal_newlines t
  end.

(** *** Values *)

(** The values [json.loads] builds, which are also the values this server
    passes around: None, bool, int, float, str, list, dict. *)
Inductive pyval :=
| PNone
| PBool (b : bool)
| PInt (z : Z)
| PFloat (f : spec_float)
| PStr (s : pystr)
| PList (l : list pyval)
| PDict (d : gmap pystr pyval).

(** Truth value testing ([if x], [x or y], [not x]). *)
Definition truthy (v : pyval) : bool :=
  match v with
  | PNone => false
  | PBool b => b
  | PInt z => negb (z =? 0)
  | PFloat (S754_zero _) => false
  | PFloat _ => true
  | PStr s => negb (bool_decide (s = []))
  | PList l => negb (bool_decide (l = []))
  | PDict d => negb (bool_decide (d = ∅))
  end.

(** [x or y] *)
Definition por (x y : pyval) : pyval := if truthy x then x else y.

(** *** Exceptions *)

(** The [detail] of an HTTPException; the message of the source is quoted
    beside each. *)
Inductive detail :=
| GeminiCallFailed          (* f"Gemini 호출 실패: {exc}" *)
| SourceTextTooShort        (* "sourceText 내용이 너무 짧습니다." *)
| UploadNotFound            (* "업로드된 파일을 찾을 수 없습니다." *)
| UnsupportedExtension (ext : pystr) (* f"지원하지 않는 파일 확장자: {ext}" *)
| NoTextExtracted           (* "문서에서 텍스트를 추출하지 못했습니다." *)
| NoPagesFound              (* "문서에서 요약할 페이지를 찾을 수 없습니다." *)
| NoSummarizablePages       (* "요약 가능한 페이지 내용이 없습니다." *)
| NoteNotFound              (* "학습노트를 찾을 수 없습니다." *)
| QuizJsonFailed (raw : pystr)  (* {"error": "JSON 파싱 실패", "raw": raw} *)
| QuestionsArrayRequired    (* "questions 배열이 포함된 JSON이 필요합니다." *)
| NoQuestionsFound          (* "생성된 문제를 찾을 수 없습니다." *)
| PageJsonFailed (raw : pystr). (* {"error": "페이지 요약 JSON 파싱 실패", "raw": raw} *)

Inductive exn :=
| HTTPException (status_code : Z) (d : detail)
| AttributeError
| TypeError
| ValueError
| OverflowError
| IndexError
| UnicodeDecodeError
| JSONDecodeError
| OSError
| LibraryError (what : pystr). (* raised inside pypdf, zipfile or json.dump *)

Inductive result (A : Type) :=
| Ok (a : A)
| Raise (e : exn).
Arguments Ok {A} a.
Arguments Raise {A} e.

Definition result_bind {A B} (r : result A) (k : A -> result B) : result B :=
  match r with
  | Ok a => k a
  | Raise e => Raise e
  end.

(** [d.get(key)] and [d.get(key, dflt)]; on a value that is no dict the
    attribute lookup itself fails. *)
Definition get_or (v : pyval) (key : pystr) (dflt : pyval) : result pyval :=
  match v with
  | PDict d => Ok (default dflt (d !! key))
  | _ => Raise AttributeError
  end.

Definition get (v : pyval) (key : pystr) : result pyval := get_or v key PNone.

(** *** [int(x)] *)

(** The digit zero of every script that has decimal digits (Unicode 14.0,
    the database of CPython 3.11); the digits one to nine follow it. *)
Definition DECIMAL_ZEROS : list N :=
  [48; 1632; 1776; 1984; 2406; 2534; 2662; 2790; 2918; 3046; 3174; 3302;
   3430; 3558; 3664; 3792; 3872; 4160; 4240; 6112; 6160; 6470; 6608; 6784;
   6800; 6992; 7088; 7232; 7248; 42528; 43216; 43264; 43472; 43504; 43600;
   44016; 65296; 66720; 68912; 69734; 69872; 69942; 70096; 70384; 70736;
   70864; 71248; 71360; 71472; 71904; 72016; 72784; 73040; 73120; 92768;
   92864; 93008; 120782; 120792; 120802; 120812; 120822; 123200; 123632;
   125264; 130032]%N.

Fixpoint decimal_from (zeros : list N) (ch : N) : option N :=
  match zeros with
  | [] => None
  | zero :: rest =>
    if ((zero <=? ch) && (ch <? zero + 10))%N then Some (ch - zero)%N
    else decimal_from rest ch
  end.

(** [Py_UNICODE_TODECIMAL] *)
Definition to_decimal (ch : N) : option N := decimal_from DECIMAL_ZEROS ch.

(** [Py_ISSPACE]: the white space of ASCII, which leaves out the four
    separators U+001C to U+001F that [str.isspace] accepts. *)
Definition is_ascii_space (c : N) : bool :=
  ((c =? 32) || (9 <=? c) && (c <=? 13))%N.

(** [_PyUnicode_TransformDecimalAndSpaceToASCII]: a str of ASCII only is
    taken as it is; in any other, a white space becomes a space and a
    decimal digit its ASCII digit, and at the first other character beyond
    ASCII a question mark ends the text. *)
Fixpoint transform_decimal_and_space (s : pystr) : pystr :=
  match s with
  | [] => []
  | ch :: rest =>
    if (ch <? 127)%N then ch :: transform_decimal_and_space rest
    else if isspace ch then SPACE :: transform_decimal_and_space rest
    else
      match to_decimal ch with
      | Some d => (48 + d)%N :: transform_decimal_and_space rest
      | None => [63%N]
      end
  end.

Definition to_ascii (s : pystr) : pystr :=
  if forallb (fun ch => (ch <? 128)%N) s then s
  else transform_decimal_and_space s.

Fixpoint skip_space (s : pystr) : pystr :=
  match s with
  | [] => []
  | c :: rest => if is_ascii_space c then skip_space rest else s
  end.

(** The run of digits and underscores [PyLong_FromString] reads in base
    10: the value, the number of digits and what follows the run. Two
    underscores in a row, or one at the end of the run, are refused. *)
Fixpoint scan_digits (value digits : Z) (prev : N) (s : pystr)
    : option (Z * Z * pystr) :=
  match s with
  | c :: rest =>
    if ((48 <=? c) && (c <=? 57))%N
    then scan_digits (10 * value + (Z.of_N c - 48)) (digits + 1) c rest
    else if (c =? 95)%N
    then if (prev =? 95)%N then None else scan_digits value digits c rest
    else if (prev =? 95)%N then None else Some (value, digits, s)
  | [] => if (prev =? 95)%N then None else Some (value, digits, s)
  end.

(** [sys.get_int_max_str_digits()], at its default. *)
Definition MAX_STR_DIGITS : Z := 4300.

(** [PyLong_FromString(s, &end, 10)] with the test that [end] is the end
    of the text: white space, one optional sign, the digits, white space.
    A NUL ends the text for the C parser and fails that test; here it is
    one more character that is neither a digit nor white. [None] stands
    for ValueError. *)
Definition long_from_string (s : pystr) : option Z :=
  let s1 := skip_space s in
  let '(negative, s2) :=
    match s1 with
    | c :: rest =>
      if (c =? 43)%N then (false, rest)
      else if (c =? 45)%N then (true, rest)
      else (false, s1)
    | [] => (false, s1)
    end in
  match s2 with
  | c :: _ =>
    if (c =? 95)%N then None
    else
      match scan_digits 0 0 0%N s2 with
      | Some (value, digits, s3) =>
        if (digits =? 0) || (MAX_STR_DIGITS <? digits) then None
        else
          match skip_space s3 with
          | [] => Some (if negative then - value else value)
          | _ :: _ => None
          end
      | None => None
      end
  | [] => None
  end.

(** [int(s)] for a str; [None] stands for ValueError. *)
Definition int_of_str (s : pystr) : option Z := long_from_string (to_ascii s).

(** [int(f)] for a float: truncation toward zero. *)
Definition int_of_float (f : spec_float) : result Z :=
  match f with
  | S754_zero _ => Ok 0
  | S754_infinity _ => Raise OverflowError
  | S754_nan => Raise ValueError
  | S754_finite sign m e =>
    let mag := match e with
               | Z.neg k => Z.shiftr (Z.pos m) (Z.pos k)
               | _ => Z.shiftl (Z.pos m) e
               end in
    Ok (if sign then - mag else mag)
  end.

Definition int (v : pyval) : result Z :=
  match v with
  | PInt z => Ok z
  | PBool b => Ok (if b then 1 else 0)
  | PFloat f => int_of_float f
  | PStr s => match int_of_str s with Some z => Ok z | None => Raise ValueError end
  | PNone | PList _ | PDict _ => Raise TypeError
  end.

(** What the server takes from the interpreter and its libraries without
    a model of its own. *)
Class Runtime := {
  (** [json.loads]; [None] stands for JSONDecodeError. *)
  json_loads : pystr -> option pyval;
  (** [json.dump(payload, handle, ensure_ascii=False, indent=2)] to a
      UTF-8 text file: the bytes written, or the exception. *)
  json_dump : pyval -> result (list byte);
  (** [str(x)] *)
  to_str : pyval -> pystr;
  (** [datetime.isoformat()] of a UTC time in microseconds. *)
  isoformat : Z -> pystr;
  (** [hashlib.sha256(s.encode("utf-8")).hexdigest()] *)
  sha256_hex : pystr -> pystr;
  (** [Path(s).name] *)
  path_name : pystr -> pystr;
  (** [tempfile.mkstemp(dir=..., prefix=..., suffix=...)]: from the names
      the directory holds, the prefix and the suffix, the random
      characters of the name it settles on, or the exception it raises. *)
  mkstemp : gset pystr -> pystr -> pystr -> result pystr;
  (** [path.exists()] on a note path that names no file: whether [os.stat]
      fails with an OSError other than file-not-found (a name too long for
      the file system), which [exists] passes on. *)
  stat_raises : pystr -> bool;
  (** [(UPLOAD_DIR / file_id).resolve()] and [file_path.exists()] for a
      fileId that names no upload: the exception they raise, if any
      (ValueError from [resolve] for an embedded NUL, OSError from
      [exists] for a name too long for the file system). *)
  upload_error : pystr -> option exn;
}.

End Py.

(** ** server/file_parsers.py *)

Module FileParsers.
Import Py.

(** [normalize_text]: the argument is [None] or a str. *)
Definition normalize_text (text : option pystr) : pystr :=
  let cleaned := replace [NUL] [SPACE] (default [] text) in
  let cleaned := re_sub_run CR 1 [LF] cleaned in
  let cleaned := re_sub_run LF 3 [LF; LF] cleaned in
  strip cleaned.

(** One entry of the lists [extract_pdf_pages] and [extract_pptx_slides]
    return: [{"index": .., "label": .., "text": ..}]. *)
Record Chunk := {
  chunk_index : Z;
  chunk_label : pystr;
  chunk_text : pystr;
}.

Fixpoint uint_chars (d : Decimal.uint) : pystr :=
  match d with
  | Decimal.Nil => []
  | Decimal.D0 d => 48%N :: uint_chars d
  | Decimal.D1 d => 49%N :: uint_chars d
  | Decimal.D2 d => 50%N :: uint_chars d
  | Decimal.D3 d => 51%N :: uint_chars d
  | Decimal.D4 d => 52%N :: uint_chars d
  | Decimal.D5 d => 53%N :: uint_chars d
  | Decimal.D6 d => 54%N :: uint_chars d
  | Decimal.D7 d => 55%N :: uint_chars d
  | Decimal.D8 d => 56%N :: uint_chars d
  | Decimal.D9 d => 57%N :: uint_chars d
  end.

(** [f"{n}"] for n >= 0. *)
Definition decimal (n : Z) : pystr := uint_chars (N.to_uint (Z.to_N n)).

(** [enumerate(items, start=k)] *)
Fixpoint enumerate_from {A} (k : Z) (items : list A) : list (Z * A) :=
  match items with
  | [] => []
  | x :: rest => (k, x) :: enumerate_from (k + 1) rest
  end.

(** [extract_pdf_pages], after [PdfReader(..).pages] gave one entry per
    page: what [page.extract_text()] returned, [None] when it returned
    nothing or raised (both become the empty text). *)
Definition extract_pdf_pages (reader_pages : list (option pystr)) : list Chunk :=
  (fun '(idx, page_text) =>
     {| chunk_index := idx;
        chunk_label := str "Page " ++ decimal idx;
        chunk_text := normalize_text (Some (default [] page_text)) |})
  <$> enumerate_from 1 reader_pages.

(** [extract_pptx_slides], after the archive gave the slide files in
    sorted order: each slide is the list of its text fragments
    ([_extract_text_nodes]). *)
Definition extract_pptx_slides (slide_nodes : list (list pystr)) : list Chunk :=
  (fun '(idx, text_nodes) =>
     {| chunk_index := idx;
        chunk_label := str "Slide " ++ decimal idx;
        chunk_text := normalize_text (Some (join [LF] text_nodes)) |})
  <$> enumerate_from 1 slide_nodes.

Definition extract_text (chunks : list Chunk) : pystr :=
  normalize_text (Some (join [LF] (chunk_text <$> chunks))).

Definition extract_text_from_pdf (reader_pages : list (option pystr)) : pystr :=
  extract_text (extract_pdf_pages reader_pages).

Definition extract_text_from_pptx (slide_nodes : list (list pystr)) : pystr :=
  extract_text (extract_pptx_slides slide_nodes).

End FileParsers.

(** ** server/learning_note_storage.py *)

Module LearningNoteStorage.
Import Py.

(** What the note directory holds under one name. *)
Inductive fsnode :=
| Directory
| RegularFile (readable : bool) (data : list byte).

(** [path.read_text(encoding="utf-8")] on an existing path. *)
Definition read_text (node : fsnode) : result pystr :=
  match node with
  | Directory => Raise OSError              (* IsADirectoryError *)
  | RegularFile false _ => Raise OSError    (* PermissionError *)
  | RegularFile true data =>
    match utf8_decode data with
    | Some text => Ok (universal_newlines text)
    | None => Raise UnicodeDecodeError
    end
  end.

Section Storage.
Context `{Runtime}.

(** [json.loads], raising. *)
Definition loads (raw : pystr) : result pyval :=
  match json_loads raw with
  | Some data => Ok data
  | None => Raise JSONDecodeError
  end.

(** The file name of a note inside the root: [f"{Path(file_id).name}.json"]. *)
Definition _path_for (file_id : pystr) : pystr :=
  path_name file_id ++ str ".json".

(** [LearningNoteStorage.read]; Python's [None] is [PNone]. A path the
    directory holds exists; for any other, [path.exists()] answers False
    or passes on the OSError of [os.stat]. *)
Definition read (root : gmap pystr fsnode) (file_id : pystr) : result pyval :=
  let path := _path_for file_id in
  match root !! path with
  | None => if stat_raises path then Raise OSError else Ok PNone
  | Some node =>
    match result_bind (read_text node) loads with
    | Ok data => Ok data
    | Raise JSONDecodeError => Ok PNone
    | Raise OSError => Ok PNone
    | Raise e => Raise e
    end
  end.

(** [str.rfind(c)] *)
Fixpoint rfind (c : N) (s : pystr) : option nat :=
  match s with
  | [] => None
  | x :: rest =>
    match rfind c rest with
    | Some i => Some (S i)
    | None => if (x =? c)%N then Some 0%nat else None
    end
  end.

(** [PurePath.stem] of a file name: the name up to its last dot, when
    that dot is neither its first nor its last character. *)
Definition path_stem (name : pystr) : pystr :=
  match rfind 46%N name with
  | Some i =>
    if bool_decide (0 < i < length name - 1)%nat then take i name else name
  | None => name
  end.

(** [os.replace(src, dst)] inside the directory. *)
Definition os_replace (src dst : pystr) (root : gmap pystr fsnode)
    : result unit * gmap pystr fsnode :=
  match root !! src with
  | None => (Raise OSError, root)               (* FileNotFoundError *)
  | Some node =>
    match root !! dst with
    | Some Directory => (Raise OSError, root)   (* IsADirectoryError *)
    | _ => (Ok (), <[dst := node]> (delete src root))
    end
  end.

(** [LearningNoteStorage.write]. [mkstemp] creates an empty file under a
    name the directory does not hold (it raises FileExistsError when it is
    left without one); the payload is dumped into it, and it replaces the
    note's file; [finally] removes it when it is still there. What a dump
    that raises had written before stays in the temporary file until then:
    its content is not kept here. *)
Definition write (root : gmap pystr fsnode) (file_id : pystr) (payload : pyval)
    : result pyval * gmap pystr fsnode :=
  let path := _path_for file_id in
  let prefix := path_stem path ++ str "_" in
  match mkstemp (dom root) prefix (str ".tmp") with
  | Raise e => (Raise e, root)
  | Ok name =>
    let tmp_path := prefix ++ name ++ str ".tmp" in
    match root !! tmp_path with
    | Some _ => (Raise OSError, root)           (* FileExistsError *)
    | None =>
      let created := <[tmp_path := RegularFile true []]> root in
      let '(r, after) :=
        match json_dump payload with
        | Raise e => (Raise e, created)
        | Ok data =>
          os_replace tmp_path path (<[tmp_path := RegularFile true data]> created)
        end in
      let cleaned :=
        if bool_decide (is_Some (after !! tmp_path))
        then delete tmp_path after else after in
      (match r with Ok _ => Ok payload | Raise e => Raise e end, cleaned)
    end
  end.

(** [LearningNoteStorage.save]: [write] under the lock. *)
Definition save := write.

End Storage.
End LearningNoteStorage.

(** ** server/main.py *)

Module Main.
Import Py FileParsers LearningNoteStorage.

Definition MAX_SOURCE_CHARS : Z := 8000.
Definition MAX_PAGE_PROMPT_CHARS : Z := 3500.
Definition MAX_PAGE_TEXT_CHARS : Z := 6000.

(** *** Records *)

(** The dict [_parse_page_summary] returns. *)
Record PageSummary := {
  outline : pystr;
  keyPoints : list pystr;
  studyQuestion : pystr;
}.

(** One entry of [pages] in [generate_learning_note]. *)
Record Page := {
  index : Z;
  label : pystr;
  text : pystr;
  summary : PageSummary;
}.

(** One entry of the list [_summarize_windows] returns. *)
Record Window := {
  startPage : Z;
  endPage : Z;
  pageIndexes : list Z;
  markdown : pystr;
}.

(** The [record] of [generate_learning_note]. [createdAt] is whatever the
    earlier note held under that key, or the current time. *)
Record LearningNote := {
  fileId : pystr;
  createdAt : pyval;
  updatedAt : pystr;
  pageCount : Z;
  windowSize : Z;
  pages : list Page;
  windows : list Window;
  note_markdown : pystr;
}.

(** One entry of [questions] in [_parse_quiz_payload]. *)
Record Question := {
  question : pyval;
  options : list pyval;
  correctIndex : Z;
  explanation : pyval;
}.

(** The dict [_parse_quiz_payload] returns. *)
Record ParsedQuiz := {
  questions : list Question;
  notes : list pystr;
}.

Inductive QuizReference :=
| ReferenceHash (hash : pystr)     (* {"hash": ..} *)
| ReferenceFile (file_id : pystr). (* {"fileId": ..} *)

(** The dict the quiz endpoints hand to [quiz_storage.add_record];
    [difficulty] is present for quizzes made from text only. *)
Record QuizRecord := {
  quiz_createdAt : pystr;
  sourceType : pystr;
  reference : QuizReference;
  numQuestions : Z;
  difficulty : option pystr;
  quiz_questions : list Question;
  quiz_notes : list pystr;
}.

(** A record as the quiz store returns it: with its ["id"]. *)
Record StoredQuiz := {
  quiz_id : pystr;
  quiz_record : QuizRecord;
}.

(** The body of a quiz endpoint's response. *)
Record QuizResponse := {
  resp_questions : list Question;
  resp_notes : list pystr;
  quizId : pystr;
}.

(** What [generate_learning_note] returns: the note read from the store,
    or the record it has just built and saved. *)
Inductive NoteResponse :=
| StoredNote (existing : pyval)
| NewNote (record : LearningNote).

(** Request bodies, already validated by the framework. *)
Record QuizFromTextRequest := {
  sourceText : pystr;
  text_numQuestions : Z;
  text_difficulty : pystr;
}.

Record QuizFromFileRequest := {
  quiz_fileId : pystr;
  file_numQuestions : Z;
}.

Record LearningNoteRequest := {
  note_fileId : pystr;
  note_windowSize : Z;
  force : bool;
}.

(** *** The world outside *)

(** The prompts: each f-string template of the source is fixed text
    around the values kept here. *)
Inductive Prompt :=
| TextPrompt (source : pystr) (num_questions : Z) (difficulty : pystr)
| FilePrompt (source : pystr) (num_questions : Z)
| PageSummaryPrompt (label text : pystr)
| WindowPrompt (window_pages : list Page).

(** What one call of [model.generate_content] does: it raises (no API
    key, transport or service failure), or returns a response whose
    [text] attribute may be missing. [latency] is the time the call took
    on the server's clock, in microseconds. *)
Inductive Reply :=
| ServiceFailure
| ResponseText (text : option pystr).

Record Response := {
  latency : Z;
  reply : Reply;
}.

(** An uploaded file: the lower-cased suffix of its name, and what
    [PdfReader] and [ZipFile] make of its bytes. *)
Record Upload := {
  suffix : pystr;
  pdf_pages : result (list (option pystr));
  pptx_slides : result (list (list pystr));
}.

(** The services around the server: the remote model answers a prompt
    knowing the prompts sent before; the quiz store names a new record
    knowing how many it holds. *)
Class Services := {
  generate_content : list Prompt -> Prompt -> Response;
  new_quiz_id : nat -> pystr;
}.

Record World := {
  note_root : gmap pystr fsnode;      (* data/notes *)
  uploads : gmap pystr Upload;        (* upload/, by fileId *)
  quiz_records : list StoredQuiz;     (* data/quizzes.json *)
  calls : list (Prompt * Response);   (* remote calls made, oldest first *)
  clock : Z;                          (* UTC now, microseconds *)
}.

(** An endpoint: from a world to an outcome and the world after. *)
Definition M (A : Type) : Type := World -> result A * World.

Definition ret {A} (a : A) : M A := fun w => (Ok a, w).
Definition raise {A} (e : exn) : M A := fun w => (Raise e, w).
Definition lift {A} (r : result A) : M A := fun w => (r, w).

Definition bind {A B} (m : M A) (k : A -> M B) : M B :=
  fun w =>
    match m w with
    | (Ok a, w') => k a w'
    | (Raise e, w') => (Raise e, w')
    end.

Notation "x <- m ;; k" := (bind m (fun x => k))
  (at level 100, m at next level, right associativity).
Notation "'let?' x := r 'in' k" := (result_bind r (fun x => k))
  (at level 100, x name, r at next level, right associativity).

Definition log_call (p : Prompt) (r : Response) (w : World) : World :=
  {| note_root := note_root w; uploads := uploads w;
     quiz_records := quiz_records w;
     calls := calls w ++ [(p, r)];
     clock := clock w + latency r |}.

Definition set_note_root (root : gmap pystr fsnode) (w : World) : World :=
  {| note_root := root; uploads := uploads w;
     quiz_records := quiz_records w; calls := calls w; clock := clock w |}.

Definition set_quiz_records (records : list StoredQuiz) (w : World) : World :=
  {| note_root := note_root w; uploads := uploads w;
     quiz_records := records; calls := calls w; clock := clock w |}.

(** [datetime.now(timezone.utc)] *)
Definition now : M Z := fun w => (Ok (clock w), w).

(** Modelled from the spec: [quiz_storage.py] is not among the sources.
    The quiz store is append-only and [add_record] returns the record
    with a generated id. *)
Definition add_record `{Services} (record : QuizRecord) : M StoredQuiz :=
  fun w =>
    let stored := {| quiz_id := new_quiz_id (length (quiz_records w));
                     quiz_record := record |} in
    (Ok stored, set_quiz_records (quiz_records w ++ [stored]) w).

Section Server.
Context `{Runtime} `{Services}.

(** *** The remote call *)

Definition FENCE_JSON : pystr := str "```json".
Definition FENCE : pystr := str "```".

Definition generate_with_gemini (prompt : Prompt) : M pystr :=
  fun w =>
    let response := generate_content (fst <$> calls w) prompt in
    let w' := log_call prompt response w in
    match reply response with
    | ServiceFailure => (Raise (HTTPException 500 GeminiCallFailed), w')
    | ResponseText None => (Raise (HTTPException 500 GeminiCallFailed), w')
    | ResponseText (Some raw) =>
      if bool_decide (raw = [])
      then (Raise (HTTPException 500 GeminiCallFailed), w')
      else (Ok (strip (replace FENCE [] (replace FENCE_JSON [] raw))), w')
    end.

(** *** Quiz parsing *)

(** [str(x)]: a str is returned as it is. *)
Definition py_str (v : pyval) : pystr :=
  match v with
  | PStr s => s
  | _ => to_str v
  end.

(** [[line.strip() for line in s.splitlines() if line.strip()]] *)
Definition stripped_lines (s : pystr) : list pystr :=
  filter (fun line => line <> []) (strip <$> splitlines s).

(** [[str(item).strip() for item in l if str(item).strip()]] *)
Definition stripped_items (l : list pyval) : list pystr :=
  filter (fun item => item <> []) ((fun item => strip (py_str item)) <$> l).

(** [int(x)] guarded by [except (TypeError, ValueError)]. *)
Definition int_or_zero (v : pyval) : result Z :=
  match int v with
  | Ok z => Ok z
  | Raise TypeError => Ok 0
  | Raise ValueError => Ok 0
  | Raise e => Raise e
  end.

Definition as_list (v : pyval) : list pyval :=
  match v with
  | PList l => l
  | _ => []
  end.

(** The body of the loop of [_parse_quiz_payload] for the item at [idx]:
    [None] when the item is passed over ([continue]), the question
    appended otherwise. The [.get] calls of one expression are made here
    before their [or]; on a dict none of them raises and on anything else
    the first one does, so the order is not observable. *)
Definition parse_item (idx : Z) (item : pyval) : result (option Question) :=
  let? o1 := get item (str "options") in
  let? o2 := get item (str "opts") in
  let options := as_list (por o1 (por o2 (PList []))) in
  if len options <? 4 then Ok None
  else
    let? c2 := get item (str "correct") in
    let? c1 := get_or item (str "correctIndex") c2 in
    let? correct_index := int_or_zero c1 in
    let? q1 := get item (str "question") in
    let? q2 := get item (str "q") in
    let question_text :=
      por q1 (por q2 (PStr (str "문제 " ++ decimal (idx + 1)))) in
    let? expl := get_or item (str "explanation") (PStr []) in
    Ok (Some {| question := question_text;
                options := take 4 options;
                correctIndex :=
                  0 `max` (correct_index `min` (len (take 4 options) - 1));
                explanation := expl |}).

Fixpoint parse_items (items : list (Z * pyval)) (questions : list Question)
    : result (list Question) :=
  match items with
  | [] => Ok questions
  | (idx, item) :: rest =>
    let? parsed := parse_item idx item in
    match parsed with
    | None => parse_items rest questions
    | Some q => parse_items rest (questions ++ [q])
    end
  end.

(** [_parse_quiz_payload] from the parsed [data] on. *)
Definition parse_quiz_data (data : pyval) : result ParsedQuiz :=
  let? questions_raw :=
    match data with
    | PDict d =>
      match d !! str "questions" with
      | Some (PList l) => Ok l
      | _ => Raise (HTTPException 500 QuestionsArrayRequired)
      end
    | PList l => Ok l
    | _ => Raise (HTTPException 500 QuestionsArrayRequired)
    end in
  let? questions := parse_items (enumerate_from 0 questions_raw) [] in
  if bool_decide (questions = [])
  then Raise (HTTPException 500 NoQuestionsFound)
  else
    let notes_raw :=
      match data with
      | PDict d =>
        match d !! str "notes" with
        | Some (PStr candidate) => stripped_lines candidate
        | Some (PList candidate) => stripped_items candidate
        | _ => []
        end
      | _ => []
      end in
    Ok {| questions := questions; notes := notes_raw |}.

Definition _parse_quiz_payload (raw : pystr) : result ParsedQuiz :=
  match loads raw with
  | Ok data => parse_quiz_data data
  | Raise JSONDecodeError => Raise (HTTPException 500 (QuizJsonFailed raw))
  | Raise e => Raise e
  end.

(** *** Quiz endpoints *)

Definition generate_quiz_from_text (payload : QuizFromTextRequest)
    : M QuizResponse :=
  let normalized_text :=
    prefix_chars MAX_SOURCE_CHARS (normalize_text (Some (sourceText payload))) in
  if len normalized_text <? 30
  then raise (HTTPException 400 SourceTextTooShort)
  else
    raw <- generate_with_gemini
             (TextPrompt normalized_text (text_numQuestions payload)
                         (text_difficulty payload)) ;;
    parsed <- lift (_parse_quiz_payload raw) ;;
    t <- now ;;
    record <- add_record
      {| quiz_createdAt := isoformat t;
         sourceType := str "text";
         reference := ReferenceHash (sha256_hex normalized_text);
         numQuestions := len (questions parsed);
         difficulty := Some (text_difficulty payload);
         quiz_questions := questions parsed;
         quiz_notes := notes parsed |} ;;
    ret {| resp_questions := questions parsed;
           resp_notes := notes parsed;
           quizId := quiz_id record |}.

(** The upload behind a fileId: the path resolves inside the upload
    directory and exists. For a fileId that names no upload, [resolve] or
    [exists] raises, or the test fails and the answer is 404. *)
Definition find_upload (file_id : pystr) : M Upload :=
  fun w =>
    match uploads w !! file_id with
    | Some u => (Ok u, w)
    | None =>
      match upload_error file_id with
      | Some e => (Raise e, w)
      | None => (Raise (HTTPException 404 UploadNotFound), w)
      end
    end.

Definition generate_quiz_from_file (payload : QuizFromFileRequest)
    : M QuizResponse :=
  file <- find_upload (quiz_fileId payload) ;;
  extracted_text <-
    (if bool_decide (suffix file = str ".pdf")
     then lift (let? ps := pdf_pages file in Ok (extract_text_from_pdf ps))
     else if bool_decide (suffix file = str ".pptx")
     then lift (let? ss := pptx_slides file in Ok (extract_text_from_pptx ss))
     else raise (HTTPException 400 (UnsupportedExtension (suffix file)))) ;;
  if bool_decide (extracted_text = [])
  then raise (HTTPException 400 NoTextExtracted)
  else
    raw <- generate_with_gemini
             (FilePrompt (prefix_chars MAX_SOURCE_CHARS extracted_text)
                         (file_numQuestions payload)) ;;
    parsed <- lift (_parse_quiz_payload raw) ;;
    t <- now ;;
    record <- add_record
      {| quiz_createdAt := isoformat t;
         sourceType := str "file";
         reference := ReferenceFile (quiz_fileId payload);
         numQuestions := len (questions parsed);
         difficulty := None;
         quiz_questions := questions parsed;
         quiz_notes := notes parsed |} ;;
    ret {| resp_questions := questions parsed;
           resp_notes := notes parsed;
           quizId := quiz_id record |}.

(** *** Page summaries *)

(** [_parse_page_summary] from the parsed [data] on. *)
Definition parse_page_summary_data (data : pyval) : result PageSummary :=
  let? o1 := get data (str "outline") in
  let? o2 := get data (str "summary") in
  let? k1 := get data (str "keyPoints") in
  let? k2 := get data (str "bullets") in
  let? k3 := get data (str "details") in
  let key_points :=
    match por k1 (por k2 (por k3 (PList []))) with
    | PStr key_points_raw => stripped_lines key_points_raw
    | PList key_points_raw => stripped_items key_points_raw
    | _ => []
    end in
  let? s1 := get data (str "studyQuestion") in
  let? s2 := get data (str "quiz") in
  Ok {| outline := strip (py_str (por o1 (por o2 (PStr []))));
        keyPoints := take 5 key_points;
        studyQuestion := strip (py_str (por s1 (por s2 (PStr [])))) |}.

Definition _parse_page_summary (raw : pystr) : result PageSummary :=
  match loads raw with
  | Ok data => parse_page_summary_data data
  | Raise JSONDecodeError => Raise (HTTPException 500 (PageJsonFailed raw))
  | Raise e => Raise e
  end.

Definition _summarize_single_page (label text : pystr) : M PageSummary :=
  raw <- generate_with_gemini (PageSummaryPrompt label text) ;;
  lift (_parse_page_summary raw).

Definition _clip_text (value : pystr) (limit : Z) : pystr :=
  let text := strip value in
  if len text <=? limit then text
  else rstrip (prefix_chars limit text) ++ str " …".

(** The loop of [generate_learning_note] over the chunks. *)
Fixpoint summarize_pages (chunks : list Chunk) (pages : list Page)
    : M (list Page) :=
  match chunks with
  | [] => ret pages
  | chunk :: rest =>
    let text := strip (chunk_text chunk) in
    if bool_decide (text = []) then summarize_pages rest pages
    else
      summary <- _summarize_single_page
                   (chunk_label chunk) (prefix_chars MAX_PAGE_PROMPT_CHARS text) ;;
      summarize_pages rest
        (pages ++ [ {| index := chunk_index chunk;
                       label := chunk_label chunk;
                       text := _clip_text text MAX_PAGE_TEXT_CHARS;
                       summary := summary |} ])
  end.

(** *** Windows *)

Definition _summarize_window_block (window_pages : list Page) : M pystr :=
  raw <- generate_with_gemini (WindowPrompt window_pages) ;;
  ret (strip raw).

(** The dict appended for one window; [window_pages[0]] and
    [window_pages[-1]] raise on an empty list. *)
Definition make_window (window_pages : list Page) (markdown : pystr)
    : result Window :=
  match head window_pages, last window_pages with
  | Some first, Some final =>
    Ok {| startPage := index first;
          endPage := index final;
          pageIndexes := index <$> window_pages;
          markdown := markdown |}
  | _, _ => Raise IndexError
  end.

(** The loop of [_summarize_windows] over [range(len(pages))]. *)
Fixpoint windows_loop (pages : list Page) (left right : Z) (idxs : list Z)
    (seen : gset (Z * Z)) (windows : list Window) : M (list Window) :=
  match idxs with
  | [] => ret windows
  | idx :: rest =>
    let start := 0 `max` (idx - left) in
    let end_ := len pages `min` (idx + right + 1) in
    if bool_decide (end_ - start <= 0)
    then windows_loop pages left right rest seen windows
    else if bool_decide ((start, end_) ∈ seen)
    then windows_loop pages left right rest seen windows
    else
      let window_pages := slice pages start end_ in
      markdown <- _summarize_window_block window_pages ;;
      window <- lift (make_window window_pages markdown) ;;
      windows_loop pages left right rest
        ({[ (start, end_) ]} ∪ seen) (windows ++ [window])
  end.

(** [list.sort(key=..)]: stable, ascending. An element goes before the
    first later element whose key is not smaller. *)
Fixpoint insert_by {A} (key : A -> Z) (x : A) (sorted : list A) : list A :=
  match sorted with
  | [] => [x]
  | y :: rest =>
    if key x <=? key y then x :: y :: rest
    else y :: insert_by key x rest
  end.

Definition sort_by {A} (key : A -> Z) (l : list A) : list A :=
  foldr (insert_by key) [] l.

Definition _summarize_windows (pages : list Page) (window_size : Z)
    : M (list Window) :=
  if bool_decide (pages = []) then ret []
  else
    let clamped_size := 1 `max` (window_size `min` len pages) in
    let left := clamped_size / 2 in
    let right := clamped_size - left - 1 in
    windows <- windows_loop pages left right
                 (seqZ 0 (len pages)) ∅ [] ;;
    ret (sort_by startPage windows).

(** [_merge_markdown] *)
Definition _merge_markdown (windows : list Window) : pystr :=
  let parts :=
    strip <$> filter (fun md => md <> []) (markdown <$> windows) in
  join [LF; LF] (filter (fun part => part <> []) parts).

Definition _extract_page_chunks (file : Upload) : result (list Chunk) :=
  if bool_decide (suffix file = str ".pdf")
  then let? ps := pdf_pages file in Ok (extract_pdf_pages ps)
  else if bool_decide (suffix file = str ".pptx")
  then let? ss := pptx_slides file in Ok (extract_pptx_slides ss)
  else Raise (HTTPException 400 (UnsupportedExtension (suffix file))).

(** *** Learning notes *)

Definition dict (items : list (string * pyval)) : pyval :=
  PDict (list_to_map (prod_map str id <$> items)).

Definition summary_dict (s : PageSummary) : pyval :=
  dict [ ("outline", PStr (outline s));
         ("keyPoints", PList (PStr <$> keyPoints s));
         ("studyQuestion", PStr (studyQuestion s)) ]%string.

Definition page_dict (p : Page) : pyval :=
  dict [ ("index", PInt (index p));
         ("label", PStr (label p));
         ("text", PStr (text p));
         ("summary", summary_dict (summary p)) ]%string.

Definition window_dict (w : Window) : pyval :=
  dict [ ("startPage", PInt (startPage w));
         ("endPage", PInt (endPage w));
         ("pageIndexes", PList (PInt <$> pageIndexes w));
         ("markdown", PStr (markdown w)) ]%string.

(** The [record] dict as it is handed to the store. *)
Definition note_dict (n : LearningNote) : pyval :=
  dict [ ("fileId", PStr (fileId n));
         ("createdAt", createdAt n);
         ("updatedAt", PStr (updatedAt n));
         ("pageCount", PInt (pageCount n));
         ("windowSize", PInt (windowSize n));
         ("pages", PList (page_dict <$> pages n));
         ("windows", PList (window_dict <$> windows n));
         ("markdown", PStr (note_markdown n)) ]%string.

Definition read_note (file_id : pystr) : M pyval :=
  fun w => (read (note_root w) file_id, w).

Definition save_note (file_id : pystr) (payload : pyval) : M pyval :=
  fun w =>
    let '(r, root) := save (note_root w) file_id payload in
    (r, set_note_root root w).

Definition generate_learning_note (payload : LearningNoteRequest)
    : M NoteResponse :=
  existing <- read_note (note_fileId payload) ;;
  if truthy existing && negb (force payload)
  then ret (StoredNote existing)
  else
    file <- find_upload (note_fileId payload) ;;
    chunks <- lift (_extract_page_chunks file) ;;
    if bool_decide (chunks = [])
    then raise (HTTPException 400 NoPagesFound)
    else
      pages <- summarize_pages chunks [] ;;
      if bool_decide (pages = [])
      then raise (HTTPException 400 NoSummarizablePages)
      else
        windows <- _summarize_windows pages (note_windowSize payload) ;;
        let merged_md := _merge_markdown windows in
        t <- now ;;
        created_at <- lift (get (por existing (PDict ∅)) (str "createdAt")) ;;
        let record :=
          {| fileId := note_fileId payload;
             createdAt := por created_at (PStr (isoformat t));
             updatedAt := isoformat t;
             pageCount := len pages;
             windowSize := note_windowSize payload;
             pages := pages;
             windows := windows;
             note_markdown := merged_md |} in
        _ <- save_note (note_fileId payload) (note_dict record) ;;
        ret (NewNote record).

Definition get_learning_note (file_id : pystr) : M pyval :=
  record <- read_note file_id ;;
  if truthy record then ret record
  else raise (HTTPException 404 NoteNotFound).

End Server.
End Main.

(* ===================================================================== *)
(** * Part II: what the properties are stated with                        *)
(* ===================================================================== *)

Module Spec.
Import Py FileParsers LearningNoteStorage Main.

(** ** Text *)

(** No three line feeds in a row. *)
Definition no3 (s : pystr) : Prop :=
  forall pre post, s <> pre ++ [LF; LF; LF] ++ post.

(** What one pass of [normalize_text] leaves. *)
Record normal (s : pystr) : Prop := {
  normal_nul : Forall (fun c => c <> NUL) s;
  normal_cr : Forall (fun c => c <> CR) s;
  normal_lf : no3 s;
  normal_strip : strip s = s;
}.

(** ** Windows *)

(** The range of the window anchored at [idx]. *)
Definition window_key (n left right idx : Z) : Z * Z :=
  (0 `max` (idx - left), n `min` (idx + right + 1)).

(** The ranges [windows_loop] summarises, in the order it meets them. *)
Fixpoint plan (n left right : Z) (idxs : list Z) (seen : gset (Z * Z))
    : list (Z * Z) :=
  match idxs with
  | [] => []
  | idx :: rest =>
    let key := window_key n left right idx in
    if bool_decide (key.2 - key.1 <= 0) then plan n left right rest seen
    else if bool_decide (key ∈ seen) then plan n left right rest seen
    else key :: plan n left right rest ({[ key ]} ∪ seen)
  end.

(** ** Quiz items *)

(** [item.get("options") or item.get("opts") or []], as a list. *)
Definition item_options (d : gmap pystr pyval) : list pyval :=
  as_list (por (default PNone (d !! str "options"))
               (por (default PNone (d !! str "opts")) (PList []))).

(** [item.get("correctIndex", item.get("correct"))] *)
Definition item_correct (d : gmap pystr pyval) : pyval :=
  default (default PNone (d !! str "correct")) (d !! str "correctIndex").

(** A question as the quiz schema wants it. *)
Definition well_formed (q : Question) : Prop :=
  length (options q) = 4%nat /\ 0 <= correctIndex q <= 3.

(** The items of a quiz response: the response itself when it is a list,
    the list under [questions] when it is an object. *)
Definition response_items (data : pyval) : option (list pyval) :=
  match data with
  | PList items => Some items
  | PDict d =>
    match d !! str "questions" with
    | Some (PList items) => Some items
    | _ => None
    end
  | _ => None
  end.

(** The index the spec asks for: the value as an integer, clamped into
    [0,3]; 0 when the value is no integer and cannot be made one. *)
Definition expected_index (v : pyval) : Z :=
  match int v with
  | Ok z => 0 `max` (z `min` 3)
  | Raise _ => 0
  end.

(** The question the spec asks for of the item at [idx]. *)
Definition expected_question (idx : Z) (d : gmap pystr pyval) : Question :=
  {| question :=
       por (default PNone (d !! str "question"))
         (por (default PNone (d !! str "q"))
              (PStr (str "문제 " ++ decimal (idx + 1))));
     options := take 4 (item_options d);
     correctIndex := expected_index (item_correct d);
     explanation := default (PStr []) (d !! str "explanation") |}.

(** The questions the spec asks for of the items from [idx] on: in the
    order of the response, one for every item with at least four options,
    none for any other. *)
Fixpoint expected_from (idx : Z) (items : list pyval) : list Question :=
  match items with
  | [] => []
  | PDict d :: rest =>
    if 4 <=? len (item_options d)
    then expected_question idx d :: expected_from (idx + 1) rest
    else expected_from (idx + 1) rest
  | _ :: rest => expected_from (idx + 1) rest
  end.

Definition expected_questions (items : list pyval) : list Question :=
  expected_from 0 items.

(** An item the parser can read: an object whose [correctIndex] is not an
    infinite float. *)
Definition readable_item (item : pyval) : Prop :=
  exists d, item = PDict d /\
    forall sign, item_correct d <> PFloat (S754_infinity sign).

(** A letter of ASCII. *)
Definition is_letter (c : N) : bool :=
  ((65 <=? c) && (c <=? 90) || (97 <=? c) && (c <=? 122))%N.

(** A character [int] accepts somewhere in a text of ASCII: white space,
    a digit, an underscore, a sign. *)
Definition numeric (c : N) : bool :=
  (is_ascii_space c || (48 <=? c) && (c <=? 57)
   || (c =? 95) || (c =? 43) || (c =? 45))%N.

(** The questions of an accepted parse (none when it raised). *)
Definition parsed_questions (r : result ParsedQuiz) : list Question :=
  match r with
  | Ok parsed => questions parsed
  | Raise _ => []
  end.

Section Runs.
Context `{Runtime} `{Services}.

(** One remote call and one window per planned range. *)
Fixpoint emit (pages : list Page) (keys : list (Z * Z)) (windows : list Window)
    : M (list Window) :=
  match keys with
  | [] => ret windows
  | key :: rest =>
    let window_pages := slice pages key.1 key.2 in
    markdown <- _summarize_window_block window_pages ;;
    window <- lift (make_window window_pages markdown) ;;
    emit pages rest (windows ++ [window])
  end.

(** The remote model answers every prompt with some text. *)
Definition always_answers : Prop :=
  forall history prompt, exists raw,
    reply (generate_content history prompt) = ResponseText (Some raw) /\ raw <> [].

(** ** Remote calls *)

(** What [generate_with_gemini] returns for a response: the text without
    its fences, when there is text. *)
Definition answer (r : Response) : option pystr :=
  match reply r with
  | ResponseText (Some raw) =>
    if bool_decide (raw = []) then None
    else Some (strip (replace FENCE [] (replace FENCE_JSON [] raw)))
  | _ => None
  end.

(** A remote call of note generation that went well: it returned text,
    and the text of a page summary is JSON. *)
Definition good_call (c : Prompt * Response) : Prop :=
  match answer c.2 with
  | None => False
  | Some raw =>
    match c.1 with
    | PageSummaryPrompt _ _ => is_Some (json_loads raw)
    | _ => True
    end
  end.

(** The detail of the error raised for a call that did not go well. *)
Definition failure_detail (c : Prompt * Response) : detail :=
  match answer c.2 with
  | None => GeminiCallFailed
  | Some raw => PageJsonFailed raw
  end.

(** The time a list of calls took. *)
Definition total_latency (new : list (Prompt * Response)) : Z :=
  foldr (fun c acc => latency c.2 + acc) 0 new.

(** [w'] is [w] after the remote calls [new] and nothing else. *)
Record extends (w w' : World) (new : list (Prompt * Response)) : Prop := {
  ext_root : note_root w' = note_root w;
  ext_uploads : uploads w' = uploads w;
  ext_quiz : quiz_records w' = quiz_records w;
  ext_calls : calls w' = calls w ++ new;
  ext_clock : clock w' = clock w + total_latency new;
  ext_model : Forall (fun c => exists history, c.2 = generate_content history c.1) new;
}.

(** Either every call went well, or the last one did not and the
    outcome is the error raised for it. *)
Inductive verdict {A} (r : result A) (new : list (Prompt * Response)) : Prop :=
| AllGood : Forall good_call new -> verdict r new
| Failed pre bad :
    new = pre ++ [bad] -> Forall good_call pre -> ~ good_call bad ->
    r = Raise (HTTPException 500 (failure_detail bad)) -> verdict r new.

(** A computation that only makes remote calls, and stops at the first
    one that does not go well. *)
Definition traced {A} (m : M A) : Prop :=
  forall w r w', m w = (r, w') -> exists new, extends w w' new /\ verdict r new.

(** A run of consecutive page indexes: each is its predecessor plus one. *)
Definition consecutive (l : list Z) : Prop :=
  forall i a b, l !! i = Some a -> l !! S i = Some b -> b = a + 1.

(** The chunks [generate_learning_note] does not pass over. *)
Definition has_text (chunk : Chunk) : Prop := strip (chunk_text chunk) <> [].

(** The prefix of the temporary file [write] asks for. *)
Definition tmp_prefix (file_id : pystr) : pystr :=
  path_stem (_path_for file_id) ++ str "_".

(** What [write] comes to once it is over: the bytes now kept under the
    note's name, or the exception, raised with the directory as it was. *)
Definition write_outcome (root : gmap pystr fsnode) (file_id : pystr) (payload : pyval)
    : result (list byte) :=
  match mkstemp (dom root) (tmp_prefix file_id) (str ".tmp") with
  | Raise e => Raise e
  | Ok name =>
    match root !! (tmp_prefix file_id ++ name ++ str ".tmp") with
    | Some _ => Raise OSError
    | None =>
      match json_dump payload with
      | Raise e => Raise e
      | Ok data =>
        match root !! _path_for file_id with
        | Some Directory => Raise OSError
        | _ => Ok data
        end
      end
    end
  end.

(** [generate_learning_note] between the cache test and the save. *)
Definition build_note (payload : LearningNoteRequest) (existing : pyval)
    : M LearningNote :=
  file <- find_upload (note_fileId payload) ;;
  chunks <- lift (_extract_page_chunks file) ;;
  if bool_decide (chunks = [])
  then raise (HTTPException 400 NoPagesFound)
  else
    pages <- summarize_pages chunks [] ;;
    if bool_decide (pages = [])
    then raise (HTTPException 400 NoSummarizablePages)
    else
      windows <- _summarize_windows pages (note_windowSize payload) ;;
      t <- now ;;
      created_at <- lift (get (por existing (PDict ∅)) (str "createdAt")) ;;
      ret {| fileId := note_fileId payload;
             createdAt := por created_at (PStr (isoformat t));
             updatedAt := isoformat t;
             pageCount := len pages;
             windowSize := note_windowSize payload;
             pages := pages;
             windows := windows;
             note_markdown := _merge_markdown windows |}.

End Runs.
End Spec.

(** ** Sample data: a runtime, a remote model and two worlds *)

Module Demo.
Import Py FileParsers LearningNoteStorage Main.

(** A JSON string literal without escapes, and the bytes of ASCII text. *)
Definition quoted (s : string) : pystr := [34%N] ++ str s ++ [34%N].
Definition ascii_bytes (s : pystr) : list byte := omap Byte.of_N s.

(** The text of a stored note and the value [json.loads] makes of it;
    the sample clock prints its microseconds in decimal. *)
Definition stored_note_text : pystr :=
  str "{" ++ quoted "createdAt" ++ str ": " ++ quoted "40" ++ str ", "
  ++ quoted "updatedAt" ++ str ": " ++ quoted "50" ++ str "}".
Definition stored_note_fields : gmap pystr pyval :=
  list_to_map [ (str "createdAt", PStr (str "40"));
                (str "updatedAt", PStr (str "50")) ].
Definition stored_note : pyval := PDict stored_note_fields.

(** A quiz answer of the remote model and its parsed value. *)
Definition quiz_text : pystr :=
  str "[{" ++ quoted "options" ++ str ": [1, 2, 3, 4, 5], "
  ++ quoted "correct" ++ str ": 99}]".
Definition quiz_data : pyval :=
  PList [ dict [ ("options", PList (PInt <$> [1; 2; 3; 4; 5]));
                 ("correct", PInt 99) ]%string ].

Definition demo_runtime : Runtime := {|
  json_loads raw :=
    if bool_decide (raw = str "{}") then Some (PDict ∅)
    else if bool_decide (raw = str "[]") then Some (PList [])
    else if bool_decide (raw = stored_note_text) then Some stored_note
    else if bool_decide (raw = quiz_text) then Some quiz_data
    else None;
  json_dump payload := Ok (ascii_bytes (str "{}"));
  to_str v := [];
  isoformat t := decimal t;
  sha256_hex s := [];
  path_name s := s;
  mkstemp names prefix suffix := Ok (str "k3v9x2qa");
  stat_raises path := false;
  upload_error file_id := None;
|}.

Definition demo_services : Services := {|
  generate_content history prompt :=
    {| latency := 1;
       reply := ResponseText (Some
         match prompt with
         | WindowPrompt _ => str "### Pages"
         | PageSummaryPrompt _ _ => str "```json{}```"
         | _ => quiz_text
         end) |};
  new_quiz_id n := decimal (Z.of_nat n);
|}.

Definition demo_page (i : Z) : Page :=
  {| index := i; label := str "Page " ++ decimal i; text := str "text";
     summary := {| outline := []; keyPoints := []; studyQuestion := [] |} |}.

Definition empty_world : World :=
  {| note_root := ∅; uploads := ∅; quiz_records := []; calls := []; clock := 100 |}.

(** The page indexes of each window returned (none when the call raised). *)
Definition window_ranges (r : result (list Window)) : list (list Z) :=
  match r with
  | Ok ws => pageIndexes <$> ws
  | Raise _ => []
  end.

(** A three-page PDF whose second page has no text. *)
Definition lecture : Upload :=
  {| suffix := str ".pdf";
     pdf_pages := Ok [Some (str "sets"); None; Some (str "maps")];
     pptx_slides := Raise (LibraryError (str "BadZipFile")) |}.

(** The upload directory holds the lecture; no note is stored yet. *)
Definition fresh_world : World :=
  {| note_root := ∅;
     uploads := {[ str "lecture.pdf" := lecture ]};
     quiz_records := []; calls := []; clock := 100 |}.

(** The same, with a note stored for the lecture. *)
Definition stored_world : World :=
  {| note_root := {[ str "lecture.pdf.json" :=
                       RegularFile true (ascii_bytes stored_note_text) ]};
     uploads := {[ str "lecture.pdf" := lecture ]};
     quiz_records := []; calls := []; clock := 100 |}.

Definition request (force : bool) : LearningNoteRequest :=
  {| note_fileId := str "lecture.pdf"; note_windowSize := 3; force := force |}.

(** The page indexes of each window of a new note (none otherwise). *)
Definition window_runs (r : result NoteResponse) : list (list Z) :=
  match r with
  | Ok (NewNote record) => pageIndexes <$> windows record
  | _ => []
  end.
End Demo.

(** ** Shapes of texts, pages and call logs *)

Module Shapes.
Import Py FileParsers LearningNoteStorage Main Spec.

(** *** Texts *)

(** A text as the parsers keep it: not empty, no outer white space. *)
Definition trimmed (s : pystr) : Prop := s <> [] /\ strip s = s.

(** A JSON object. *)
Definition is_dict (v : pyval) : bool :=
  match v with PDict _ => true | _ => false end.

(** The character of a Markdown code fence. *)
Definition BACKTICK : N := 96%N.

(** No Markdown code fence inside. *)
Definition no_fence (s : pystr) : Prop :=
  forall pre post, s <> pre ++ FENCE ++ post.

(** *** Chunks, pages and windows *)

(** A chunk as an extractor numbers and labels it. *)
Definition labelled (kind : string) (chunk : Chunk) : Prop :=
  chunk_label chunk = str kind ++ decimal (chunk_index chunk) /\
  normal (chunk_text chunk).

(** A window whose Markdown is empty or white space only. *)
Definition blank (win : Window) : Prop := strip (markdown win) = [].

(** The parts [_merge_markdown] joins. *)
Definition merged_parts (windows : list Window) : list pystr :=
  filter (fun part => part <> [])
    (strip <$> filter (fun md => md <> []) (markdown <$> windows)).

(** A page of a note as the loop builds it from a chunk with text. *)
Definition page_of_chunk (p : Page) (chunk : Chunk) : Prop :=
  has_text chunk /\
  index p = chunk_index chunk /\
  label p = chunk_label chunk /\
  text p = _clip_text (strip (chunk_text chunk)) MAX_PAGE_TEXT_CHARS.

(** Ascending by [startPage]. *)
Definition by_startPage (a b : Window) : Prop := startPage a <= startPage b.

(** *** Remote calls *)

(** The prompt of a page summary, of a window merge. *)
Definition is_page_call (c : Prompt * Response) : Prop :=
  match c.1 with PageSummaryPrompt _ _ => True | _ => False end.
Definition is_window_call (c : Prompt * Response) : Prop :=
  match c.1 with WindowPrompt _ => True | _ => False end.

(** The source text a prompt carries stays within the limits the server
    sets: 8000 characters for a quiz, 3500 for a page summary. *)
Definition within_limits (c : Prompt * Response) : Prop :=
  match c.1 with
  | TextPrompt source _ _ => len source <= MAX_SOURCE_CHARS
  | FilePrompt source _ => len source <= MAX_SOURCE_CHARS
  | PageSummaryPrompt _ text => text <> [] /\ len text <= MAX_PAGE_PROMPT_CHARS
  | WindowPrompt window_pages => window_pages <> []
  end.

(** Every remote call a computation makes satisfies [P]. *)
Definition logs (P : Prompt * Response -> Prop) {A} (m : M A) : Prop :=
  forall w r w', m w = (r, w') ->
    exists new, calls w' = calls w ++ new /\ Forall P new.
End Shapes.

(** ** More sample data: a runtime that stores the sample note *)

Module Samples.
Import Py FileParsers LearningNoteStorage Main Spec Demo.

(** A runtime whose [json.dump] writes the text of the sample note, which
    its [json.loads] reads back. *)
Definition note_runtime : Runtime := {|
  json_loads := @json_loads Demo.demo_runtime;
  json_dump payload := Ok (Demo.ascii_bytes Demo.stored_note_text);
  to_str := @to_str Demo.demo_runtime;
  isoformat := @isoformat Demo.demo_runtime;
  sha256_hex := @sha256_hex Demo.demo_runtime;
  path_name := @path_name Demo.demo_runtime;
  mkstemp := @mkstemp Demo.demo_runtime;
  stat_raises := @stat_raises Demo.demo_runtime;
  upload_error := @upload_error Demo.demo_runtime;
|}.

(** A quiz answer with one question and two lines of notes. *)
Definition quiz_with_notes : pyval :=
  dict [ ("questions", quiz_data);
         ("notes", PStr (str " sets " ++ [LF] ++ str "maps")) ]%string.

(** Three windows, the middle one blank. *)
Definition sample_windows : list Window :=
  [ {| startPage := 1; endPage := 2; pageIndexes := [1; 2]; markdown := str "### A" |};
    {| startPage := 1; endPage := 3; pageIndexes := [1; 2; 3]; markdown := str "  " |};
    {| startPage := 2; endPage := 3; pageIndexes := [2; 3]; markdown := str "### B" |} ].
End Samples.

(* ===================================================================== *)
(** * Part III: properties                                                *)
(* ===================================================================== *)

(** ** [normalize_text] *)

Module NormalizeFacts.
Import Py FileParsers Spec.

Lemma replace_nul_clean (s : pystr) :
  Forall (fun c => c <> NUL) (replace [NUL] [SPACE] s).
Proof.
  unfold replace. induction s as [|c t IH]; [constructor|].
  cbn [replace_from starts_with length Nat.sub andb app].
  destruct (N.eqb_spec NUL c) as [<-|Hne]; cbn [andb app].
  - constructor; [discriminate|exact IH].
  - constructor; [congruence|exact IH].
Qed.

Lemma replace_nul_id (s : pystr) :
  Forall (fun c => c <> NUL) s -> replace [NUL] [SPACE] s = s.
Proof.
  unfold replace. induction 1 as [|c t Hc _ IH]; [done|].
  cbn [replace_from starts_with length Nat.sub andb app].
  destruct (N.eqb_spec NUL c) as [<-|Hne]; cbn [andb app]; [done|by rewrite IH].
Qed.

Lemma re_sub_run_Forall (P : N -> Prop) c lo repl fuel (s : pystr) :
  Forall P repl -> Forall P s -> Forall P (re_sub_run_from c lo repl fuel s).
Proof.
  intros Hrepl. revert s. induction fuel as [|fuel IH]; intros s Hs.
  - destruct s; simpl; [constructor|done].
  - destruct s as [|x t]; [constructor|].
    cbn [re_sub_run_from]. destruct (lo <=? _)%nat.
    + apply Forall_app; split; [done|]. apply IH. by apply Forall_drop.
    + inversion Hs; subst. constructor; [done|]. by apply IH.
Qed.

Lemma re_sub_run_id c lo repl fuel (s : pystr) :
  (forall k, (run_length c (drop k s) < lo)%nat) ->
  re_sub_run_from c lo repl fuel s = s.
Proof.
  revert s. induction fuel as [|fuel IH]; intros s Hs.
  - by destruct s.
  - destruct s as [|x t]; [done|].
    cbn [re_sub_run_from].
    pose proof (Hs 0%nat) as H0. rewrite drop_0 in H0.
    destruct (Nat.leb_spec lo (run_length c (x :: t))); [lia|].
    f_equal. apply IH. intros k. apply (Hs (S k)).
Qed.

Lemma run_length_drop c (s : pystr) :
  run_length c (drop (run_length c s) s) = 0%nat.
Proof.
  induction s as [|x t IH]; simpl; [done|].
  destruct (N.eqb_spec x c) as [->|Hne]; simpl.
  - exact IH.
  - destruct (N.eqb_spec x c); [done|reflexivity].
Qed.

Lemma run_length_clean c (s : pystr) k :
  Forall (fun x => x <> c) s -> run_length c (drop k s) = 0%nat.
Proof.
  intros Hs. assert (Hd : Forall (fun x => x <> c) (drop k s)) by by apply Forall_drop.
  destruct Hd as [|x t Hx _]; simpl; [done|].
  by destruct (N.eqb_spec x c).
Qed.

Lemma sub_cr_clean fuel (s : pystr) :
  (length s <= fuel)%nat ->
  Forall (fun x => x <> CR) (re_sub_run_from CR 1 [LF] fuel s).
Proof.
  revert s. induction fuel as [|fuel IH]; intros s Hlen.
  - destruct s; simpl in *; [constructor|lia].
  - destruct s as [|x t]; [constructor|].
    cbn [re_sub_run_from].
    destruct (Nat.leb_spec 1 (run_length CR (x :: t))) as [Hn|Hn].
    + apply Forall_app; split; [by repeat constructor|].
      apply IH. rewrite length_drop. simpl in Hlen. simpl length. lia.
    + constructor.
      * simpl in Hn. destruct (N.eqb_spec x CR); [lia|done].
      * apply IH. simpl in Hlen. lia.
Qed.

Lemma no3_nil : no3 [].
Proof. intros [|? ?] post Heq; discriminate. Qed.

Lemma no3_tail x (s : pystr) : no3 (x :: s) -> no3 s.
Proof. intros Hs pre post ->. by apply (Hs (x :: pre) post). Qed.

Lemma no3_cons x (s : pystr) :
  no3 s -> (x = LF -> (run_length LF s <= 1)%nat) -> no3 (x :: s).
Proof.
  intros Hs Hx [|y pre] post Heq.
  - simpl in Heq. injection Heq as -> ->. specialize (Hx eq_refl).
    simpl in Hx. lia.
  - simpl in Heq. injection Heq as -> ->. by apply (Hs pre post).
Qed.

Lemma no3_infix (pre s post : pystr) : no3 (pre ++ s ++ post) -> no3 s.
Proof.
  intros Hs a b ->. apply (Hs (pre ++ a) (b ++ post)).
  by rewrite <- !app_assoc.
Qed.

Lemma run_length_ge3 (s : pystr) :
  (3 <= run_length LF s)%nat -> exists post, s = [LF; LF; LF] ++ post.
Proof.
  destruct s as [|a [|b [|c post]]]; simpl;
    repeat (match goal with |- context [N.eqb ?x LF] =>
              destruct (N.eqb_spec x LF); subst; simpl end);
    try lia.
  intros _. by exists post.
Qed.

Lemma no3_run_length (s : pystr) k :
  no3 s -> (run_length LF (drop k s) < 3)%nat.
Proof.
  intros Hs. destruct (Nat.ltb_spec (run_length LF (drop k s)) 3) as [|Hge]; [done|].
  destruct (run_length_ge3 _ Hge) as [post Hpost].
  exfalso. apply (Hs (take k s) post). by rewrite <- Hpost, take_drop.
Qed.

Lemma squeeze_spec fuel (s : pystr) :
  (length s <= fuel)%nat ->
  no3 (re_sub_run_from LF 3 [LF; LF] fuel s) /\
  (run_length LF (re_sub_run_from LF 3 [LF; LF] fuel s) <= run_length LF s)%nat.
Proof.
  revert s. induction fuel as [|fuel IH]; intros s Hlen.
  - destruct s; simpl in *; [split; [apply no3_nil|lia]|lia].
  - destruct s as [|x t]; [split; [apply no3_nil|simpl; lia]|].
    cbn [re_sub_run_from].
    destruct (Nat.leb_spec 3 (run_length LF (x :: t))) as [Hn|Hn].
    + destruct (IH (drop (run_length LF (x :: t)) (x :: t))) as [Hno Hrun].
      { rewrite length_drop. simpl in Hlen. simpl length. lia. }
      rewrite run_length_drop in Hrun.
      set (out := re_sub_run_from _ _ _ _ _) in *.
      assert (Hout : run_length LF out = 0%nat) by lia.
      split.
      * simpl. apply no3_cons; [apply no3_cons; [done|lia]|].
        intros _. simpl. rewrite Hout. lia.
      * simpl app. change (run_length LF (LF :: LF :: out)) with (S (S (run_length LF out))).
        lia.
    + destruct (IH t) as [Hno Hrun]; [simpl in Hlen; lia|].
      simpl in Hn. split.
      * apply no3_cons; [done|]. intros ->. simpl in Hn. lia.
      * simpl. destruct (N.eqb_spec x LF); lia.
Qed.

Lemma lstrip_suffix (s : pystr) : exists pre, s = pre ++ lstrip s.
Proof.
  induction s as [|c t [pre IH]]; [by exists []|]. simpl.
  destruct (isspace c); [|by exists []].
  exists (c :: pre). simpl. by f_equal.
Qed.

Lemma rstrip_prefix (s : pystr) : exists post, s = rstrip s ++ post.
Proof.
  induction s as [|c t [post IH]]; [by exists []|]. simpl.
  destruct (rstrip t) as [|r0 r] eqn:Hr.
  - destruct (isspace c); [by exists (c :: t)|].
    exists post. simpl. by f_equal.
  - exists post. simpl. by f_equal.
Qed.

Lemma strip_infix (s : pystr) : exists pre post, s = pre ++ strip s ++ post.
Proof.
  unfold strip. destruct (lstrip_suffix s) as [pre Hpre].
  destruct (rstrip_prefix (lstrip s)) as [post Hpost].
  exists pre, post. by rewrite <- Hpost.
Qed.

Lemma lstrip_head (s : pystr) c t : lstrip s = c :: t -> isspace c = false.
Proof.
  induction s as [|x s IH]; simpl; [done|].
  destruct (isspace x) eqn:Hx; [done|]. by intros [= <- _].
Qed.

Lemma lstrip_id c (t : pystr) : isspace c = false -> lstrip (c :: t) = c :: t.
Proof. intros Hc. simpl. by rewrite Hc. Qed.

Lemma rstrip_head c (t : pystr) :
  isspace c = false -> exists r, rstrip (c :: t) = c :: r.
Proof.
  intros Hc. simpl. destruct (rstrip t) as [|r0 r]; rewrite ?Hc; eauto.
Qed.

Lemma rstrip_idem (s : pystr) : rstrip (rstrip s) = rstrip s.
Proof.
  induction s as [|c t IH]; [done|]. simpl.
  destruct (rstrip t) as [|r0 r] eqn:Hr.
  - destruct (isspace c) eqn:Hc; [done|]. simpl. by rewrite Hc.
  - change (rstrip (c :: r0 :: r)) with
      (match rstrip (r0 :: r) with
       | [] => if isspace c then [] else [c]
       | x :: l => c :: x :: l
       end).
    by rewrite IH.
Qed.

Lemma strip_idem (s : pystr) : strip (strip s) = strip s.
Proof.
  unfold strip. destruct (lstrip s) as [|c t] eqn:Hl; [done|].
  pose proof (lstrip_head _ _ _ Hl) as Hc.
  destruct (rstrip_head c t Hc) as [r Hr]. rewrite Hr.
  rewrite (lstrip_id c r Hc), <- Hr. apply rstrip_idem.
Qed.

Lemma Forall_strip (P : N -> Prop) (s : pystr) : Forall P s -> Forall P (strip s).
Proof.
  intros Hs. destruct (strip_infix s) as (pre & post & Heq).
  rewrite Heq in Hs. apply Forall_app in Hs as [_ Hs].
  by apply Forall_app in Hs as [Hs _].
Qed.

Lemma no3_strip (s : pystr) : no3 s -> no3 (strip s).
Proof.
  intros Hs. destruct (strip_infix s) as (pre & post & Heq).
  rewrite Heq in Hs. by apply no3_infix in Hs.
Qed.

Lemma normalize_text_normal (text : option pystr) : normal (normalize_text text).
Proof.
  unfold normalize_text, re_sub_run.
  set (a := replace [NUL] [SPACE] (default [] text)).
  set (b := re_sub_run_from CR 1 [LF] (length a) a).
  assert (Ha : Forall (fun c => c <> NUL) a) by apply replace_nul_clean.
  assert (Hb1 : Forall (fun c => c <> NUL) b).
  { apply re_sub_run_Forall; [by repeat constructor|done]. }
  assert (Hb2 : Forall (fun c => c <> CR) b) by by apply sub_cr_clean.
  destruct (squeeze_spec (length b) b) as [Hc3 _]; [done|].
  split.
  - apply Forall_strip, re_sub_run_Forall; [by repeat constructor|done].
  - apply Forall_strip, re_sub_run_Forall; [by repeat constructor|done].
  - by apply no3_strip.
  - apply strip_idem.
Qed.

Lemma normalize_text_fixed (s : pystr) : normal s -> normalize_text (Some s) = s.
Proof.
  intros [Hnul Hcr Hlf Hstrip]. unfold normalize_text, re_sub_run. simpl default.
  rewrite replace_nul_id by done.
  rewrite (re_sub_run_id CR 1).
  2:{ intros k. rewrite run_length_clean by done. lia. }
  rewrite (re_sub_run_id LF 3); [done|].
  intros k. by apply no3_run_length.
Qed.

(** C9. [normalize_text] is idempotent: a second pass over its own
    result changes nothing. *)
Theorem normalize_text_idempotent (s : option pystr) :
  normalize_text (Some (normalize_text s)) = normalize_text s.
Proof. apply normalize_text_fixed, normalize_text_normal. Qed.

End NormalizeFacts.

(** ** The window planner *)

Module WindowFacts.
Import Py FileParsers LearningNoteStorage Main Spec.

Section Windows.
Context `{Runtime} `{Services}.

Lemma windows_loop_plan pages left right idxs seen windows w :
  windows_loop pages left right idxs seen windows w
  = emit pages (plan (len pages) left right idxs seen) windows w.
Proof.
  revert seen windows w.
  induction idxs as [|idx rest IH]; intros seen windows w; [done|].
  cbn [windows_loop plan]. unfold window_key. cbn [fst snd].
  case_bool_decide; [apply IH|].
  case_bool_decide; [apply IH|].
  cbn [emit fst snd]. unfold bind.
  destruct (_summarize_window_block _ w) as [[md|e] w1]; [|done].
  destruct (lift _ w1) as [[win|e] w2]; [|done].
  apply IH.
Qed.

Lemma make_window_ok window_pages md win :
  make_window window_pages md = Ok win ->
  window_pages <> [] /\ pageIndexes win = index <$> window_pages /\
  head (pageIndexes win) = Some (startPage win) /\
  last (pageIndexes win) = Some (endPage win) /\ markdown win = md.
Proof.
  unfold make_window.
  destruct (head window_pages) as [first|] eqn:Hh; [|done].
  destruct (last window_pages) as [final|] eqn:Hl; [|done].
  intros [= <-]. cbn. split; [by destruct window_pages|].
  split; [done|].
  by rewrite head_lookup, list_lookup_fmap, <- head_lookup, fmap_last, Hh, Hl.
Qed.

Lemma make_window_total window_pages md :
  window_pages <> [] -> exists win, make_window window_pages md = Ok win.
Proof.
  intros Hne. unfold make_window.
  destruct window_pages as [|p l] using rev_ind; [done|].
  rewrite last_snoc. destruct (head (l ++ [p])) eqn:Hh; [eauto|].
  by destruct l.
Qed.

(** What [emit] appends: a window for each range, in order. *)
Definition emitted (pages : list Page) (key : Z * Z) (win : Window) : Prop :=
  exists md, make_window (slice pages key.1 key.2) md = Ok win.

Lemma emit_ok pages keys acc w ws w' :
  emit pages keys acc w = (Ok ws, w') ->
  exists new, ws = acc ++ new /\ Forall2 (emitted pages) keys new.
Proof.
  revert acc w. induction keys as [|key rest IH]; intros acc w.
  - intros [= <- <-]. exists []. by rewrite app_nil_r.
  - cbn [emit]. unfold bind at 1.
    destruct (_summarize_window_block _ w) as [[md|e] w1]; [|done].
    unfold bind at 1, lift.
    destruct (make_window _ md) as [win|e] eqn:Hwin; [|done].
    intros Hrun. apply IH in Hrun as (new & -> & Hnew).
    exists (win :: new). split; [by rewrite <- app_assoc|].
    constructor; [by exists md|done].
Qed.

Lemma generate_answers prompt w :
  always_answers -> exists raw w', generate_with_gemini prompt w = (Ok raw, w').
Proof.
  intros Hans. unfold generate_with_gemini.
  destruct (Hans (fst <$> calls w) prompt) as (raw & -> & Hraw).
  rewrite bool_decide_eq_false_2 by done. eauto.
Qed.

Lemma emit_total pages keys acc w :
  always_answers ->
  Forall (fun key => slice pages key.1 key.2 <> []) keys ->
  exists ws w', emit pages keys acc w = (Ok ws, w').
Proof.
  intros Hans Hkeys. revert acc w.
  induction Hkeys as [|key rest Hkey _ IH]; intros acc w; [by eexists _, _|].
  cbn [emit]. unfold bind at 1, _summarize_window_block, bind at 1.
  destruct (generate_answers (WindowPrompt (slice pages key.1 key.2)) w Hans)
    as (raw & w1 & ->).
  unfold ret, bind, lift.
  destruct (make_window_total _ (strip raw) Hkey) as [win ->].
  apply IH.
Qed.

(** *** The plan *)

Lemma plan_keys n left right idxs seen key :
  key ∈ plan n left right idxs seen ->
  exists idx, idx ∈ idxs /\ key = window_key n left right idx /\ key.1 < key.2.
Proof.
  revert seen. induction idxs as [|idx rest IH]; intros seen; cbn [plan].
  - by intros ?%elem_of_nil.
  - case_bool_decide as Hlen; [|case_bool_decide].
    + intros (i & ? & ?)%IH. exists i. split; [by right|done].
    + intros (i & ? & ?)%IH. exists i. split; [by right|done].
    + intros [->|(i & ? & ?)%IH]%elem_of_cons.
      * exists idx. split; [by left|]. split; [done|lia].
      * exists i. split; [by right|done].
Qed.

Lemma plan_complete n left right idxs seen idx :
  idx ∈ idxs ->
  (window_key n left right idx).1 < (window_key n left right idx).2 ->
  window_key n left right idx ∈ plan n left right idxs seen
  \/ window_key n left right idx ∈ seen.
Proof.
  intros Hin Hlt. revert seen.
  induction idxs as [|i rest IH]; intros seen; [by apply elem_of_nil in Hin|].
  cbn [plan]. apply elem_of_cons in Hin as [<-|Hin].
  - rewrite bool_decide_eq_false_2 by lia.
    case_bool_decide; [by right|]. left. by left.
  - specialize (IH Hin).
    case_bool_decide; [apply IH|]. case_bool_decide; [apply IH|].
    destruct (IH ({[window_key n left right i]} ∪ seen)) as [?|Hs].
    + left. by right.
    + apply elem_of_union in Hs as [->%elem_of_singleton|?]; [left; by left|by right].
Qed.

Lemma slice_nonempty {A} (l : list A) a b :
  0 <= a -> a < b -> b <= len l -> slice l a b <> [].
Proof.
  unfold slice, len. intros Ha Hab Hb Hnil.
  apply (f_equal length) in Hnil. rewrite length_take, length_drop in Hnil.
  simpl in Hnil. lia.
Qed.

Lemma insert_by_perm {A} (key : A -> Z) x l : insert_by key x l ≡ₚ x :: l.
Proof.
  induction l as [|y l IH]; cbn [insert_by]; [done|].
  destruct (key x <=? key y); [done|]. rewrite IH. apply Permutation_swap.
Qed.

Lemma sort_by_perm {A} (key : A -> Z) (l : list A) : sort_by key l ≡ₚ l.
Proof.
  induction l as [|x l IH]; [done|]. cbn [sort_by foldr].
  fold (sort_by key l). by rewrite insert_by_perm, IH.
Qed.

(** The half widths [_summarize_windows] computes. *)
Lemma half_widths window_size n :
  0 < n ->
  let clamped := 1 `max` (window_size `min` n) in
  0 <= clamped / 2 /\ 0 <= clamped - clamped / 2 - 1.
Proof.
  intros Hn clamped. assert (1 <= clamped) by lia.
  pose proof (Z.div_pos clamped 2). 
  assert (clamped / 2 < clamped) by (apply Z.div_lt; lia). lia.
Qed.

Lemma _summarize_windows_plan pages window_size w :
  pages <> [] ->
  let clamped := 1 `max` (window_size `min` len pages) in
  let left := clamped / 2 in
  let right := clamped - left - 1 in
  _summarize_windows pages window_size w
  = match emit pages (plan (len pages) left right (seqZ 0 (len pages)) ∅) [] w with
    | (Ok windows, w') => (Ok (sort_by startPage windows), w')
    | (Raise e, w') => (Raise e, w')
    end.
Proof.
  intros Hne. cbn zeta. unfold _summarize_windows.
  rewrite bool_decide_eq_false_2 by done. unfold bind.
  rewrite windows_loop_plan.
  by destruct (emit _ _ _ w) as [[?|?] ?].
Qed.

(** Two anchors never share a range, so the seen-set passes every anchor:
    the plan has one range per page. *)
Lemma window_key_inj n left right i j :
  0 <= left -> 0 <= right -> left + right + 1 <= n ->
  0 <= i < n -> 0 <= j < n ->
  window_key n left right i = window_key n left right j -> i = j.
Proof. unfold window_key. intros ? ? ? ? ? [= Hstart Hend]. lia. Qed.

Lemma plan_every_anchor n left right idxs seen :
  0 <= left -> 0 <= right -> left + right + 1 <= n ->
  NoDup idxs ->
  (forall i, i ∈ idxs -> 0 <= i < n) ->
  (forall i, i ∈ idxs -> window_key n left right i ∉ seen) ->
  plan n left right idxs seen = window_key n left right <$> idxs.
Proof.
  intros Hl Hr Hn Hdup. revert seen.
  induction Hdup as [|idx rest Hnotin Hdup IH]; intros seen Hrange Hseen; [done|].
  cbn [plan fmap list_fmap].
  pose proof (Hrange idx ltac:(by left)) as Hidx.
  rewrite bool_decide_eq_false_2 by (cbn; lia).
  rewrite bool_decide_eq_false_2 by (apply Hseen; by left).
  f_equal. apply IH.
  - intros i Hi. apply Hrange. by right.
  - intros i Hi [Heq%elem_of_singleton|Hin]%elem_of_union.
    + apply window_key_inj in Heq; [|done|done|done|apply Hrange; by right|done].
      by subst.
    + apply (Hseen i); [by right|done].
Qed.

Lemma one_window_per_page pages window_size w ws w' :
  pages <> [] ->
  _summarize_windows pages window_size w = (Ok ws, w') ->
  length ws = length pages.
Proof.
  intros Hne. rewrite _summarize_windows_plan by done.
  assert (Hn : 0 < len pages) by (destruct pages; [done|unfold len; simpl; lia]).
  destruct (half_widths window_size _ Hn) as [Hl Hr].
  rewrite plan_every_anchor; [|done|done|lia|apply NoDup_seqZ| |].
  - destruct (emit _ _ _ w) as [[new|e] w1] eqn:Hemit; [|done].
    intros [= <- <-]. apply emit_ok in Hemit as (new' & -> & Hnew).
    cbn [app]. rewrite sort_by_perm. apply Forall2_length in Hnew.
    rewrite <- Hnew, length_fmap, length_seqZ. unfold len. lia.
  - intros i Hi%elem_of_seqZ. lia.
  - intros i _ Hin. by apply elem_of_empty in Hin.
Qed.

(** Every window is a non-empty slice of the pages. *)
Lemma summarize_windows_slices pages window_size w ws w' win :
  pages <> [] ->
  _summarize_windows pages window_size w = (Ok ws, w') ->
  win ∈ ws ->
  exists start end_,
    0 <= start < end_ /\ end_ <= len pages /\
    pageIndexes win = index <$> slice pages start end_.
Proof.
  intros Hne. rewrite _summarize_windows_plan by done.
  destruct (emit _ _ _ w) as [[new|e] w1] eqn:Hemit; [|done].
  intros [= <- <-]. apply emit_ok in Hemit as (new' & -> & Hnew).
  cbn [app]. rewrite sort_by_perm. intros Hwin.
  destruct (proj1 (list_elem_of_lookup _ _) Hwin) as [k Hk].
  destruct (Forall2_lookup_r _ _ _ _ _ Hnew Hk) as (key & Hkey & md & Hmk).
  apply make_window_ok in Hmk as (_ & Hidx & _).
  apply list_elem_of_lookup_2, plan_keys in Hkey as (idx & _ & -> & Hlt).
  eexists _, _. split; [|split; [|exact Hidx]]; cbn in *; lia.
Qed.

(** C1. For a non-empty page list of length n and any requested window
    size, [_summarize_windows] (which clamps the size to [1,n]) returns,
    when the remote model answers, windows such that every page position
    in [0,n) lies in the range [start,end) of one of them, and every window
    holds at least one page. *)
Theorem windows_cover_every_page (pages : list Page) (window_size : Z) (w : World) :
  pages <> [] ->
  (always_answers ->
   exists ws w', _summarize_windows pages window_size w = (Ok ws, w')) /\
  (forall ws w', _summarize_windows pages window_size w = (Ok ws, w') ->
     (forall i, 0 <= i < len pages ->
        exists win start end_,
          win ∈ ws /\ 0 <= start <= i /\ i < end_ <= len pages /\
          pageIndexes win = index <$> slice pages start end_) /\
     (forall win, win ∈ ws -> (0 < length (pageIndexes win))%nat)).
Proof.
  intros Hne. rewrite _summarize_windows_plan by done.
  assert (Hn : 0 < len pages) by (destruct pages; [done|unfold len; simpl; lia]).
  destruct (half_widths window_size _ Hn) as [Hl Hr].
  set (left := _ / 2) in *. set (right := _ - left - 1) in *.
  set (keys := plan _ _ _ _ _).
  assert (Hkeys : forall key, key ∈ keys ->
            0 <= key.1 /\ key.1 < key.2 /\ key.2 <= len pages).
  { intros key (idx & _ & -> & Hlt)%plan_keys. cbn in *. lia. }
  split.
  - intros Hans. destruct (emit_total pages keys [] w Hans) as (ws & w' & ->).
    + apply Forall_forall. intros key Hkey.
      destruct (Hkeys key Hkey) as (? & ? & ?). by apply slice_nonempty.
    + by eexists _, _.
  - intros ws w'. destruct (emit _ _ _ w) as [[new|e] w1] eqn:Hemit; [|done].
    intros [= <- <-]. apply emit_ok in Hemit as (new' & -> & Hnew).
    cbn [app] in *. split.
    + intros i Hi.
      destruct (plan_complete (len pages) left right (seqZ 0 (len pages)) ∅ i)
        as [Hin|Hin].
      { apply elem_of_seqZ. lia. }
      { cbn. lia. }
      2:{ by apply elem_of_empty in Hin. }
      destruct (proj1 (list_elem_of_lookup _ _) Hin) as [k Hk].
      destruct (Forall2_lookup_l _ _ _ _ _ Hnew Hk) as (win & Hwin & md & Hmk).
      apply make_window_ok in Hmk as (_ & Hidx & _).
      exists win, (0 `max` (i - left)), (len pages `min` (i + right + 1)).
      split; [|split; [lia|split; [lia|exact Hidx]]].
      rewrite sort_by_perm. by eapply list_elem_of_lookup_2.
    + intros win Hwin. rewrite sort_by_perm in Hwin.
      destruct (proj1 (list_elem_of_lookup _ _) Hwin) as [k Hk].
      destruct (Forall2_lookup_r _ _ _ _ _ Hnew Hk) as (key & Hkey & md & Hmk).
      apply make_window_ok in Hmk as (Hne' & -> & _).
      rewrite length_fmap. destruct (slice pages _ _); [done|simpl; lia].
Qed.

(** C2 (amended). For five pages and window size 5 the planner takes
    left = 2 and right = 2 and emits five windows, one per anchor, over
    the ranges [0,3), [0,4), [0,5), [1,5) and [2,5); just one of them
    covers [0,5). The seen-set removes nothing: the ranges differ. *)
Theorem five_pages_five_windows (pages : list Page) (w w' : World) (ws : list Window) :
  len pages = 5 ->
  _summarize_windows pages 5 w = (Ok ws, w') ->
  length ws = 5%nat /\
  pageIndexes <$> ws ≡ₚ
    [ index <$> slice pages 0 3; index <$> slice pages 0 4;
      index <$> slice pages 0 5; index <$> slice pages 1 5;
      index <$> slice pages 2 5 ].
Proof.
  intros Hlen. rewrite _summarize_windows_plan by (by destruct pages).
  rewrite Hlen.
  change (plan _ _ _ _ _) with [(0, 3); (0, 4); (0, 5); (1, 5); (2, 5)].
  destruct (emit _ _ _ w) as [[new|e] w1] eqn:Hemit; [|done].
  intros [= <- <-]. apply emit_ok in Hemit as (new' & -> & Hnew).
  cbn [app]. rewrite sort_by_perm.
  repeat (apply Forall2_cons_inv_l in Hnew as (? & ? & (? & (_ & ? & _)%make_window_ok) & Hnew & ->)).
  apply Forall2_nil_inv_l in Hnew as ->.
  split; [done|]. cbn [fmap list_fmap fst snd] in *. by repeat f_equiv.
Qed.

End Windows.

Import Demo.
#[local] Existing Instance demo_runtime.
#[local] Existing Instance demo_services.

(** C2 as stated fails: five pages with window size 5 give five windows,
    not one. *)
Lemma five_pages_not_one_window :
  window_ranges (_summarize_windows (demo_page <$> [1; 2; 3; 4; 5]) 5 empty_world).1
  = [[1; 2; 3]; [1; 2; 3; 4]; [1; 2; 3; 4; 5]; [2; 3; 4; 5]; [3; 4; 5]].
Proof. vm_compute. reflexivity. Qed.

(** C1 at three pages, window size 3, a model that always answers. *)
Lemma windows_cover_every_page_witness :
  exists ws w',
    _summarize_windows (demo_page <$> [1; 2; 3]) 3 empty_world = (Ok ws, w') /\
    forall win, win ∈ ws -> (0 < length (pageIndexes win))%nat.
Proof.
  destruct (windows_cover_every_page (demo_page <$> [1; 2; 3]) 3 empty_world)
    as [Htotal Hcover]; [done|].
  destruct Htotal as (ws & w' & Hrun).
  { intros history prompt. eexists. split; [reflexivity|]. by destruct prompt. }
  exists ws, w'. split; [exact Hrun|]. by destruct (Hcover ws w' Hrun).
Defined.

(** C2 (amended) at five concrete pages. *)
Lemma five_pages_five_windows_witness :
  exists ws w',
    _summarize_windows (demo_page <$> [1; 2; 3; 4; 5]) 5 empty_world = (Ok ws, w') /\
    length ws = 5%nat.
Proof.
  destruct (_summarize_windows (demo_page <$> [1; 2; 3; 4; 5]) 5 empty_world)
    as [r w'] eqn:Hrun.
  assert (exists ws, r = Ok ws) as [ws ->].
  { pose proof Hrun as Hval. vm_compute in Hval. injection Hval as <- _. by eexists. }
  exists ws, w'. split; [done|].
  assert (Hlen : len (demo_page <$> [1; 2; 3; 4; 5]) = 5) by reflexivity.
  by destruct (five_pages_five_windows
                 (demo_page <$> [1; 2; 3; 4; 5]) empty_world w' ws Hlen Hrun).
Defined.

End WindowFacts.

(** ** Learning notes and their store *)

Module NoteFacts.
Import Py FileParsers LearningNoteStorage Main Spec.

Section Notes.
Context `{Runtime} `{Services}.

Lemma total_latency_app new1 new2 :
  total_latency (new1 ++ new2) = total_latency new1 + total_latency new2.
Proof.
  unfold total_latency. induction new1 as [|c l IH]; cbn [app foldr]; lia.
Qed.

Lemma extends_refl w : extends w w [].
Proof. split; try done. by rewrite app_nil_r. cbn. lia. Qed.

Lemma extends_trans w1 w2 w3 new1 new2 :
  extends w1 w2 new1 -> extends w2 w3 new2 -> extends w1 w3 (new1 ++ new2).
Proof.
  intros [] []. split; try congruence.
  - rewrite app_assoc. congruence.
  - rewrite total_latency_app. lia.
  - by apply Forall_app.
Qed.

Lemma traced_ret {A} (a : A) : traced (ret a).
Proof. intros w r w' [= <- <-]. exists []. split; [apply extends_refl|by left]. Qed.

Lemma traced_lift {A} (x : result A) : traced (lift x).
Proof. intros w r w' [= <- <-]. exists []. split; [apply extends_refl|by left]. Qed.

Lemma traced_raise {A} e : traced (raise (A:=A) e).
Proof. intros w r w' [= <- <-]. exists []. split; [apply extends_refl|by left]. Qed.

Lemma verdict_ok_good {A} (a : A) new : verdict (Ok a) new -> Forall good_call new.
Proof. by intros [?|pre bad _ _ _ ?]. Qed.

Lemma traced_bind {A B} (m : M A) (k : A -> M B) :
  traced m -> (forall a, traced (k a)) -> traced (bind m k).
Proof.
  intros Hm Hk w r w'. unfold bind.
  destruct (m w) as [[a|e] w1] eqn:Hrun.
  - intros Hrun2. destruct (Hm _ _ _ Hrun) as (new1 & Hext1 & Hv1).
    destruct (Hk a _ _ _ Hrun2) as (new2 & Hext2 & Hv2).
    exists (new1 ++ new2). split; [by eapply extends_trans|].
    apply verdict_ok_good in Hv1.
    destruct Hv2 as [Hgood|pre bad -> Hpre Hbad ->].
    + left. by apply Forall_app.
    + eapply (Failed _ _ (new1 ++ pre) bad); [by rewrite app_assoc| |done|done].
      by apply Forall_app.
  - intros [= <- <-]. destruct (Hm _ _ _ Hrun) as (new1 & Hext1 & Hv1).
    exists new1. split; [done|].
    destruct Hv1 as [Hgood|pre bad -> Hpre Hbad [= ->]]; [by left|].
    by eapply Failed.
Qed.

(** One call: the world after it, and the outcome by the response. *)
Lemma generate_with_gemini_run prompt w :
  let response := generate_content (fst <$> calls w) prompt in
  generate_with_gemini prompt w
  = (match answer response with
     | Some raw => Ok raw
     | None => Raise (HTTPException 500 GeminiCallFailed)
     end, log_call prompt response w).
Proof.
  cbn zeta. unfold generate_with_gemini, answer.
  destruct (reply _) as [|[raw|]]; [done| |done].
  by case_bool_decide.
Qed.

Lemma extends_log_call prompt w :
  extends w (log_call prompt (generate_content (fst <$> calls w) prompt) w)
    [(prompt, generate_content (fst <$> calls w) prompt)].
Proof.
  split; try done.
  - cbn. lia.
  - repeat constructor. by eexists.
Qed.

Lemma traced_summarize_single_page label text :
  traced (_summarize_single_page label text).
Proof.
  intros w r w'. unfold _summarize_single_page, bind.
  rewrite generate_with_gemini_run.
  set (response := generate_content _ _). intros Hrun.
  exists [(PageSummaryPrompt label text, response)].
  destruct (answer response) as [raw|] eqn:Hans.
  - unfold lift in Hrun. injection Hrun as <- <-.
    split; [apply extends_log_call|].
    unfold _parse_page_summary, loads.
    destruct (json_loads raw) as [data|] eqn:Hloads.
    + left. repeat constructor. unfold good_call. cbn [fst snd]. by rewrite Hans, Hloads.
    + eapply (Failed _ _ []); [done|done| |].
      * unfold good_call. cbn [fst snd]. rewrite Hans, Hloads. by intros [? ?].
      * unfold failure_detail. cbn [snd]. by rewrite Hans.
  - injection Hrun as <- <-. split; [apply extends_log_call|].
    eapply (Failed _ _ []); [done|done| |].
    + unfold good_call. cbn [fst snd]. rewrite Hans. tauto.
    + unfold failure_detail. cbn [snd]. by rewrite Hans.
Qed.

Lemma traced_summarize_window_block window_pages :
  traced (_summarize_window_block window_pages).
Proof.
  intros w r w'. unfold _summarize_window_block, bind.
  rewrite generate_with_gemini_run.
  set (response := generate_content _ _). intros Hrun.
  exists [(WindowPrompt window_pages, response)].
  destruct (answer response) as [raw|] eqn:Hans.
  - injection Hrun as <- <-. split; [apply extends_log_call|].
    left. repeat constructor. unfold good_call. cbn [fst snd]. rewrite Hans. tauto.
  - injection Hrun as <- <-. split; [apply extends_log_call|].
    eapply (Failed _ _ []); [done|done| |].
    + unfold good_call. cbn [fst snd]. rewrite Hans. tauto.
    + unfold failure_detail. cbn [snd]. by rewrite Hans.
Qed.

Lemma traced_summarize_pages chunks pages : traced (summarize_pages chunks pages).
Proof.
  revert pages. induction chunks as [|chunk rest IH]; intros pages.
  - apply traced_ret.
  - cbn [summarize_pages]. case_bool_decide; [apply IH|].
    apply traced_bind; [apply traced_summarize_single_page|]. intros s. apply IH.
Qed.

Lemma traced_emit pages keys windows : traced (emit pages keys windows).
Proof.
  revert windows. induction keys as [|key rest IH]; intros windows.
  - apply traced_ret.
  - cbn [emit]. apply traced_bind; [apply traced_summarize_window_block|].
    intros md. apply traced_bind; [apply traced_lift|]. intros win. apply IH.
Qed.

Lemma traced_ext {A} (m1 m2 : M A) : (forall w, m1 w = m2 w) -> traced m2 -> traced m1.
Proof. intros Heq Hm w r w'. rewrite Heq. apply Hm. Qed.

Lemma traced_summarize_windows pages window_size :
  traced (_summarize_windows pages window_size).
Proof.
  unfold _summarize_windows. case_bool_decide; [apply traced_ret|].
  apply traced_bind; [|intros ws; apply traced_ret].
  eapply traced_ext; [intros w; apply WindowFacts.windows_loop_plan|].
  apply traced_emit.
Qed.

Lemma summarize_single_page_extends label text w r w' :
  _summarize_single_page label text w = (r, w') -> exists c, extends w w' [c].
Proof.
  unfold _summarize_single_page, bind. rewrite generate_with_gemini_run.
  destruct (answer _); intros [= <- <-]; eexists; apply extends_log_call.
Qed.

(** The pages built: one per chunk with text, in order, one call each. *)
Lemma summarize_pages_ok chunks acc w pages w' :
  summarize_pages chunks acc w = (Ok pages, w') ->
  exists built new,
    pages = acc ++ built /\
    index <$> built = chunk_index <$> filter has_text chunks /\
    extends w w' new /\ length new = length built.
Proof.
  revert acc w. induction chunks as [|chunk rest IH]; intros acc w.
  - intros [= <- <-]. exists [], []. rewrite app_nil_r.
    split; [done|]. split; [done|]. split; [apply extends_refl|done].
  - cbn [summarize_pages]. rewrite filter_cons. unfold has_text at 1.
    case_bool_decide as Htext.
    + rewrite decide_False by (by intros ?). apply IH.
    + rewrite decide_True by done. unfold bind at 1.
      destruct (_summarize_single_page _ _ w) as [[s|e] w1] eqn:Hpage; [|done].
      apply summarize_single_page_extends in Hpage as [c Hc].
      intros (built & new & -> & Hidx & Hext & Hlen)%IH.
      eexists (_ :: built), (c :: new). split; [by rewrite <- app_assoc|].
      split; [cbn; by rewrite Hidx|]. split; [|cbn; by rewrite Hlen].
      by apply (extends_trans w w1 w' [c] new).
Qed.

Lemma traced_find_upload file_id : traced (find_upload file_id).
Proof.
  intros w r w'. unfold find_upload.
  destruct (uploads w !! file_id); [|destruct (upload_error file_id)];
    intros [= <- <-]; (exists []; split; [apply extends_refl|by left]).
Qed.

Lemma traced_now : traced now.
Proof. intros w r w' [= <- <-]. exists []. split; [apply extends_refl|by left]. Qed.

Lemma traced_build_note payload existing : traced (build_note payload existing).
Proof.
  unfold build_note.
  apply traced_bind; [apply traced_find_upload|intros file].
  apply traced_bind; [apply traced_lift|intros chunks].
  case_bool_decide; [apply traced_raise|].
  apply traced_bind; [apply traced_summarize_pages|intros pages].
  case_bool_decide; [apply traced_raise|].
  apply traced_bind; [apply traced_summarize_windows|intros windows].
  apply traced_bind; [apply traced_now|intros t].
  apply traced_bind; [apply traced_lift|intros created].
  apply traced_ret.
Qed.

(** The name of a temporary file is never the name of a note. *)
Lemma tmp_not_note (prefix name safe_name : pystr) :
  prefix ++ name ++ str ".tmp" <> safe_name ++ str ".json".
Proof.
  change (str ".tmp") with ([46; 116; 109] ++ [112])%N.
  change (str ".json") with ([46; 106; 115; 111] ++ [110])%N.
  rewrite !app_assoc. by intros [_ [=]]%app_inj_tail.
Qed.

(** [write] is all or nothing: the temporary file is gone when it
    returns and when it raises. *)
Lemma write_atomic root file_id payload :
  write root file_id payload
  = match write_outcome root file_id payload with
    | Ok data =>
      (Ok payload, <[_path_for file_id := RegularFile true data]> root)
    | Raise e => (Raise e, root)
    end.
Proof.
  unfold write, write_outcome, tmp_prefix.
  destruct (mkstemp _ _ _) as [name|e]; [|done].
  set (tmp := (path_stem (_path_for file_id) ++ str "_") ++ name ++ str ".tmp").
  assert (Hne : tmp <> _path_for file_id) by apply tmp_not_note.
  destruct (root !! tmp) as [node|] eqn:Htmp; [done|].
  destruct (json_dump payload) as [data|e].
  - unfold os_replace. rewrite insert_insert_eq, lookup_insert_eq.
    rewrite lookup_insert_ne by done.
    rewrite delete_insert_eq, delete_id by done.
    destruct (root !! _path_for file_id) as [[|readable old]|] eqn:Hold.
    + rewrite bool_decide_eq_true_2 by (rewrite lookup_insert_eq; by eexists).
      by rewrite delete_insert_eq, delete_id.
    + rewrite bool_decide_eq_false_2; [done|].
      rewrite lookup_insert_ne, Htmp by done. by intros [? ?].
    + rewrite bool_decide_eq_false_2; [done|].
      rewrite lookup_insert_ne, Htmp by done. by intros [? ?].
  - rewrite bool_decide_eq_true_2 by (rewrite lookup_insert_eq; by eexists).
    by rewrite delete_insert_eq, delete_id.
Qed.

Lemma write_outcome_dump root file_id payload data :
  write_outcome root file_id payload = Ok data -> json_dump payload = Ok data.
Proof.
  unfold write_outcome. destruct (mkstemp _ _ _); [|done].
  destruct (root !! (_ ++ _)); [done|].
  destruct (json_dump payload); [|done].
  by destruct (root !! _path_for file_id) as [[]|]; intros [= ->].
Qed.

Lemma generate_learning_note_unfold payload w :
  generate_learning_note payload w
  = match read (note_root w) (note_fileId payload) with
    | Raise e => (Raise e, w)
    | Ok existing =>
      if truthy existing && negb (force payload)
      then (Ok (StoredNote existing), w)
      else
        match build_note payload existing w with
        | (Raise e, w2) => (Raise e, w2)
        | (Ok record, w2) =>
          match write_outcome (note_root w2) (note_fileId payload)
                  (note_dict record) with
          | Raise e => (Raise e, w2)
          | Ok data =>
            (Ok (NewNote record),
             set_note_root
               (<[_path_for (note_fileId payload) := RegularFile true data]>
                  (note_root w2)) w2)
          end
        end
    end.
Proof.
  unfold generate_learning_note, build_note, bind at 1, read_note.
  destruct (read _ _) as [existing|e]; [|done].
  destruct (truthy existing && negb (force payload)); [done|].
  unfold bind.
  destruct (find_upload _ w) as [[file|e] w1]; [|done].
  destruct (lift (_extract_page_chunks file) w1) as [[chunks|e] w2]; [|done].
  case_bool_decide; [done|].
  destruct (summarize_pages chunks [] w2) as [[pages|e] w3]; [|done].
  case_bool_decide; [done|].
  destruct (_summarize_windows pages _ w3) as [[windows|e] w4]; [|done].
  destruct (now w4) as [[t|e] w5]; [|done].
  destruct (lift _ w5) as [[created|e] w6]; [|done].
  unfold ret, save_note, save. rewrite write_atomic.
  destruct (write_outcome _ _ _) as [data|e]; [done|by destruct w6].
Qed.

Lemma verdict_bad {A} (r : result A) new bad :
  verdict r new -> bad ∈ new -> ~ good_call bad ->
  r = Raise (HTTPException 500 (failure_detail bad)).
Proof.
  intros [Hgood|pre bad0 -> Hpre Hbad0 ->] Hin Hbad.
  - rewrite Forall_forall in Hgood. by destruct Hbad; apply Hgood.
  - apply elem_of_app in Hin as [Hin|Hin%list_elem_of_singleton]; [|by subst].
    rewrite Forall_forall in Hpre. by destruct Hbad; apply Hpre.
Qed.

(** C4. During note generation, a remote call that raises or returns no
    text, or a page summary that is not JSON, aborts the request with an
    HTTPException 500 and leaves the note directory as it was; whenever
    the request raises the directory is unchanged; a note is saved only
    when every call of the run went well. *)
Theorem failed_call_aborts_note (payload : LearningNoteRequest) (w : World) :
  let '(r, w') := generate_learning_note payload w in
  exists new,
    calls w' = calls w ++ new /\
    (forall bad, bad ∈ new -> ~ good_call bad ->
       r = Raise (HTTPException 500 (failure_detail bad)) /\
       note_root w' = note_root w) /\
    (forall e, r = Raise e -> note_root w' = note_root w) /\
    (forall record, r = Ok (NewNote record) ->
       Forall good_call new /\
       exists data, json_dump (note_dict record) = Ok data /\
         note_root w' = <[_path_for (note_fileId payload) := RegularFile true data]>
                          (note_root w)).
Proof.
  rewrite generate_learning_note_unfold.
  destruct (read _ _) as [existing|e].
  2:{ exists []. rewrite app_nil_r. split; [done|]. split; [|done].
      by intros bad ?%elem_of_nil. }
  destruct (truthy existing && negb (force payload)).
  { exists []. rewrite app_nil_r. split; [done|]. split; [|done].
    by intros bad ?%elem_of_nil. }
  destruct (build_note payload existing w) as [r2 w2] eqn:Hbuild.
  destruct (traced_build_note _ _ _ _ _ Hbuild) as (new & Hext & Hverdict).
  destruct Hext as [Hroot _ _ Hcalls _ _].
  destruct r2 as [record|e].
  - pose proof (verdict_ok_good _ _ Hverdict) as Hgood.
    assert (Hnone : forall bad, bad ∈ new -> ~ good_call bad -> False).
    { intros bad Hin Hbad. rewrite Forall_forall in Hgood. by apply Hbad, Hgood. }
    destruct (write_outcome _ _ (note_dict record)) as [data|e] eqn:Hstored.
    2:{ exists new. split; [done|]. split; [|done].
        intros bad Hin Hbad. by destruct (Hnone bad). }
    apply write_outcome_dump in Hstored.
    exists new; split; [done|]; split;
      [intros bad Hin Hbad; by destruct (Hnone bad)|]; split; [done|];
      intros record' [= <-]; split; [done|]; exists data; split; [done|];
      cbn; by rewrite Hroot.
  - exists new. split; [done|]. split; [|split; [done|done]].
    intros bad Hin Hbad. split; [|done].
    pose proof (verdict_bad _ _ _ Hverdict Hin Hbad) as Hr. by injection Hr as ->.
Qed.

(** C5. When the store holds a note for the fileId and [force] is off,
    [generate_learning_note] returns that note as read and the world is
    the same afterwards: no remote call, no write, the clock untouched. *)
Theorem stored_note_is_returned (payload : LearningNoteRequest) (w : World)
    (existing : pyval) :
  read (note_root w) (note_fileId payload) = Ok existing ->
  truthy existing = true ->
  force payload = false ->
  generate_learning_note payload w = (Ok (StoredNote existing), w).
Proof.
  intros Hread Htruthy Hforce. rewrite generate_learning_note_unfold.
  by rewrite Hread, Htruthy, Hforce.
Qed.

(** C10 fails on the code: a note file whose bytes are not UTF-8 makes
    [read] raise UnicodeDecodeError, which its [except] clause does not
    name. *)
Theorem read_raises_on_invalid_utf8 (file_id : pystr) :
  read {[ _path_for file_id := RegularFile true [xff] ]} file_id
  = Raise UnicodeDecodeError.
Proof. unfold read. by rewrite lookup_singleton_eq. Qed.

(** Where [read] does return [None]. *)
Lemma read_none (root : gmap pystr fsnode) (file_id : pystr) :
  (root !! _path_for file_id = None -> stat_raises (_path_for file_id) = false ->
     read root file_id = Ok PNone) /\
  (root !! _path_for file_id = None -> stat_raises (_path_for file_id) = true ->
     read root file_id = Raise OSError) /\
  (root !! _path_for file_id = Some Directory -> read root file_id = Ok PNone) /\
  (forall data, root !! _path_for file_id = Some (RegularFile false data) ->
     read root file_id = Ok PNone) /\
  (forall data text,
     root !! _path_for file_id = Some (RegularFile true data) ->
     utf8_decode data = Some text ->
     json_loads (universal_newlines text) = None ->
     read root file_id = Ok PNone).
Proof.
  unfold read. repeat split.
  - by intros -> ->.
  - by intros -> ->.
  - by intros ->.
  - by intros data ->.
  - intros data text -> Hdecode Hloads. cbn. rewrite Hdecode. cbn.
    unfold loads. by rewrite Hloads.
Qed.

Lemma build_note_ok payload existing w record w2 :
  build_note payload existing w = (Ok record, w2) ->
  exists file chunks w1 created,
    uploads w !! note_fileId payload = Some file /\
    _extract_page_chunks file = Ok chunks /\
    summarize_pages chunks [] w = (Ok (pages record), w1) /\
    pages record <> [] /\
    _summarize_windows (pages record) (note_windowSize payload) w1
      = (Ok (windows record), w2) /\
    get (por existing (PDict ∅)) (str "createdAt") = Ok created /\
    createdAt record = por created (PStr (isoformat (clock w2))) /\
    updatedAt record = isoformat (clock w2).
Proof.
  unfold build_note, bind at 1, find_upload.
  destruct (uploads w !! _) as [file|] eqn:Hfile; [|by destruct (upload_error _)].
  unfold bind at 1, lift at 1.
  destruct (_extract_page_chunks file) as [chunks|e] eqn:Hchunks; [|done].
  case_bool_decide; [done|]. unfold bind at 1.
  destruct (summarize_pages chunks [] w) as [[ps|e] w1] eqn:Hpages; [|done].
  case_bool_decide; [done|]. unfold bind at 1.
  destruct (_summarize_windows ps _ w1) as [[ws|e] w2'] eqn:Hwindows; [|done].
  unfold bind, now, lift, ret.
  destruct (get _ _) as [created|e] eqn:Hget; [|done].
  intros [= <- <-]. by exists file, chunks, w1, created.
Qed.

Lemma generate_learning_note_new payload w record w' :
  generate_learning_note payload w = (Ok (NewNote record), w') ->
  exists existing w2 data,
    read (note_root w) (note_fileId payload) = Ok existing /\
    truthy existing && negb (force payload) = false /\
    build_note payload existing w = (Ok record, w2) /\
    json_dump (note_dict record) = Ok data /\
    w' = set_note_root
           (<[_path_for (note_fileId payload) := RegularFile true data]>
              (note_root w2)) w2.
Proof.
  rewrite generate_learning_note_unfold.
  destruct (read _ _) as [existing|e]; [|done].
  destruct (truthy existing && negb (force payload)) eqn:Hcache; [done|].
  destruct (build_note payload existing w) as [[record'|e] w2] eqn:Hbuild; [|done].
  destruct (write_outcome _ _ _) as [data|e] eqn:Hstored; [|done].
  apply write_outcome_dump in Hstored. intros [= <- <-]. by exists existing, w2, data.
Qed.

Lemma enumerate_from_sorted {A} k (items : list A) :
  StronglySorted Z.lt (fst <$> enumerate_from k items) /\
  Forall (fun i => k <= i) (fst <$> enumerate_from k items).
Proof.
  revert k. induction items as [|x rest IH]; intros k; cbn; [by split; constructor|].
  destruct (IH (k + 1)) as [Hsorted Hlow]. split.
  - constructor; [done|]. eapply Forall_impl; [exact Hlow|]. cbn. lia.
  - constructor; [lia|]. eapply Forall_impl; [exact Hlow|]. cbn. lia.
Qed.

Lemma extract_page_chunks_sorted file chunks :
  _extract_page_chunks file = Ok chunks ->
  StronglySorted Z.lt (chunk_index <$> chunks).
Proof.
  unfold _extract_page_chunks.
  case_bool_decide; [|case_bool_decide; [|done]].
  - destruct (pdf_pages file) as [ps|]; [|done]. intros [= <-].
    unfold extract_pdf_pages. rewrite <- list_fmap_compose.
    erewrite list_fmap_ext; [apply (enumerate_from_sorted 1 ps)|].
    by intros i [idx page_text] _.
  - destruct (pptx_slides file) as [ss|]; [|done]. intros [= <-].
    unfold extract_pptx_slides. rewrite <- list_fmap_compose.
    erewrite list_fmap_ext; [apply (enumerate_from_sorted 1 ss)|].
    by intros i [idx text_nodes] _.
Qed.

Lemma StronglySorted_sublist {A} (R : relation A) l1 l2 :
  l1 `sublist_of` l2 -> StronglySorted R l2 -> StronglySorted R l1.
Proof.
  induction 1 as [|x l1 l2 Hsub IH|x l1 l2 Hsub IH]; [done|..].
  - intros [Hx Hl2]%StronglySorted_cons. constructor; [auto|].
    rewrite Forall_forall in *. intros y Hy. apply Hx. by eapply elem_of_sublist.
  - intros [_ Hl2]%StronglySorted_cons. auto.
Qed.

Lemma slice_sublist {A} (l : list A) a b : slice l a b `sublist_of` l.
Proof. unfold slice. etrans; [apply sublist_take|apply sublist_drop]. Qed.

Lemma consecutive_slice (l : list Z) a b : consecutive l -> consecutive (slice l a b).
Proof.
  unfold consecutive, slice. intros Hl i x y.
  intros [Hx _]%lookup_take_Some [Hy _]%lookup_take_Some.
  rewrite lookup_drop in Hx, Hy. apply (Hl _ _ _ Hx).
  by rewrite <- Nat.add_succ_r.
Qed.

Lemma fmap_slice {A B} (f : A -> B) (l : list A) a b :
  f <$> slice l a b = slice (f <$> l) a b.
Proof. unfold slice. by rewrite fmap_take, fmap_drop. Qed.

(** C6 (amended). In every generated note each window's [pageIndexes]
    are the indexes of a non-empty slice pages[start:end] of the note's
    pages (the pages that had text), hence strictly increasing; they are
    consecutive whenever the indexes of the note's pages are. *)
Theorem note_windows_are_page_slices (payload : LearningNoteRequest)
    (w w' : World) (record : LearningNote) :
  generate_learning_note payload w = (Ok (NewNote record), w') ->
  forall win, win ∈ windows record ->
    (exists start end_,
       0 <= start < end_ /\ end_ <= len (pages record) /\
       pageIndexes win = index <$> slice (pages record) start end_) /\
    StronglySorted Z.lt (pageIndexes win) /\
    (consecutive (index <$> pages record) -> consecutive (pageIndexes win)).
Proof.
  intros (existing & w2 & data & _ & _ & Hbuild & _)%generate_learning_note_new.
  apply build_note_ok in Hbuild
    as (file & chunks & w1 & created & _ & Hchunks & Hpages & Hne & Hwindows & _).
  apply summarize_pages_ok in Hpages as (built & new & Hbuilt & Hidx & _).
  cbn [app] in Hbuilt. subst built.
  assert (Hsorted : StronglySorted Z.lt (index <$> pages record)).
  { rewrite Hidx. apply extract_page_chunks_sorted in Hchunks.
    eapply StronglySorted_sublist; [|exact Hchunks].
    apply fmap_sublist, sublist_filter. }
  intros win Hwin.
  destruct (WindowFacts.summarize_windows_slices _ _ _ _ _ _ Hne Hwindows Hwin)
    as (start & end_ & Hrange & Hend & Hwinidx).
  split; [by exists start, end_|]. rewrite Hwinidx, fmap_slice. split.
  - eapply StronglySorted_sublist; [apply slice_sublist|exact Hsorted].
  - apply consecutive_slice.
Qed.

Lemma total_latency_pos new :
  (forall history prompt, 0 < latency (generate_content history prompt)) ->
  Forall (fun c => exists history, c.2 = generate_content history c.1) new ->
  0 <= total_latency new /\ (new <> [] -> 0 < total_latency new).
Proof.
  intros Hpos. unfold total_latency.
  induction 1 as [|c rest [history Hc] _ [IH _]]; cbn [foldr]; [done|].
  pose proof (Hpos history c.1) as Hlat. rewrite <- Hc in Hlat.
  split; [lia|intros _; lia].
Qed.

(** C7. A forced regeneration over a stored note that carries a
    [createdAt] keeps that [createdAt]; [updatedAt] is the clock at the
    save, which is later than the stored [updatedAt] when that was not in
    the future and remote calls take time; the record is what the note
    file then holds. *)
Theorem forced_regeneration_keeps_createdAt (payload : LearningNoteRequest)
    (w w' : World) (record : LearningNote)
    (prior : gmap pystr pyval) (created : pyval) (t0 : Z) :
  force payload = true ->
  read (note_root w) (note_fileId payload) = Ok (PDict prior) ->
  prior !! str "createdAt" = Some created ->
  truthy created = true ->
  prior !! str "updatedAt" = Some (PStr (isoformat t0)) ->
  t0 <= clock w ->
  (forall history prompt, 0 < latency (generate_content history prompt)) ->
  generate_learning_note payload w = (Ok (NewNote record), w') ->
  createdAt record = created /\
  exists t1 data,
    updatedAt record = isoformat t1 /\ t0 < t1 /\ t1 = clock w' /\
    json_dump (note_dict record) = Ok data /\
    note_root w' !! _path_for (note_fileId payload) = Some (RegularFile true data).
Proof.
  intros Hforce Hread Hcreated Htruthy Hupdated Ht0 Hpos.
  intros (existing & w2 & data & Hread' & _ & Hbuild & Hdump & ->)%generate_learning_note_new.
  rewrite Hread in Hread'. injection Hread' as <-.
  apply build_note_ok in Hbuild
    as (file & chunks & w1 & created' & _ & _ & Hpages & Hne & Hwindows & Hget & Hc & Hu).
  assert (Hprior : truthy (PDict prior) = true).
  { cbn. rewrite bool_decide_eq_false_2; [done|]. intros ->.
    by rewrite lookup_empty in Hcreated. }
  unfold por in Hget. rewrite Hprior in Hget. unfold get, get_or in Hget.
  rewrite Hcreated in Hget. injection Hget as <-.
  split; [by rewrite Hc; unfold por; rewrite Htruthy|].
  exists (clock w2), data. split; [done|].
  split; [|split; [done|split; [done|cbn; by rewrite lookup_insert_eq]]].
  apply summarize_pages_ok in Hpages as (built & new1 & Hbuilt & _ & Hext1 & Hlen1).
  cbn [app] in Hbuilt. subst built.
  destruct (traced_summarize_windows _ _ _ _ _ Hwindows) as (new2 & Hext2 & _).
  destruct Hext1 as [_ _ _ _ Hclock1 Hmodel1], Hext2 as [_ _ _ _ Hclock2 Hmodel2].
  destruct (total_latency_pos new1 Hpos Hmodel1) as [_ Hpos1].
  destruct (total_latency_pos new2 Hpos Hmodel2) as [Hpos2 _].
  assert (new1 <> []) by (intros ->; by destruct (pages record)).
  specialize (Hpos1 ltac:(done)). lia.
Qed.

End Notes.

Import Demo.
#[local] Existing Instance demo_runtime.
#[local] Existing Instance demo_services.

(** C6 as stated fails: in a three-page document whose second page has
    no text, the second window merges pages 1 and 3. *)
Lemma note_window_skips_a_page :
  window_runs (generate_learning_note (request false) fresh_world).1
  = [[1]; [1; 3]].
Proof. vm_compute. reflexivity. Qed.

(** C6 (amended) on that document. *)
Lemma note_windows_are_page_slices_witness :
  exists record w',
    generate_learning_note (request false) fresh_world = (Ok (NewNote record), w') /\
    Forall (fun win => StronglySorted Z.lt (pageIndexes win)) (windows record).
Proof.
  destruct (generate_learning_note (request false) fresh_world) as [r w'] eqn:Hrun.
  assert (exists record, r = Ok (NewNote record)) as [record ->].
  { pose proof Hrun as Hval. vm_compute in Hval. injection Hval as <- _. by eexists. }
  exists record, w'. split; [done|]. apply Forall_forall. intros win Hwin.
  by destruct (note_windows_are_page_slices
                 (request false) fresh_world w' record Hrun win Hwin) as (_ & ? & _).
Defined.

(** C5 on a store that holds a note for the requested file. *)
Lemma stored_note_is_returned_witness :
  generate_learning_note (request false) stored_world
  = (Ok (StoredNote (PDict stored_note_fields)), stored_world).
Proof.
  apply stored_note_is_returned.
  - vm_compute. reflexivity.
  - vm_compute. reflexivity.
  - reflexivity.
Defined.

(** C7 on the same store, with [force] on. *)
Lemma forced_regeneration_witness :
  exists record w',
    generate_learning_note (request true) stored_world = (Ok (NewNote record), w') /\
    createdAt record = PStr (str "40") /\ updatedAt record = str "104".
Proof.
  destruct (generate_learning_note (request true) stored_world) as [r w'] eqn:Hrun.
  assert (exists record, r = Ok (NewNote record)) as [record ->].
  { pose proof Hrun as Hval. vm_compute in Hval. injection Hval as <- _. by eexists. }
  exists record, w'. split; [done|].
  destruct (forced_regeneration_keeps_createdAt
              (request true) stored_world w' record
              stored_note_fields (PStr (str "40")) 50) as [Hcreated Hupdated].
  - reflexivity.
  - vm_compute. reflexivity.
  - vm_compute. reflexivity.
  - vm_compute. reflexivity.
  - vm_compute. reflexivity.
  - cbn. lia.
  - intros history prompt. cbn. lia.
  - exact Hrun.
  - split; [exact Hcreated|].
    vm_compute in Hrun. injection Hrun as <- _. reflexivity.
Defined.

End NoteFacts.

(** ** The quiz parser *)

Module QuizFacts.
Import Py FileParsers LearningNoteStorage Main Spec Demo.

Section Quiz.
Context `{Runtime} `{Services}.

Lemma parse_item_dict idx d :
  parse_item idx (PDict d)
  = if len (item_options d) <? 4 then Ok None
    else
      match int_or_zero (item_correct d) with
      | Raise e => Raise e
      | Ok z =>
        Ok (Some {| question :=
                      por (default PNone (d !! str "question"))
                        (por (default PNone (d !! str "q"))
                             (PStr (str "문제 " ++ decimal (idx + 1))));
                    options := take 4 (item_options d);
                    correctIndex := 0 `max` (z `min` (len (take 4 (item_options d)) - 1));
                    explanation := default (PStr []) (d !! str "explanation") |})
      end.
Proof.
  unfold parse_item, get, get_or, result_bind, item_options, item_correct.
  destruct (len _ <? 4); [done|]. by destruct (int_or_zero _).
Qed.

Lemma parse_item_well_formed idx item q :
  parse_item idx item = Ok (Some q) -> well_formed q.
Proof.
  destruct item as [| | | | | |d]; try done.
  rewrite parse_item_dict.
  destruct (Z.ltb_spec (len (item_options d)) 4) as [|Hlen]; [done|].
  destruct (int_or_zero _) as [z|]; [|done]. intros [= <-].
  unfold well_formed, len in *. cbn. rewrite length_take. lia.
Qed.

Lemma parse_items_well_formed items acc questions :
  parse_items items acc = Ok questions ->
  Forall well_formed acc -> Forall well_formed questions.
Proof.
  revert acc. induction items as [|[idx item] rest IH]; intros acc; cbn.
  - by intros [= <-].
  - destruct (parse_item idx item) as [[q|]|] eqn:Hitem; cbn [result_bind].
    + intros Hrest Hacc. apply (IH _ Hrest), Forall_app. split; [done|].
      constructor; [|constructor]. by eapply parse_item_well_formed.
    + apply IH.
    + done.
Qed.

Lemma parse_quiz_data_ok data parsed :
  parse_quiz_data data = Ok parsed ->
  Forall well_formed (questions parsed) /\ questions parsed <> [].
Proof.
  unfold parse_quiz_data.
  set (questions_raw := match data with PDict _ => _ | _ => _ end).
  destruct questions_raw as [l|]; [|done]. cbn [result_bind].
  destruct (parse_items _ []) as [qs|] eqn:Hitems; [|done]. cbn [result_bind].
  case_bool_decide; [done|]. intros [= <-]. cbn. split; [|done].
  by eapply parse_items_well_formed.
Qed.

Lemma _parse_quiz_payload_ok raw parsed :
  _parse_quiz_payload raw = Ok parsed ->
  Forall well_formed (questions parsed) /\ questions parsed <> [].
Proof.
  unfold _parse_quiz_payload. destruct (loads raw) as [data|[]]; try done.
  apply parse_quiz_data_ok.
Qed.

(** *** [int] on a str *)

Lemma skip_space_numeric (s : pystr) :
  Forall (fun c => numeric c = true) (skip_space s) ->
  Forall (fun c => numeric c = true) s.
Proof.
  induction s as [|c s IH]; [done|]. cbn [skip_space].
  destruct (is_ascii_space c) eqn:Hc; [|done].
  intros Hs. constructor; [|by apply IH]. unfold numeric. by rewrite Hc.
Qed.

Lemma skip_space_nil_numeric (s : pystr) :
  skip_space s = [] -> Forall (fun c => numeric c = true) s.
Proof. intros Hs. apply skip_space_numeric. by rewrite Hs. Qed.

Lemma scan_digits_numeric value digits prev (s : pystr) r :
  scan_digits value digits prev s = Some r ->
  Forall (fun c => numeric c = true) r.2 ->
  Forall (fun c => numeric c = true) s.
Proof.
  revert value digits prev. induction s as [|c s IH]; intros value digits prev.
  - cbn. destruct (prev =? 95)%N; [done|]. by intros [= <-].
  - cbn [scan_digits].
    destruct ((48 <=? c) && (c <=? 57))%N eqn:Hdigit.
    + intros Hscan Hr. constructor; [|by eapply IH].
      unfold numeric. rewrite Hdigit. by rewrite orb_true_r.
    + destruct (c =? 95)%N eqn:Hus.
      * destruct (prev =? 95)%N; [done|].
        intros Hscan Hr. constructor; [|by eapply IH].
        unfold numeric. rewrite Hus. by rewrite !orb_true_r.
      * destruct (prev =? 95)%N; [done|]. by intros [= <-].
Qed.

Lemma long_from_string_numeric (s : pystr) z :
  long_from_string s = Some z -> Forall (fun c => numeric c = true) s.
Proof.
  unfold long_from_string. intros Hparse. apply skip_space_numeric.
  destruct (skip_space s) as [|c0 rest] eqn:Hs1; [done|].
  assert (Hrun : forall (s2 : pystr),
    match s2 with
    | c :: _ =>
      if (c =? 95)%N then None
      else match scan_digits 0 0 0%N s2 with
           | Some (value, digits, s3) =>
             if (digits =? 0) || (MAX_STR_DIGITS <? digits) then None
             else match skip_space s3 with [] => Some value | _ :: _ => None end
           | None => None
           end
    | [] => None
    end <> None -> Forall (fun c => numeric c = true) s2).
  { intros [|c s2]; [done|]. destruct (c =? 95)%N; [done|].
    destruct (scan_digits 0 0 0%N (c :: s2)) as [[[value digits] s3]|] eqn:Hscan; [|done].
    destruct ((digits =? 0) || (MAX_STR_DIGITS <? digits)); [done|].
    destruct (skip_space s3) eqn:Hs3; [|done]. intros _.
    apply (scan_digits_numeric _ _ _ _ _ Hscan). by apply skip_space_nil_numeric. }
  destruct (c0 =? 43)%N eqn:Hplus; [|destruct (c0 =? 45)%N eqn:Hminus].
  - constructor; [unfold numeric; rewrite Hplus; by rewrite !orb_true_r|].
    apply Hrun. destruct rest as [|c r]; [done|]. destruct (c =? 95)%N; [done|].
    destruct (scan_digits _ _ _ _) as [[[value digits] s3]|]; [|done].
    destruct (_ || _); [done|]. by destruct (skip_space s3).
  - constructor; [unfold numeric; rewrite Hminus; by rewrite !orb_true_r|].
    apply Hrun. destruct rest as [|c r]; [done|]. destruct (c =? 95)%N; [done|].
    destruct (scan_digits _ _ _ _) as [[[value digits] s3]|]; [|done].
    destruct (_ || _); [done|]. by destruct (skip_space s3).
  - apply Hrun. destruct (c0 =? 95)%N; [done|].
    destruct (scan_digits _ _ _ _) as [[[value digits] s3]|]; [|done].
    destruct (_ || _); [done|]. by destruct (skip_space s3).
Qed.

Lemma letter_not_numeric c : is_letter c = true -> numeric c = false.
Proof.
  unfold is_letter, numeric, is_ascii_space. intros Hc.
  rewrite orb_true_iff, !andb_true_iff, !N.leb_le in Hc.
  apply not_true_is_false.
  rewrite !orb_true_iff, !andb_true_iff, !N.leb_le, !N.eqb_eq. lia.
Qed.

Lemma transform_keeps_letter (s : pystr) :
  Exists (fun c => is_letter c = true) s ->
  Exists (fun c => numeric c = false) (transform_decimal_and_space s).
Proof.
  induction s as [|c s IH]; [by intros ?%Exists_nil|].
  intros Hex. cbn [transform_decimal_and_space].
  destruct (c <? 127)%N eqn:Hascii.
  - apply Exists_cons in Hex as [Hc|Hs].
    + left. by apply letter_not_numeric.
    + right. by apply IH.
  - assert (Hno : is_letter c = false).
    { apply N.ltb_ge in Hascii. apply not_true_is_false. unfold is_letter.
      rewrite orb_true_iff, !andb_true_iff, !N.leb_le. lia. }
    apply Exists_cons in Hex as [Hc|Hs]; [congruence|].
    destruct (isspace c); [right; by apply IH|].
    destruct (to_decimal c); [right; by apply IH|]. by left.
Qed.

(** A text that holds a letter of ASCII is no integer for [int]. *)
Lemma int_of_str_letter (s : pystr) :
  Exists (fun c => is_letter c = true) s -> int_of_str s = None.
Proof.
  intros Hex. unfold int_of_str.
  destruct (long_from_string (to_ascii s)) as [z|] eqn:Hparse; [|done].
  apply long_from_string_numeric in Hparse. exfalso.
  assert (Hbad : Exists (fun c => numeric c = false) (to_ascii s)).
  { unfold to_ascii. destruct (forallb _ s).
    - eapply Exists_impl; [exact Hex|]. intros c. apply letter_not_numeric.
    - by apply transform_keeps_letter. }
  apply Exists_exists in Hbad as (c & Hin & Hc).
  rewrite Forall_forall in Hparse. specialize (Hparse c Hin). congruence.
Qed.

(** *** The loop against the questions the spec asks for *)

Lemma int_or_zero_expected v z :
  int_or_zero v = Ok z -> 0 `max` (z `min` 3) = expected_index v.
Proof.
  unfold int_or_zero, expected_index.
  destruct (int v) as [z'|[]]; try done; by intros [= <-].
Qed.

Lemma int_or_zero_finite v :
  (forall sign, v <> PFloat (S754_infinity sign)) -> exists z, int_or_zero v = Ok z.
Proof.
  intros Hv. unfold int_or_zero, int.
  destruct v as [|b|z|f|s|l|d]; try by eexists.
  - destruct f as [sign|sign| |sign m e]; try by eexists. by destruct (Hv sign).
  - destruct (int_of_str s); by eexists.
Qed.

Lemma parse_item_expected idx d :
  4 <= len (item_options d) ->
  parse_item idx (PDict d)
  = match int_or_zero (item_correct d) with
    | Ok _ => Ok (Some (expected_question idx d))
    | Raise e => Raise e
    end.
Proof.
  intros Hlen. rewrite parse_item_dict.
  destruct (Z.ltb_spec (len (item_options d)) 4); [lia|].
  destruct (int_or_zero (item_correct d)) as [z|e] eqn:Hint; [|done].
  unfold expected_question. rewrite <- (int_or_zero_expected _ _ Hint).
  repeat f_equal. unfold len in *. rewrite length_take. lia.
Qed.

Lemma parse_items_expected items idx acc questions :
  parse_items (enumerate_from idx items) acc = Ok questions ->
  questions = acc ++ expected_from idx items.
Proof.
  revert idx acc. induction items as [|item rest IH]; intros idx acc.
  - cbn. intros [= <-]. by rewrite app_nil_r.
  - cbn [enumerate_from parse_items expected_from].
    destruct item as [| | | | | |d]; try done.
    destruct (Z.leb_spec 4 (len (item_options d))) as [Hlen|Hlen].
    + rewrite parse_item_expected by done.
      destruct (int_or_zero _); [|done]. cbn [result_bind].
      intros ->%IH. by rewrite <- app_assoc.
    + rewrite parse_item_dict.
      destruct (Z.ltb_spec (len (item_options d)) 4); [|lia]. cbn [result_bind].
      apply IH.
Qed.

Lemma parse_items_readable items idx acc :
  Forall readable_item items ->
  parse_items (enumerate_from idx items) acc = Ok (acc ++ expected_from idx items).
Proof.
  intros Hitems. revert idx acc.
  induction Hitems as [|item rest (d & -> & Hfinite) _ IH]; intros idx acc.
  - cbn. by rewrite app_nil_r.
  - cbn [enumerate_from parse_items expected_from].
    destruct (Z.leb_spec 4 (len (item_options d))) as [Hlen|Hlen].
    + rewrite parse_item_expected by done.
      destruct (int_or_zero_finite _ Hfinite) as [z ->]. cbn [result_bind].
      by rewrite IH, <- app_assoc.
    + rewrite parse_item_dict.
      destruct (Z.ltb_spec (len (item_options d)) 4); [|lia]. cbn [result_bind].
      apply IH.
Qed.

Lemma parse_quiz_data_items data parsed :
  parse_quiz_data data = Ok parsed ->
  exists items,
    response_items data = Some items /\
    questions parsed = expected_questions items.
Proof.
  unfold parse_quiz_data, response_items.
  set (questions_raw := match data with PDict _ => _ | _ => _ end).
  assert (Hraw : forall l, questions_raw = Ok l ->
            match data with
            | PList items => Some items
            | PDict d => match d !! str "questions" with
                         | Some (PList items) => Some items
                         | _ => None
                         end
            | _ => None
            end = Some l).
  { subst questions_raw. intros l. destruct data as [| | | | |l'|d]; try done.
    - by intros [= ->].
    - destruct (d !! str "questions") as [[]|]; try done. by intros [= ->]. }
  destruct questions_raw as [l|]; [|done]. cbn [result_bind].
  destruct (parse_items _ []) as [qs|] eqn:Hitems; [|done]. cbn [result_bind].
  case_bool_decide; [done|]. intros [= <-]. exists l. split; [by apply Hraw|].
  cbn. by apply parse_items_expected in Hitems.
Qed.

Lemma parse_quiz_data_accepts data items :
  response_items data = Some items ->
  Forall readable_item items ->
  expected_questions items <> [] ->
  exists parsed, parse_quiz_data data = Ok parsed.
Proof.
  intros Hdata Hitems Hne. unfold parse_quiz_data.
  set (questions_raw := match data with PDict _ => _ | _ => _ end).
  assert (questions_raw = Ok items) as ->.
  { subst questions_raw. unfold response_items in Hdata.
    destruct data as [| | | | |l'|d]; try done.
    - by injection Hdata as ->.
    - destruct (d !! str "questions") as [[]|]; try done. by injection Hdata as ->. }
  cbn [result_bind]. rewrite (parse_items_readable _ _ _ Hitems). cbn [result_bind app].
  rewrite bool_decide_eq_false_2 by done. by eexists.
Qed.

(** C3. An accepted quiz response gives exactly the questions the spec
    asks for: in the order of the response, one question for every item
    with at least four options, with its first four options and its
    [correctIndex] made an integer and clamped into [0,3]; so every
    question has exactly four options and an index in [0,3]. A response
    whose items are objects, none with an infinite float as index, and of
    which one has four options, is accepted. An item with fewer than four
    options is passed over without an error; an integer index below 0
    counts as 0 and one above 3 as 3 (99 is clamped to 3); an index that
    is None, or a text holding a letter (such as abc), counts as 0. *)
Theorem quiz_questions_are_well_formed :
  (forall raw parsed,
     _parse_quiz_payload raw = Ok parsed ->
     Forall well_formed (questions parsed) /\
     exists data items,
       json_loads raw = Some data /\ response_items data = Some items /\
       questions parsed = expected_questions items) /\
  (forall raw data items,
     json_loads raw = Some data -> response_items data = Some items ->
     Forall readable_item items -> expected_questions items <> [] ->
     exists parsed, _parse_quiz_payload raw = Ok parsed) /\
  (forall idx d rest,
     expected_from idx (PDict d :: rest)
     = if len (item_options d) <? 4 then expected_from (idx + 1) rest
       else expected_question idx d :: expected_from (idx + 1) rest) /\
  (forall idx d,
     options (expected_question idx d) = take 4 (item_options d) /\
     (forall z, item_correct d = PInt z ->
        correctIndex (expected_question idx d)
        = if z <? 0 then 0 else if 3 <? z then 3 else z) /\
     (forall s, item_correct d = PStr s ->
        Exists (fun c => is_letter c = true) s ->
        correctIndex (expected_question idx d) = 0) /\
     (item_correct d = PNone -> correctIndex (expected_question idx d) = 0)) /\
  (forall idx d,
     len (item_options d) < 4 -> parse_item idx (PDict d) = Ok None) /\
  (forall idx d z,
     4 <= len (item_options d) -> int_or_zero (item_correct d) = Ok z ->
     exists q, parse_item idx (PDict d) = Ok (Some q) /\
       options q = take 4 (item_options d) /\
       correctIndex q = 0 `max` (z `min` 3)) /\
  int_or_zero (PStr (str "abc")) = Ok 0 /\
  int_or_zero (PInt 99) = Ok 99 /\
  parsed_questions (parse_quiz_data quiz_data)
  = [ {| question := PStr (str "문제 1");
         options := PInt <$> [1; 2; 3; 4];
         correctIndex := 3;
         explanation := PStr [] |} ].
Proof.
  split; [|split; [|split; [|split; [|split; [|split; [|split; [|split]]]]]]].
  - intros raw parsed Hparsed. split; [by apply _parse_quiz_payload_ok in Hparsed as [? _]|].
    unfold _parse_quiz_payload, loads in Hparsed.
    destruct (json_loads raw) as [data|]; [|done].
    apply parse_quiz_data_items in Hparsed as (items & Hdata & Hq).
    by exists data, items.
  - intros raw data items Hloads Hdata Hitems Hne.
    unfold _parse_quiz_payload, loads. rewrite Hloads.
    by apply (parse_quiz_data_accepts _ items).
  - intros idx d rest. cbn [expected_from].
    by destruct (Z.leb_spec 4 (len (item_options d))), (Z.ltb_spec (len (item_options d)) 4);
      try lia.
  - intros idx d. split; [done|]. cbn [correctIndex expected_question].
    unfold expected_index. split; [|split].
    + intros z ->. cbn [int].
      destruct (Z.ltb_spec z 0), (Z.ltb_spec 3 z); lia.
    + intros s -> Hletter. cbn [int]. by rewrite int_of_str_letter.
    + by intros ->.
  - intros idx d Hlen. rewrite parse_item_dict.
    by destruct (Z.ltb_spec (len (item_options d)) 4); [|lia].
  - intros idx d z Hlen Hint. rewrite parse_item_dict, Hint.
    destruct (Z.ltb_spec (len (item_options d)) 4); [lia|].
    eexists. split; [done|]. cbn. split; [done|].
    unfold len in *. rewrite length_take. lia.
  - by vm_compute.
  - done.
  - by vm_compute.
Qed.

Lemma parse_items_all_dropped items acc :
  Forall (fun '(_, item) => exists d, item = PDict d /\ len (item_options d) < 4) items ->
  parse_items items acc = Ok acc.
Proof.
  induction 1 as [|[idx item] rest (d & -> & Hlen) _ IH]; [done|].
  cbn [parse_items]. rewrite parse_item_dict.
  by destruct (Z.ltb_spec (len (item_options d)) 4); [|lia].
Qed.

Lemma enumerate_from_Forall {A} (P : A -> Prop) k (items : list A) :
  Forall P items -> Forall (fun '(_, item) => P item) (enumerate_from k items).
Proof. intros Hitems. revert k. induction Hitems; intros k; by constructor. Qed.

Lemma quiz_endpoint_tail prompt (mk : ParsedQuiz -> Z -> QuizRecord) w :
  (forall parsed t, quiz_questions (mk parsed t) = questions parsed) ->
  let '(r, w') :=
    (raw <- generate_with_gemini prompt ;;
     parsed <- lift (_parse_quiz_payload raw) ;;
     t <- now ;;
     record <- add_record (mk parsed t) ;;
     ret {| resp_questions := questions parsed;
            resp_notes := notes parsed;
            quizId := quiz_id record |}) w in
  match r with
  | Ok response =>
    resp_questions response <> [] /\
    exists stored,
      quiz_records w' = quiz_records w ++ [stored] /\
      quiz_questions (quiz_record stored) = resp_questions response
  | Raise _ => quiz_records w' = quiz_records w
  end.
Proof.
  intros Hmk. unfold bind at 1. rewrite NoteFacts.generate_with_gemini_run.
  destruct (answer _) as [raw|]; [|done].
  unfold bind at 1, lift.
  destruct (_parse_quiz_payload raw) as [parsed|e] eqn:Hparsed; [|done].
  apply _parse_quiz_payload_ok in Hparsed as [_ Hne].
  cbn. split; [done|]. eexists. split; [done|]. cbn. apply Hmk.
Qed.

(** C8. When no item of the response survives the filter (as when every
    item has fewer than four options) the parser raises HTTPException
    500; an accepted parse has at least one question; both quiz endpoints
    append a record only with a non-empty question list and leave the
    quiz store alone when they raise. *)
Theorem quiz_without_questions_is_refused :
  (forall items,
     Forall (fun item => exists d, item = PDict d /\ len (item_options d) < 4) items ->
     parse_quiz_data (PList items) = Raise (HTTPException 500 NoQuestionsFound)) /\
  (forall data,
     (exists items,
        (data = PList items \/
         exists d, data = PDict d /\ d !! str "questions" = Some (PList items)) /\
        parse_items (enumerate_from 0 items) [] = Ok []) ->
     parse_quiz_data data = Raise (HTTPException 500 NoQuestionsFound)) /\
  (forall raw parsed,
     _parse_quiz_payload raw = Ok parsed -> questions parsed <> []) /\
  (forall payload w,
     let '(r, w') := generate_quiz_from_text payload w in
     match r with
     | Ok response =>
       resp_questions response <> [] /\
       exists stored,
         quiz_records w' = quiz_records w ++ [stored] /\
         quiz_questions (quiz_record stored) = resp_questions response
     | Raise _ => quiz_records w' = quiz_records w
     end) /\
  (forall payload w,
     let '(r, w') := generate_quiz_from_file payload w in
     match r with
     | Ok response =>
       resp_questions response <> [] /\
       exists stored,
         quiz_records w' = quiz_records w ++ [stored] /\
         quiz_questions (quiz_record stored) = resp_questions response
     | Raise _ => quiz_records w' = quiz_records w
     end).
Proof.
  assert (Hdata : forall data,
    (exists items,
        (data = PList items \/
         exists d, data = PDict d /\ d !! str "questions" = Some (PList items)) /\
        parse_items (enumerate_from 0 items) [] = Ok []) ->
     parse_quiz_data data = Raise (HTTPException 500 NoQuestionsFound)).
  { intros data (items & Hshape & Hitems). unfold parse_quiz_data.
    destruct Hshape as [->|(d & -> & ->)]; cbn [result_bind]; by rewrite Hitems. }
  split; [|split; [done|split; [|split]]].
  - intros items Hitems. apply Hdata. exists items. split; [by left|].
    apply parse_items_all_dropped.
    by apply (enumerate_from_Forall (fun item => exists d, item = PDict d /\ _)).
  - intros raw parsed Hparsed. by apply _parse_quiz_payload_ok in Hparsed as [_ ?].
  - intros payload w. unfold generate_quiz_from_text.
    destruct (len _ <? 30); [done|].
    by apply (quiz_endpoint_tail _ (fun parsed t => Build_QuizRecord _ _ _ _ _ _ _)).
  - intros payload w. unfold generate_quiz_from_file, bind at 1, find_upload.
    destruct (uploads w !! _) as [file|]; [|by destruct (upload_error _)].
    unfold bind at 1.
    set (extracted := if bool_decide (suffix file = str ".pdf") then _ else _).
    assert (exists r, extracted w = (r, w)) as [r ->].
    { subst extracted. repeat case_bool_decide; by eexists. }
    destruct r as [extracted_text|e]; [|done].
    case_bool_decide; [done|].
    by apply (quiz_endpoint_tail _ (fun parsed t => Build_QuizRecord _ _ _ _ _ _ _)).
Qed.

End Quiz.
End QuizFacts.

(* ===================================================================== *)
(** * Part IV: further properties                                        *)
(* ===================================================================== *)

(** ** The windows of a note *)

Module WindowMore.
Import Py FileParsers LearningNoteStorage Main Spec Shapes.

Section Windows.
Context `{Runtime} `{Services}.

Lemma insert_by_sorted {A} (key : A -> Z) x l :
  StronglySorted (fun a b => key a <= key b) l ->
  StronglySorted (fun a b => key a <= key b) (insert_by key x l).
Proof.
  induction 1 as [|y rest Hrest IH Hy]; cbn [insert_by]; [by repeat constructor|].
  destruct (Z.leb_spec (key x) (key y)) as [Hle|Hgt].
  - constructor; [by constructor|]. constructor; [done|].
    eapply Forall_impl; [exact Hy|]. cbn. lia.
  - constructor; [done|]. rewrite WindowFacts.insert_by_perm.
    constructor; [lia|done].
Qed.

Lemma sort_by_sorted {A} (key : A -> Z) (l : list A) :
  StronglySorted (fun a b => key a <= key b) (sort_by key l).
Proof.
  induction l as [|x l IH]; [constructor|]. by apply insert_by_sorted.
Qed.

(** X1. The windows come back in ascending order of [startPage]. *)
Theorem windows_sorted_by_startPage (pages : list Page) (window_size : Z)
    (w w' : World) (ws : list Window) :
  _summarize_windows pages window_size w = (Ok ws, w') ->
  StronglySorted by_startPage ws.
Proof.
  unfold _summarize_windows. case_bool_decide.
  - intros [= <- <-]. constructor.
  - unfold bind. destruct (windows_loop _ _ _ _ _ _ w) as [[new|e] w1]; [|done].
    intros [= <- <-]. apply sort_by_sorted.
Qed.

(** X2. One window per page: the seen-set never passes over an anchor. *)
Theorem windows_one_per_page (pages : list Page) (window_size : Z)
    (w w' : World) (ws : list Window) :
  _summarize_windows pages window_size w = (Ok ws, w') ->
  length ws = length pages.
Proof.
  destruct pages as [|p pages].
  - by intros [= <- <-].
  - by apply WindowFacts.one_window_per_page.
Qed.

Lemma emit_calls pages keys acc w r w' :
  emit pages keys acc w = (r, w') ->
  exists new,
    extends w w' new /\ Forall is_window_call new /\
    (length new <= length keys)%nat /\
    (forall ws, r = Ok ws -> length new = length keys).
Proof.
  revert acc w. induction keys as [|key rest IH]; intros acc w.
  - intros [= <- <-]. exists []. split; [apply NoteFacts.extends_refl|]. by repeat split.
  - cbn [emit]. unfold bind at 1, _summarize_window_block, bind at 1.
    rewrite NoteFacts.generate_with_gemini_run.
    set (c := (WindowPrompt (slice pages key.1 key.2),
               generate_content (fst <$> calls w) (WindowPrompt (slice pages key.1 key.2)))).
    pose proof (NoteFacts.extends_log_call (WindowPrompt (slice pages key.1 key.2)) w) as Hc.
    assert (Hwin : is_window_call c) by done.
    destruct (answer _) as [raw|].
    + unfold ret, bind at 1, lift.
      destruct (make_window _ _) as [win|e].
      * intros (new & Hext & Hall & Hle & Hok)%IH. exists (c :: new).
        split; [exact (NoteFacts.extends_trans _ _ _ [c] new Hc Hext)|].
        split; [by constructor|]. cbn. split; [lia|].
        intros ws Hws. by rewrite (Hok ws Hws).
      * intros [= <- <-]. exists [c]. split; [done|]. split; [by repeat constructor|].
        cbn. split; [lia|done].
    + intros [= <- <-]. exists [c]. split; [done|]. split; [by repeat constructor|].
      cbn. split; [lia|done].
Qed.

Lemma summarize_windows_calls (pages : list Page) (window_size : Z) (w : World) :
  let '(r, w') := _summarize_windows pages window_size w in
  exists new,
    calls w' = calls w ++ new /\
    Forall is_window_call new /\
    (length new <= length pages)%nat /\
    (forall ws, r = Ok ws -> length new = length pages) /\
    note_root w' = note_root w /\ uploads w' = uploads w /\
    quiz_records w' = quiz_records w.
Proof.
  destruct pages as [|p pages].
  - cbn. exists []. by rewrite app_nil_r.
  - set (ps := p :: pages). assert (Hne : ps <> []) by done.
    rewrite WindowFacts._summarize_windows_plan by done.
    assert (Hn : 0 < len ps) by (unfold len; cbn; lia).
    destruct (WindowFacts.half_widths window_size _ Hn) as [Hl Hr].
    rewrite WindowFacts.plan_every_anchor;
      [|done|done|lia|apply NoDup_seqZ| |].
    2:{ intros i Hi%elem_of_seqZ. lia. }
    2:{ intros i _ Hin. by apply elem_of_empty in Hin. }
    destruct (emit _ _ _ w) as [r1 w1] eqn:Hemit.
    apply emit_calls in Hemit as (new & [Hroot Hup Hquiz Hcalls _ _] & Hall & Hle & Hok).
    rewrite length_fmap, length_seqZ in Hle, Hok.
    assert (Hlen : Z.to_nat (len ps) = length ps) by (unfold len; lia).
    rewrite Hlen in Hle, Hok.
    destruct r1 as [ws1|e]; exists new; repeat split; try done.
    intros ws _. by apply (Hok ws1).
Qed.

(** X3. Merging the windows costs one remote call per page, each with a
    window prompt, and touches nothing but the call log and the clock. *)
Theorem windows_cost_one_call_per_page (pages : list Page) (window_size : Z)
    (w : World) :
  let '(r, w') := _summarize_windows pages window_size w in
  exists new,
    calls w' = calls w ++ new /\
    Forall is_window_call new /\
    (length new <= length pages)%nat /\
    (forall ws, r = Ok ws -> length new = length pages) /\
    note_root w' = note_root w /\ uploads w' = uploads w /\
    quiz_records w' = quiz_records w.
Proof. apply summarize_windows_calls. Qed.

End Windows.
End WindowMore.

(** ** Note generation: cost, stamps, frame *)

Module NoteMore.
Import Py FileParsers LearningNoteStorage Main Spec Shapes NoteFacts.

Section Notes.
Context `{Runtime} `{Services}.

Lemma summarize_pages_calls chunks acc w r w' :
  summarize_pages chunks acc w = (r, w') ->
  exists new,
    extends w w' new /\ Forall is_page_call new /\
    (forall pages, r = Ok pages ->
       exists built, pages = acc ++ built /\ length new = length built).
Proof.
  revert acc w. induction chunks as [|chunk rest IH]; intros acc w.
  - intros [= <- <-]. exists []. split; [apply extends_refl|]. split; [done|].
    intros pages [= <-]. exists []. by rewrite app_nil_r.
  - cbn [summarize_pages]. case_bool_decide; [apply IH|].
    unfold bind at 1, _summarize_single_page, bind at 1.
    rewrite generate_with_gemini_run.
    set (prompt := PageSummaryPrompt _ _).
    set (c := (prompt, generate_content (fst <$> calls w) prompt)).
    pose proof (extends_log_call prompt w) as Hc.
    assert (Hpage : is_page_call c) by done.
    destruct (answer _) as [raw|].
    + unfold lift. destruct (_parse_page_summary raw) as [s|e].
      * intros (new & Hext & Hall & Hok)%IH. exists (c :: new).
        split; [exact (extends_trans _ _ _ [c] new Hc Hext)|].
        split; [by constructor|]. intros pages Hpages.
        destruct (Hok pages Hpages) as (built & -> & Hlen).
        eexists (_ :: built). split; [by rewrite <- app_assoc|]. cbn. by rewrite Hlen.
      * intros [= <- <-]. exists [c]. split; [done|]. split; [by repeat constructor|done].
    + intros [= <- <-]. exists [c]. split; [done|]. split; [by repeat constructor|done].
Qed.

Lemma build_note_record payload existing w record w2 :
  build_note payload existing w = (Ok record, w2) ->
  fileId record = note_fileId payload /\
  pageCount record = len (pages record) /\
  windowSize record = note_windowSize payload /\
  note_markdown record = _merge_markdown (windows record).
Proof.
  unfold build_note, bind at 1, find_upload.
  destruct (uploads w !! _) as [file|]; [|by destruct (upload_error _)].
  unfold bind at 1, lift at 1.
  destruct (_extract_page_chunks file) as [chunks|e]; [|done].
  case_bool_decide; [done|]. unfold bind at 1.
  destruct (summarize_pages chunks [] w) as [[ps|e] w1]; [|done].
  case_bool_decide; [done|]. unfold bind at 1.
  destruct (_summarize_windows ps _ w1) as [[ws|e] w2']; [|done].
  unfold bind, now, lift, ret.
  destruct (get _ _) as [created|e]; [|done].
  by intros [= <- <-].
Qed.

(** X4. A generated note costs two remote calls per page with text: every
    page summary first, then every window merge. *)
Theorem note_costs_two_calls_per_page (payload : LearningNoteRequest)
    (w w' : World) (record : LearningNote) :
  generate_learning_note payload w = (Ok (NewNote record), w') ->
  exists page_calls window_calls,
    calls w' = calls w ++ page_calls ++ window_calls /\
    Forall is_page_call page_calls /\ Forall is_window_call window_calls /\
    len page_calls = pageCount record /\ len window_calls = pageCount record /\
    len (pages record) = pageCount record /\
    len (windows record) = pageCount record.
Proof.
  intros (existing & w2 & data & _ & _ & Hbuild & _ & ->)%generate_learning_note_new.
  destruct (build_note_record _ _ _ _ _ Hbuild) as (_ & Hcount & _).
  apply build_note_ok in Hbuild
    as (file & chunks & w1 & created & _ & _ & Hpages & Hne & Hwindows & _).
  apply summarize_pages_calls in Hpages as (new1 & [_ _ _ Hcalls1 _ _] & Hall1 & Hok1).
  destruct (Hok1 _ eq_refl) as (built & Hbuilt & Hlen1). cbn [app] in Hbuilt. subst built.
  pose proof (WindowMore.summarize_windows_calls
                (pages record) (note_windowSize payload) w1) as Hcost.
  rewrite Hwindows in Hcost.
  destruct Hcost as (new2 & Hcalls2 & Hall2 & _ & Hok2 & _).
  specialize (Hok2 _ eq_refl).
  pose proof (WindowFacts.one_window_per_page _ _ _ _ _ Hne Hwindows) as Hws.
  exists new1, new2. cbn [calls set_note_root].
  rewrite Hcalls2, Hcalls1, <- app_assoc. unfold len in *.
  repeat split; try done; lia.
Qed.

(** X5. The first generation for a file stamps [createdAt] and [updatedAt]
    with the same time. *)
Theorem first_generation_stamps_both (payload : LearningNoteRequest)
    (w w' : World) (record : LearningNote) (existing : pyval) :
  read (note_root w) (note_fileId payload) = Ok existing ->
  truthy existing = false ->
  generate_learning_note payload w = (Ok (NewNote record), w') ->
  createdAt record = PStr (updatedAt record) /\
  updatedAt record = isoformat (clock w').
Proof.
  intros Hread Hfalsy.
  intros (existing' & w2 & data & Hread' & _ & Hbuild & _ & ->)%generate_learning_note_new.
  rewrite Hread in Hread'. injection Hread' as <-.
  apply build_note_ok in Hbuild
    as (file & chunks & w1 & created & _ & _ & _ & _ & _ & Hget & Hc & Hu).
  unfold por in Hget. rewrite Hfalsy in Hget. unfold get, get_or in Hget.
  rewrite lookup_empty in Hget. injection Hget as <-.
  rewrite Hc, Hu. by split.
Qed.

(** X6. Note generation leaves the uploads, the quiz store and every other
    note file alone, whatever its outcome. *)
Theorem note_generation_frame (payload : LearningNoteRequest) (w : World) :
  let '(r, w') := generate_learning_note payload w in
  uploads w' = uploads w /\ quiz_records w' = quiz_records w /\
  forall path, path <> _path_for (note_fileId payload) ->
    note_root w' !! path = note_root w !! path.
Proof.
  rewrite generate_learning_note_unfold.
  destruct (read _ _) as [existing|e]; [|done].
  destruct (truthy existing && negb (force payload)); [done|].
  destruct (build_note payload existing w) as [r2 w2] eqn:Hbuild.
  destruct (traced_build_note _ _ _ _ _ Hbuild) as (new & [Hroot Hup Hquiz _ _ _] & _).
  destruct r2 as [record|e]; [|by rewrite Hroot].
  destruct (write_outcome _ _ _) as [data|e]; [|by rewrite Hroot].
  split; [done|]. split; [done|]. intros path Hpath. cbn.
  by rewrite lookup_insert_ne, Hroot.
Qed.

(** X7. Without a usable upload the request is refused before any remote
    call, and the world is as it was. A fileId that names no upload gives
    HTTPException 404 when the file system accepts the path, and otherwise
    the exception that [resolve] or [exists] raises for it. *)
Theorem note_refused_before_any_call (payload : LearningNoteRequest) (w : World)
    (existing : pyval) :
  read (note_root w) (note_fileId payload) = Ok existing ->
  truthy existing && negb (force payload) = false ->
  (uploads w !! note_fileId payload = None ->
   generate_learning_note payload w
   = (Raise (default (HTTPException 404 UploadNotFound)
               (upload_error (note_fileId payload))), w)) /\
  (forall file e,
     uploads w !! note_fileId payload = Some file ->
     _extract_page_chunks file = Raise e ->
     generate_learning_note payload w = (Raise e, w)) /\
  (forall file chunks,
     uploads w !! note_fileId payload = Some file ->
     _extract_page_chunks file = Ok chunks ->
     Forall (fun chunk => ~ has_text chunk) chunks ->
     generate_learning_note payload w
     = (Raise (HTTPException 400
                 (if bool_decide (chunks = []) then NoPagesFound
                  else NoSummarizablePages)), w)).
Proof.
  intros Hread Hmiss.
  assert (Hrun : generate_learning_note payload w
                 = match build_note payload existing w with
                   | (Raise e, w2) => (Raise e, w2)
                   | (Ok record, w2) => generate_learning_note payload w
                   end).
  { rewrite generate_learning_note_unfold, Hread, Hmiss.
    by destruct (build_note payload existing w) as [[record|e] w2]. }
  split; [|split].
  - intros Hup. rewrite Hrun. unfold build_note, bind at 1, find_upload. rewrite Hup.
    by destruct (upload_error _).
  - intros file e Hup Hchunks. rewrite Hrun.
    unfold build_note, bind at 1, find_upload. rewrite Hup.
    unfold bind at 1, lift. by rewrite Hchunks.
  - intros file chunks Hup Hchunks Hblank. rewrite Hrun.
    unfold build_note, bind at 1, find_upload. rewrite Hup.
    unfold bind at 1, lift at 1. rewrite Hchunks.
    case_bool_decide; [done|]. unfold bind at 1.
    assert (Hloop : forall acc, summarize_pages chunks acc w = (Ok acc, w)).
    { clear -Hblank. induction Hblank as [|chunk rest Hchunk _ IH]; intros acc; [done|].
      cbn [summarize_pages]. case_bool_decide; [apply IH|]. by destruct Hchunk. }
    rewrite Hloop. by rewrite bool_decide_eq_true_2.
Qed.

(** X8. Once a note is generated, asking again without [force], or fetching
    it, returns what the store reads back, with no further remote call. *)
Theorem generated_note_is_served_from_store (payload : LearningNoteRequest)
    (w w1 : World) (record : LearningNote) (stored : pyval) (window_size : Z) :
  generate_learning_note payload w = (Ok (NewNote record), w1) ->
  (forall data, json_dump (note_dict record) = Ok data ->
     exists text, utf8_decode data = Some text /\
       json_loads (universal_newlines text) = Some stored) ->
  truthy stored = true ->
  generate_learning_note
    {| note_fileId := note_fileId payload; note_windowSize := window_size;
       force := false |} w1
  = (Ok (StoredNote stored), w1) /\
  get_learning_note (note_fileId payload) w1 = (Ok stored, w1).
Proof.
  intros (existing & w2 & data & _ & _ & _ & Hdump & ->)%generate_learning_note_new.
  intros Hback Htruthy. destruct (Hback data Hdump) as (text & Hdecode & Hloads).
  assert (Hread : read (note_root (set_note_root
             (<[_path_for (note_fileId payload) := RegularFile true data]>
                (note_root w2)) w2)) (note_fileId payload) = Ok stored).
  { unfold read. cbn [note_root set_note_root]. rewrite lookup_insert_eq.
    cbn [read_text]. rewrite Hdecode. cbn [result_bind]. unfold loads. by rewrite Hloads. }
  split.
  - rewrite generate_learning_note_unfold. cbn [note_fileId force].
    by rewrite Hread, Htruthy.
  - unfold get_learning_note, bind, read_note. rewrite Hread. by rewrite Htruthy.
Qed.

End Notes.
End NoteMore.

(** ** The note store *)

Module StoreMore.
Import Py FileParsers LearningNoteStorage Main Spec Shapes.

Section Store.
Context `{Runtime}.

(** X9. What [save] stores, [read] gives back, when [mkstemp] finds a
    name the directory does not hold and [json.loads] inverts [json.dump]
    on the payload; the directory then holds the note and what it held
    before, and no temporary file. *)
Theorem save_then_read (root : gmap pystr fsnode) (file_id : pystr)
    (payload : pyval) (name : pystr) (data : list byte) (text : pystr) :
  mkstemp (dom root) (tmp_prefix file_id) (str ".tmp") = Ok name ->
  root !! (tmp_prefix file_id ++ name ++ str ".tmp") = None ->
  json_dump payload = Ok data ->
  utf8_decode data = Some text ->
  json_loads (universal_newlines text) = Some payload ->
  root !! _path_for file_id <> Some Directory ->
  (save root file_id payload).1 = Ok payload /\
  (save root file_id payload).2 = <[_path_for file_id := RegularFile true data]> root /\
  read (save root file_id payload).2 file_id = Ok payload.
Proof.
  intros Hname Hfresh Hdump Hdecode Hloads Hdir.
  unfold save. rewrite NoteFacts.write_atomic. unfold write_outcome.
  rewrite Hname, Hfresh, Hdump.
  assert (Hread : read (<[_path_for file_id := RegularFile true data]> root) file_id
                  = Ok payload).
  { unfold read. rewrite lookup_insert_eq. cbn [read_text]. rewrite Hdecode.
    cbn [result_bind]. unfold loads. by rewrite Hloads. }
  by destruct (root !! _path_for file_id) as [[|readable old]|].
Qed.

(** X10. A save that raises leaves the directory as it was: the temporary
    file is removed. Whatever its outcome, a save leaves every name but
    the note's own as it was, so no temporary file stays behind, and it
    does not change what [read] returns for a note kept under another
    name. *)
Theorem save_is_atomic_and_local (root : gmap pystr fsnode) (file_id : pystr)
    (payload : pyval) :
  let '(r, root') := save root file_id payload in
  (forall e, r = Raise e -> root' = root) /\
  (forall path, path <> _path_for file_id -> root' !! path = root !! path) /\
  (forall other, _path_for other <> _path_for file_id ->
     read root' other = read root other).
Proof.
  unfold save. rewrite NoteFacts.write_atomic.
  destruct (write_outcome root file_id payload) as [data|e]; [|done].
  split; [done|]. split.
  - intros path Hpath. by rewrite lookup_insert_ne.
  - intros other Hother. unfold read. by rewrite lookup_insert_ne.
Qed.

End Store.
End StoreMore.

(** ** The parsers of remote answers *)

Module ParseMore.
Import Py FileParsers LearningNoteStorage Main Spec Shapes.

Section Parse.
Context `{Runtime} `{Services}.

Lemma stripped_lines_trimmed s : Forall trimmed (stripped_lines s).
Proof.
  unfold stripped_lines. apply Forall_forall. intros line Hin.
  apply list_elem_of_filter in Hin as [Hne Hin].
  apply list_elem_of_fmap in Hin as (raw & -> & _).
  split; [done|apply NormalizeFacts.strip_idem].
Qed.

Lemma stripped_items_trimmed l : Forall trimmed (stripped_items l).
Proof.
  unfold stripped_items. apply Forall_forall. intros item Hin.
  apply list_elem_of_filter in Hin as [Hne Hin].
  apply list_elem_of_fmap in Hin as (raw & -> & _).
  split; [done|apply NormalizeFacts.strip_idem].
Qed.

(** X11. Every JSON object is accepted as a page summary: at most five key
    points, each a non-empty trimmed text, and a trimmed outline and study
    question; any other JSON value makes the parser raise AttributeError. *)
Theorem page_summary_shape :
  (forall d, exists s,
     parse_page_summary_data (PDict d) = Ok s /\
     (length (keyPoints s) <= 5)%nat /\
     Forall trimmed (keyPoints s) /\
     strip (outline s) = outline s /\
     strip (studyQuestion s) = studyQuestion s) /\
  (forall data,
     is_dict data = false -> parse_page_summary_data data = Raise AttributeError).
Proof.
  split.
  - intros d. unfold parse_page_summary_data, get, get_or. cbn [result_bind].
    eexists. split; [done|]. cbn [keyPoints outline studyQuestion].
    split; [rewrite length_take; lia|].
    split; [|split; apply NormalizeFacts.strip_idem].
    apply Forall_take.
    destruct (por _ _); try constructor;
      [apply stripped_lines_trimmed|apply stripped_items_trimmed].
  - by intros [].
Qed.

(** X12. The notes of an accepted quiz response are non-empty trimmed texts,
    and a response that is a bare list has none. *)
Theorem quiz_notes_shape (data : pyval) (parsed : ParsedQuiz) :
  parse_quiz_data data = Ok parsed ->
  Forall trimmed (notes parsed) /\
  (is_dict data = false -> notes parsed = []).
Proof.
  unfold parse_quiz_data.
  set (questions_raw := match data with PDict _ => _ | _ => _ end).
  destruct questions_raw as [l|]; [|done]. cbn [result_bind].
  destruct (parse_items _ []) as [qs|]; [|done]. cbn [result_bind].
  case_bool_decide; [done|]. intros [= <-]. cbn [notes]. split.
  - destruct data as [| | | | | |d]; try constructor.
    destruct (d !! str "notes") as [[]|]; try constructor;
      [apply stripped_lines_trimmed|apply stripped_items_trimmed].
  - by destruct data.
Qed.

Lemma int_or_zero_raise v e :
  int_or_zero v = Raise e ->
  e = OverflowError /\ exists sign, v = PFloat (S754_infinity sign).
Proof.
  unfold int_or_zero, int.
  destruct v as [|b|z|f|s|l|d]; try done.
  - destruct f as [sign|sign| |sign m ex]; try done. intros [= <-]. eauto.
  - by destruct (int_of_str s).
Qed.

Lemma parse_items_raise items acc e :
  parse_items items acc = Raise e ->
  exists idx item, (idx, item) ∈ items /\ parse_item idx item = Raise e.
Proof.
  revert acc. induction items as [|[idx item] rest IH]; intros acc; [done|].
  cbn [parse_items].
  destruct (parse_item idx item) as [[q|]|e'] eqn:Hitem; cbn [result_bind].
  - intros (i & it & Hin & Hraise)%IH. exists i, it. split; [by right|done].
  - intros (i & it & Hin & Hraise)%IH. exists i, it. split; [by right|done].
  - intros [= <-]. exists idx, item. split; [by left|done].
Qed.

Lemma parse_items_non_dict items acc :
  Exists (fun '(_, item) => is_dict item = false) items ->
  exists e, parse_items items acc = Raise e.
Proof.
  intros Hex. revert acc.
  induction Hex as [[idx item] rest Hitem|[idx item] rest _ IH]; intros acc.
  - cbn [parse_items]. destruct item; try done; by eexists.
  - cbn [parse_items]. destruct (parse_item idx item) as [[q|]|e]; cbn [result_bind];
      [apply IH|apply IH|by eexists].
Qed.

Lemma enumerate_from_Exists {A} (P : A -> Prop) k (items : list A) :
  Exists P items -> Exists (fun '(_, item) => P item) (enumerate_from k items).
Proof.
  intros Hex. revert k.
  induction Hex; intros k; cbn [enumerate_from]; [by left|right; apply IHHex].
Qed.

(** X13. The item parser raises in two cases only: the item is no JSON object
    (AttributeError), or it has four options and an infinite float as
    [correctIndex] (OverflowError). One such item fails the whole
    response. *)
Theorem quiz_item_errors :
  (forall idx item, is_dict item = false -> parse_item idx item = Raise AttributeError) /\
  (forall idx d e,
     parse_item idx (PDict d) = Raise e ->
     e = OverflowError /\ 4 <= len (item_options d) /\
     exists sign, item_correct d = PFloat (S754_infinity sign)) /\
  (forall items,
     Exists (fun item => is_dict item = false) items ->
     exists e, parse_quiz_data (PList items) = Raise e).
Proof.
  split; [|split].
  - by intros idx [].
  - intros idx d e. rewrite QuizFacts.parse_item_dict.
    destruct (Z.ltb_spec (len (item_options d)) 4); [done|].
    destruct (int_or_zero _) as [z|e'] eqn:Hint; [done|]. intros [= <-].
    apply int_or_zero_raise in Hint as [-> Hinf]. by repeat split.
  - intros items Hex. unfold parse_quiz_data. cbn [result_bind].
    destruct (parse_items_non_dict (enumerate_from 0 items) [])
      as [e ->]; [|by eexists].
    by apply (enumerate_from_Exists (fun item => is_dict item = false)).
Qed.

End Parse.
End ParseMore.

(** ** The quiz endpoints *)

Module QuizMore.
Import Py FileParsers LearningNoteStorage Main Spec Shapes.

Section Quiz.
Context `{Runtime} `{Services}.

Lemma len_prefix_chars n (s : pystr) : 0 <= n -> len (prefix_chars n s) <= n.
Proof. intros Hn. unfold len, prefix_chars. rewrite length_take. lia. Qed.

(** The common end of the two quiz endpoints, as one case analysis. *)
Lemma quiz_tail_run prompt (mk : ParsedQuiz -> Z -> QuizRecord) w :
  let response := generate_content (fst <$> calls w) prompt in
  let w1 := log_call prompt response w in
  (raw <- generate_with_gemini prompt ;;
   parsed <- lift (_parse_quiz_payload raw) ;;
   t <- now ;;
   record <- add_record (mk parsed t) ;;
   ret {| resp_questions := questions parsed;
          resp_notes := notes parsed;
          quizId := quiz_id record |}) w
  = match answer response with
    | None => (Raise (HTTPException 500 GeminiCallFailed), w1)
    | Some raw =>
      match _parse_quiz_payload raw with
      | Raise e => (Raise e, w1)
      | Ok parsed =>
        let stored := {| quiz_id := new_quiz_id (length (quiz_records w));
                         quiz_record := mk parsed (clock w1) |} in
        (Ok {| resp_questions := questions parsed;
               resp_notes := notes parsed;
               quizId := quiz_id stored |},
         set_quiz_records (quiz_records w ++ [stored]) w1)
      end
    end.
Proof.
  cbn zeta. unfold bind at 1. rewrite NoteFacts.generate_with_gemini_run.
  destruct (answer _) as [raw|]; [|done].
  unfold bind at 1, lift. by destruct (_parse_quiz_payload raw).
Qed.

(** X14. A quiz request that fails validation is refused before any remote
    call, and the world is as it was: text shorter than 30 characters
    after normalisation; a fileId that names no upload, with
    HTTPException 404 when the file system accepts the path and otherwise
    the exception that [resolve] or [exists] raises for it; a suffix that
    is neither .pdf nor .pptx; a document without text. *)
Theorem quiz_refused_before_any_call :
  (forall payload w,
     len (prefix_chars MAX_SOURCE_CHARS (normalize_text (Some (sourceText payload)))) < 30 ->
     generate_quiz_from_text payload w
     = (Raise (HTTPException 400 SourceTextTooShort), w)) /\
  (forall payload w,
     uploads w !! quiz_fileId payload = None ->
     generate_quiz_from_file payload w
     = (Raise (default (HTTPException 404 UploadNotFound)
                 (upload_error (quiz_fileId payload))), w)) /\
  (forall payload w file,
     uploads w !! quiz_fileId payload = Some file ->
     suffix file <> str ".pdf" -> suffix file <> str ".pptx" ->
     generate_quiz_from_file payload w
     = (Raise (HTTPException 400 (UnsupportedExtension (suffix file))), w)) /\
  (forall payload w file reader_pages,
     uploads w !! quiz_fileId payload = Some file ->
     suffix file = str ".pdf" -> pdf_pages file = Ok reader_pages ->
     extract_text_from_pdf reader_pages = [] ->
     generate_quiz_from_file payload w
     = (Raise (HTTPException 400 NoTextExtracted), w)).
Proof.
  split; [|split; [|split]].
  - intros payload w Hshort. unfold generate_quiz_from_text.
    by destruct (Z.ltb_spec
      (len (prefix_chars MAX_SOURCE_CHARS (normalize_text (Some (sourceText payload))))) 30);
      [|lia].
  - intros payload w Hup. unfold generate_quiz_from_file, bind at 1, find_upload.
    rewrite Hup. by destruct (upload_error _).
  - intros payload w file Hup Hpdf Hpptx.
    unfold generate_quiz_from_file, bind at 1, find_upload. rewrite Hup.
    unfold bind at 1. by rewrite !bool_decide_eq_false_2.
  - intros payload w file reader_pages Hup Hpdf Hpages Hempty.
    unfold generate_quiz_from_file, bind at 1, find_upload. rewrite Hup.
    unfold bind at 1. rewrite bool_decide_eq_true_2 by done.
    unfold lift. rewrite Hpages. cbn [result_bind]. rewrite Hempty.
    by rewrite bool_decide_eq_true_2.
Qed.

(** X15. A quiz from text makes at most one remote call, with at most 8000
    characters of source, and leaves the notes and the uploads alone; when
    it succeeds it has made exactly one call and appended exactly one
    record, whose id the response carries. *)
Theorem quiz_from_text_effects (payload : QuizFromTextRequest) (w : World) :
  let '(r, w') := generate_quiz_from_text payload w in
  note_root w' = note_root w /\ uploads w' = uploads w /\
  exists new,
    calls w' = calls w ++ new /\ (length new <= 1)%nat /\
    Forall within_limits new /\
    (forall response, r = Ok response ->
       length new = 1%nat /\
       exists stored,
         quiz_records w' = quiz_records w ++ [stored] /\
         quiz_id stored = quizId response /\
         numQuestions (quiz_record stored) = len (resp_questions response) /\
         quiz_createdAt (quiz_record stored) = isoformat (clock w')).
Proof.
  unfold generate_quiz_from_text.
  destruct (len _ <? 30).
  { cbn. split; [done|]. split; [done|]. exists []. rewrite app_nil_r.
    split; [done|]. split; [cbn; lia|]. by split. }
  rewrite (quiz_tail_run _ (fun parsed t => Build_QuizRecord _ _ _ _ _ _ _)).
  set (prompt := TextPrompt _ _ _).
  set (c := (prompt, generate_content (fst <$> calls w) prompt)).
  assert (Hc : within_limits c).
  { cbn. apply len_prefix_chars. unfold MAX_SOURCE_CHARS. lia. }
  cbn zeta. destruct (answer _) as [raw|].
  2:{ cbn. split; [done|]. split; [done|]. exists [c].
      split; [done|]. split; [cbn; lia|]. split; [by repeat constructor|done]. }
  destruct (_parse_quiz_payload raw) as [parsed|e].
  2:{ cbn. split; [done|]. split; [done|]. exists [c].
      split; [done|]. split; [cbn; lia|]. split; [by repeat constructor|done]. }
  cbn. split; [done|]. split; [done|]. exists [c].
  split; [done|]. split; [cbn; lia|]. split; [by repeat constructor|].
  intros response [= <-]. split; [done|]. by eexists.
Qed.

(** X16. The same for a quiz from an uploaded file. *)
Theorem quiz_from_file_effects (payload : QuizFromFileRequest) (w : World) :
  let '(r, w') := generate_quiz_from_file payload w in
  note_root w' = note_root w /\ uploads w' = uploads w /\
  exists new,
    calls w' = calls w ++ new /\ (length new <= 1)%nat /\
    Forall within_limits new /\
    (forall response, r = Ok response ->
       length new = 1%nat /\
       exists stored,
         quiz_records w' = quiz_records w ++ [stored] /\
         quiz_id stored = quizId response /\
         numQuestions (quiz_record stored) = len (resp_questions response) /\
         quiz_createdAt (quiz_record stored) = isoformat (clock w')).
Proof.
  assert (Hnone : forall (e : exn),
    note_root w = note_root w /\ uploads w = uploads w /\
    exists new : list (Prompt * Response),
      calls w = calls w ++ new /\ (length new <= 1)%nat /\
      Forall within_limits new /\
      (forall response : QuizResponse, Raise e = Ok response ->
         length new = 1%nat /\
         exists stored,
           quiz_records w = quiz_records w ++ [stored] /\
           quiz_id stored = quizId response /\
           numQuestions (quiz_record stored) = len (resp_questions response) /\
           quiz_createdAt (quiz_record stored) = isoformat (clock w))).
  { intros e. split; [done|]. split; [done|]. exists []. rewrite app_nil_r.
    split; [done|]. split; [cbn; lia|]. by split. }
  unfold generate_quiz_from_file, bind at 1, find_upload.
  destruct (uploads w !! _) as [file|]; [|destruct (upload_error _); apply Hnone].
  unfold bind at 1.
  set (extracted := if bool_decide (suffix file = str ".pdf") then _ else _).
  assert (exists r, extracted w = (r, w)) as [r ->].
  { subst extracted. repeat case_bool_decide; by eexists. }
  destruct r as [extracted_text|e]; [|apply Hnone].
  case_bool_decide; [apply Hnone|].
  rewrite (quiz_tail_run _ (fun parsed t => Build_QuizRecord _ _ _ _ _ _ _)).
  set (prompt := FilePrompt _ _).
  set (c := (prompt, generate_content (fst <$> calls w) prompt)).
  assert (Hc : within_limits c).
  { cbn. apply len_prefix_chars. unfold MAX_SOURCE_CHARS. lia. }
  cbn zeta. destruct (answer _) as [raw|].
  2:{ cbn. split; [done|]. split; [done|]. exists [c].
      split; [done|]. split; [cbn; lia|]. split; [by repeat constructor|done]. }
  destruct (_parse_quiz_payload raw) as [parsed|e].
  2:{ cbn. split; [done|]. split; [done|]. exists [c].
      split; [done|]. split; [cbn; lia|]. split; [by repeat constructor|done]. }
  cbn. split; [done|]. split; [done|]. exists [c].
  split; [done|]. split; [cbn; lia|]. split; [by repeat constructor|].
  intros response [= <-]. split; [done|]. by eexists.
Qed.

End Quiz.
End QuizMore.

(** ** Texts: normalising, clipping, merging, extracting *)

Module TextMore.
Import Py FileParsers LearningNoteStorage Main Spec Shapes NormalizeFacts.

(** X17. [normalize_text] returns a canonical text: no NUL, no carriage
    return, never three line feeds in a row, no outer white space. *)
Theorem normalize_text_is_canonical (text : option pystr) :
  Forall (fun c => c <> NUL /\ c <> CR) (normalize_text text) /\
  no3 (normalize_text text) /\
  strip (normalize_text text) = normalize_text text.
Proof.
  destruct (normalize_text_normal text) as [Hnul Hcr Hlf Hstrip].
  split; [|done]. rewrite Forall_forall in *. intros c Hc. split; auto.
Qed.

Lemma length_lstrip (s : pystr) : (length (lstrip s) <= length s)%nat.
Proof. destruct (lstrip_suffix s) as [pre Heq]. rewrite Heq at 2. rewrite length_app. lia. Qed.

Lemma length_rstrip (s : pystr) : (length (rstrip s) <= length s)%nat.
Proof. destruct (rstrip_prefix s) as [post Heq]. rewrite Heq at 2. rewrite length_app. lia. Qed.

Lemma length_strip (s : pystr) : (length (strip s) <= length s)%nat.
Proof. unfold strip. pose proof (length_rstrip (lstrip s)). pose proof (length_lstrip s). lia. Qed.

Lemma ellipsis_length : length (str " …") = 2%nat.
Proof. reflexivity. Qed.

Lemma clip_text_length (value : pystr) (limit : Z) :
  0 <= limit -> len (_clip_text value limit) <= limit + 2.
Proof.
  intros Hlimit. unfold _clip_text.
  destruct (Z.leb_spec (len (strip value)) limit) as [Hshort|Hlong]; [lia|].
  unfold len, prefix_chars in *. rewrite length_app, ellipsis_length.
  pose proof (length_rstrip (take (Z.to_nat limit) (strip value))).
  rewrite length_take in *. lia.
Qed.

(** X18. [_clip_text] keeps a short text whole, and cuts a long one to at most
    [limit] characters of its start, without white space at the cut,
    followed by a space and an ellipsis. *)
Theorem clip_text_bounded (value : pystr) (limit : Z) :
  0 <= limit ->
  len (_clip_text value limit) <= limit + 2 /\
  (len (strip value) <= limit -> _clip_text value limit = strip value) /\
  (limit < len (strip value) ->
     exists kept,
       _clip_text value limit = kept ++ str " …" /\
       kept `prefix_of` strip value /\ rstrip kept = kept /\ len kept <= limit).
Proof.
  intros Hlimit. split; [by apply clip_text_length|]. unfold _clip_text.
  destruct (Z.leb_spec (len (strip value)) limit) as [Hshort|Hlong].
  - split; [done|lia].
  - split; [lia|]. intros _. eexists. split; [done|].
    split; [|split; [apply rstrip_idem|]].
    + destruct (rstrip_prefix (prefix_chars limit (strip value))) as [post Hpost].
      unfold prefix_chars in *.
      exists (post ++ drop (Z.to_nat limit) (strip value)).
      by rewrite app_assoc, <- Hpost, take_drop.
    + unfold len, prefix_chars.
      pose proof (length_rstrip (take (Z.to_nat limit) (strip value))).
      rewrite length_take in *. lia.
Qed.

(** *** Merged Markdown *)

Lemma strip_nil_iff_lstrip (s : pystr) : strip s = [] <-> lstrip s = [].
Proof.
  unfold strip. split; [|by intros ->].
  destruct (lstrip s) as [|c t] eqn:Hl; [done|].
  destruct (rstrip_head c t (lstrip_head _ _ _ Hl)) as [r ->]. done.
Qed.

Lemma rstrip_fixed_app (x b : pystr) :
  b <> [] -> rstrip b = b -> rstrip (x ++ b) = x ++ b.
Proof.
  intros Hne Hb. induction x as [|c x IH]; [done|].
  cbn [app rstrip]. rewrite IH. by destruct (x ++ b) eqn:Heq; [destruct x, b|].
Qed.

Lemma trimmed_parts (s : pystr) :
  trimmed s -> exists c t, s = c :: t /\ isspace c = false /\ rstrip s = s.
Proof.
  intros [Hne Hstrip]. destruct s as [|c t]; [done|].
  exists c, t. split; [done|].
  destruct (isspace c) eqn:Hc.
  - exfalso. unfold strip in Hstrip. cbn [lstrip] in Hstrip. rewrite Hc in Hstrip.
    apply (f_equal length) in Hstrip.
    pose proof (length_rstrip (lstrip t)). pose proof (length_lstrip t).
    cbn in Hstrip. lia.
  - split; [done|]. unfold strip in Hstrip. cbn [lstrip] in Hstrip.
    by rewrite Hc in Hstrip.
Qed.

Lemma trimmed_app (a mid b : pystr) : trimmed a -> trimmed b -> trimmed (a ++ mid ++ b).
Proof.
  intros Ha Hb.
  destruct (trimmed_parts a Ha) as (c & t & -> & Hc & _).
  destruct (trimmed_parts b Hb) as (c' & t' & Hb' & _ & Hrb).
  split; [done|]. unfold strip. cbn [app lstrip]. rewrite Hc.
  change (c :: t ++ mid ++ b) with ((c :: t) ++ mid ++ b).
  rewrite app_assoc. apply rstrip_fixed_app; [by destruct Hb|exact Hrb].
Qed.

Lemma join_trimmed sep parts :
  Forall trimmed parts -> parts <> [] -> trimmed (join sep parts).
Proof.
  induction 1 as [|p rest Hp Hrest IH]; [done|]. intros _.
  destruct rest as [|q rest]; [done|].
  change (join sep (p :: q :: rest)) with (p ++ sep ++ join sep (q :: rest)).
  apply trimmed_app; [done|]. by apply IH.
Qed.

Lemma merged_parts_app ws1 ws2 :
  merged_parts (ws1 ++ ws2) = merged_parts ws1 ++ merged_parts ws2.
Proof. unfold merged_parts. by rewrite fmap_app, filter_app, fmap_app, filter_app. Qed.

Lemma merged_parts_blank win : blank win -> merged_parts [win] = [].
Proof.
  unfold blank, merged_parts. intros Hblank. cbn [fmap list_fmap].
  rewrite filter_cons. case_decide; [|done].
  cbn [fmap list_fmap]. rewrite filter_cons, Hblank.
  by rewrite decide_False by (intros Hn; by apply Hn).
Qed.

Lemma merged_parts_trimmed ws : Forall trimmed (merged_parts ws).
Proof.
  unfold merged_parts. apply Forall_forall. intros part Hin.
  apply list_elem_of_filter in Hin as [Hne Hin].
  apply list_elem_of_fmap in Hin as (raw & -> & _).
  split; [done|apply strip_idem].
Qed.

(** X19. A blank window adds nothing to the merged Markdown. *)
Theorem merge_skips_blank_windows (before after : list Window) (win : Window) :
  blank win ->
  _merge_markdown (before ++ win :: after) = _merge_markdown (before ++ after).
Proof.
  intros Hblank. change (_merge_markdown ?ws) with (join [LF; LF] (merged_parts ws)).
  change (win :: after) with ([win] ++ after).
  by rewrite !merged_parts_app, merged_parts_blank.
Qed.

(** X20. The merged Markdown has no outer white space, and is empty when
    every window is blank. *)
Theorem merged_markdown_is_trimmed (windows : list Window) :
  strip (_merge_markdown windows) = _merge_markdown windows /\
  (Forall blank windows -> _merge_markdown windows = []).
Proof.
  change (_merge_markdown windows) with (join [LF; LF] (merged_parts windows)).
  split.
  - destruct (merged_parts windows) as [|p rest] eqn:Hparts; [done|].
    rewrite <- Hparts. apply join_trimmed; [apply merged_parts_trimmed|].
    by rewrite Hparts.
  - intros Hblank. assert (merged_parts windows = []) as ->; [|done].
    induction Hblank as [|win rest Hwin _ IH]; [done|].
    change (win :: rest) with ([win] ++ rest).
    by rewrite merged_parts_app, merged_parts_blank, IH.
Qed.

(** *** Extractors *)

Lemma enumerate_from_fst {A} k (items : list A) :
  fst <$> enumerate_from k items = seqZ k (len items).
Proof.
  revert k. induction items as [|x rest IH]; intros k; [done|].
  cbn [enumerate_from fmap list_fmap fst]. fold (fmap (M:=list) (@fst Z A)).
  rewrite IH. unfold len. cbn [length].
  rewrite (seqZ_cons k) by lia. f_equal. f_equal; lia.
Qed.

Lemma extract_pdf_pages_shape reader_pages :
  chunk_index <$> extract_pdf_pages reader_pages = seqZ 1 (len reader_pages) /\
  Forall (labelled "Page ") (extract_pdf_pages reader_pages).
Proof.
  unfold extract_pdf_pages. split.
  - rewrite <- list_fmap_compose, <- (enumerate_from_fst 1 reader_pages).
    apply list_fmap_ext. by intros i [idx page_text] _.
  - apply Forall_fmap, Forall_forall. intros [idx page_text] _.
    split; [done|apply normalize_text_normal].
Qed.

Lemma extract_pptx_slides_shape slide_nodes :
  chunk_index <$> extract_pptx_slides slide_nodes = seqZ 1 (len slide_nodes) /\
  Forall (labelled "Slide ") (extract_pptx_slides slide_nodes).
Proof.
  unfold extract_pptx_slides. split.
  - rewrite <- list_fmap_compose, <- (enumerate_from_fst 1 slide_nodes).
    apply list_fmap_ext. by intros i [idx text_nodes] _.
  - apply Forall_fmap, Forall_forall. intros [idx text_nodes] _.
    split; [done|apply normalize_text_normal].
Qed.

(** X21. The extractors number the pages (slides) 1, 2, ... in order, label
    each by its number and return normalised text. *)
Theorem extractors_number_and_label :
  (forall reader_pages,
     chunk_index <$> extract_pdf_pages reader_pages = seqZ 1 (len reader_pages) /\
     Forall (labelled "Page ") (extract_pdf_pages reader_pages)) /\
  (forall slide_nodes,
     chunk_index <$> extract_pptx_slides slide_nodes = seqZ 1 (len slide_nodes) /\
     Forall (labelled "Slide ") (extract_pptx_slides slide_nodes)).
Proof. split; [apply extract_pdf_pages_shape|apply extract_pptx_slides_shape]. Qed.
End TextMore.

(** ** The remote call and what note generation sends it *)

Module RemoteMore.
Import Py FileParsers LearningNoteStorage Main Spec Shapes NormalizeFacts.

Section Remote.
Context `{Runtime} `{Services}.

Lemma FENCE_backticks : FENCE = [BACKTICK; BACKTICK; BACKTICK].
Proof. reflexivity. Qed.

Lemma no_fence_nil : no_fence [].
Proof. intros [|? ?] post Heq; discriminate. Qed.

Lemma no_fence_cons x (s : pystr) :
  no_fence s -> (x = BACKTICK -> (run_length BACKTICK s <= 1)%nat) -> no_fence (x :: s).
Proof.
  intros Hs Hx [|y pre] post Heq; rewrite FENCE_backticks in Heq.
  - cbn in Heq. injection Heq as -> ->. specialize (Hx eq_refl).
    cbn in Hx. lia.
  - cbn in Heq. injection Heq as -> ->. apply (Hs pre post).
    by rewrite FENCE_backticks.
Qed.

Lemma no_fence_infix (pre s post : pystr) : no_fence (pre ++ s ++ post) -> no_fence s.
Proof.
  intros Hs a b ->. apply (Hs (pre ++ a) (b ++ post)).
  by rewrite <- !app_assoc.
Qed.

Lemma unfence_step (s : pystr) :
  replace FENCE [] s
  = match s with
    | [] => []
    | c :: t =>
      if starts_with FENCE s then replace FENCE [] (drop 2 t)
      else c :: replace FENCE [] t
    end.
Proof.
  unfold replace. destruct s as [|c t]; [done|].
  cbn [replace_from]. destruct (starts_with FENCE (c :: t)) eqn:Hstart; [|done].
  rewrite FENCE_backticks in *. cbn [length Nat.sub app].
  destruct t as [|c1 [|c2 u]]; cbn in Hstart; try done.
  all: repeat (match type of Hstart with context [N.eqb ?a ?b] =>
                 destruct (N.eqb a b); cbn in Hstart end); done.
Qed.

Lemma eqb_backtick (x : N) : (BACKTICK =? x)%N = (x =? BACKTICK)%N.
Proof. apply N.eqb_sym. Qed.

Lemma starts_with_fence (s : pystr) :
  starts_with FENCE s = true <-> (3 <= run_length BACKTICK s)%nat.
Proof.
  rewrite FENCE_backticks.
  destruct s as [|a [|b [|c u]]]; cbn [starts_with run_length andb];
    rewrite ?eqb_backtick.
  - split; [done|lia].
  - destruct (a =? BACKTICK)%N; cbn [andb]; split; try done; lia.
  - destruct (a =? BACKTICK)%N, (b =? BACKTICK)%N; cbn [andb]; split; try done; lia.
  - destruct (a =? BACKTICK)%N, (b =? BACKTICK)%N, (c =? BACKTICK)%N;
      cbn [andb]; split; try done; lia.
Qed.

Lemma unfence_spec n (s : pystr) :
  (length s <= n)%nat ->
  no_fence (replace FENCE [] s) /\
  ((run_length BACKTICK s < 3)%nat ->
   run_length BACKTICK (replace FENCE [] s) = run_length BACKTICK s).
Proof.
  revert s. induction n as [|n IH]; intros s Hlen.
  - destruct s; [|cbn in Hlen; lia]. split; [apply no_fence_nil|done].
  - rewrite unfence_step. destruct s as [|c t]; [split; [apply no_fence_nil|done]|].
    cbn [length] in Hlen.
    destruct (starts_with FENCE (c :: t)) eqn:Hstart.
    + apply starts_with_fence in Hstart.
      destruct (IH (drop 2 t)) as [Hno _]; [rewrite length_drop; lia|].
      split; [done|lia].
    + assert (Hrun : (run_length BACKTICK (c :: t) < 3)%nat).
      { destruct (Nat.ltb_spec (run_length BACKTICK (c :: t)) 3) as [|Hge]; [done|].
        apply starts_with_fence in Hge. congruence. }
      destruct (IH t) as [Hno Hsame]; [lia|]. cbn [run_length] in *.
      destruct (N.eqb_spec c BACKTICK) as [->|Hc].
      * split; [|intros _; rewrite Hsame; [done|lia]].
        apply no_fence_cons; [done|]. intros _. rewrite Hsame; lia.
      * split; [|done]. apply no_fence_cons; [done|]. by intros ->.
Qed.

(** X22. The text [generate_with_gemini] returns holds no code fence and no
    outer white space; the call is logged whether it succeeds or not. *)
Theorem gemini_text_is_clean (prompt : Prompt) (w : World) :
  let '(r, w') := generate_with_gemini prompt w in
  (exists response, calls w' = calls w ++ [(prompt, response)]) /\
  (forall raw, r = Ok raw -> no_fence raw /\ strip raw = raw).
Proof.
  rewrite NoteFacts.generate_with_gemini_run.
  split; [by eexists|]. unfold answer.
  destruct (reply _) as [|[text|]]; try done.
  case_bool_decide; [done|]. intros raw [= <-]. split; [|apply strip_idem].
  set (cleaned := replace FENCE [] _).
  destruct (strip_infix cleaned) as (pre & post & Heq).
  apply (no_fence_infix pre _ post). rewrite <- Heq.
  by apply (unfence_spec (length (replace FENCE_JSON [] text))).
Qed.

(** *** What the calls of a computation look like *)

Lemma logs_ret P {A} (a : A) : logs P (ret a).
Proof. intros w r w' [= <- <-]. exists []. by rewrite app_nil_r. Qed.

Lemma logs_lift P {A} (x : result A) : logs P (lift x).
Proof. intros w r w' [= <- <-]. exists []. by rewrite app_nil_r. Qed.

Lemma logs_raise P {A} e : logs P (raise (A:=A) e).
Proof. intros w r w' [= <- <-]. exists []. by rewrite app_nil_r. Qed.

Lemma logs_bind P {A B} (m : M A) (k : A -> M B) :
  logs P m -> (forall a, logs P (k a)) -> logs P (bind m k).
Proof.
  intros Hm Hk w r w'. unfold bind.
  destruct (m w) as [[a|e] w1] eqn:Hrun.
  - intros Hrun2. destruct (Hm _ _ _ Hrun) as (new1 & Hc1 & Hall1).
    destruct (Hk a _ _ _ Hrun2) as (new2 & Hc2 & Hall2).
    exists (new1 ++ new2). split; [by rewrite Hc2, Hc1, app_assoc|by apply Forall_app].
  - intros [= <- <-]. by apply (Hm _ _ _ Hrun).
Qed.

Lemma logs_generate (P : Prompt * Response -> Prop) prompt :
  (forall response, P (prompt, response)) -> logs P (generate_with_gemini prompt).
Proof.
  intros HP w r w'. rewrite NoteFacts.generate_with_gemini_run. intros [= <- <-].
  eexists [_]. split; [done|]. by repeat constructor.
Qed.

Lemma logs_summarize_pages chunks pages :
  logs within_limits (summarize_pages chunks pages).
Proof.
  revert pages. induction chunks as [|chunk rest IH]; intros pages; [apply logs_ret|].
  cbn [summarize_pages]. case_bool_decide as Htext; [apply IH|].
  apply logs_bind; [|intros s; apply IH].
  apply logs_bind; [|intros raw; apply logs_lift].
  apply logs_generate. intros response. cbn. split.
  - unfold prefix_chars. by destruct (strip (chunk_text chunk)).
  - apply QuizMore.len_prefix_chars. unfold MAX_PAGE_PROMPT_CHARS. lia.
Qed.

Lemma logs_emit pages keys windows :
  Forall (fun key => slice pages key.1 key.2 <> []) keys ->
  logs within_limits (emit pages keys windows).
Proof.
  intros Hkeys. revert windows.
  induction Hkeys as [|key rest Hkey _ IH]; intros windows; [apply logs_ret|].
  cbn [emit]. apply logs_bind.
  - apply logs_bind; [|intros raw; apply logs_ret].
    by apply logs_generate.
  - intros md. apply logs_bind; [apply logs_lift|]. intros win. apply IH.
Qed.

Lemma logs_summarize_windows pages window_size :
  logs within_limits (_summarize_windows pages window_size).
Proof.
  destruct pages as [|p pages]; [apply logs_ret|].
  set (ps := p :: pages). intros w r w'.
  rewrite WindowFacts._summarize_windows_plan by done.
  assert (Hn : 0 < len ps) by (unfold len; cbn; lia).
  destruct (WindowFacts.half_widths window_size _ Hn) as [Hl Hr].
  set (keys := plan _ _ _ _ _).
  destruct (emit ps keys [] w) as [r1 w1] eqn:Hemit.
  assert (Hlogs : exists new, calls w1 = calls w ++ new /\ Forall within_limits new).
  { eapply logs_emit; [|exact Hemit]. apply Forall_forall.
    intros key (idx & _ & -> & Hlt)%WindowFacts.plan_keys.
    apply WindowFacts.slice_nonempty; cbn in *; lia. }
  by destruct r1; intros [= <- <-].
Qed.

(** X23. Whatever its outcome, note generation sends the remote model page
    prompts with between 1 and 3500 characters of page text and window
    prompts over at least one page. *)
Theorem note_prompts_within_limits (payload : LearningNoteRequest) (w : World) :
  let '(r, w') := generate_learning_note payload w in
  exists new, calls w' = calls w ++ new /\ Forall within_limits new.
Proof.
  rewrite NoteFacts.generate_learning_note_unfold.
  assert (Hnone : exists new, calls w = calls w ++ new /\ Forall within_limits new).
  { exists []. by rewrite app_nil_r. }
  destruct (read _ _) as [existing|e]; [|done].
  destruct (truthy existing && negb (force payload)); [done|].
  destruct (build_note payload existing w) as [r2 w2] eqn:Hbuild.
  assert (Hlogs : exists new, calls w2 = calls w ++ new /\ Forall within_limits new).
  { revert Hbuild. generalize w r2 w2. change (logs within_limits (build_note payload existing)).
    unfold build_note.
    apply logs_bind; [|intros file].
    { intros w0 r0 w0'. unfold find_upload.
      destruct (uploads w0 !! _); [|destruct (upload_error _)];
        intros [= <- <-]; exists []; by rewrite app_nil_r. }
    apply logs_bind; [apply logs_lift|intros chunks].
    case_bool_decide; [apply logs_raise|].
    apply logs_bind; [apply logs_summarize_pages|intros pages].
    case_bool_decide; [apply logs_raise|].
    apply logs_bind; [apply logs_summarize_windows|intros windows].
    apply logs_bind; [|intros t].
    { intros w0 r0 w0' [= <- <-]. exists []. by rewrite app_nil_r. }
    apply logs_bind; [apply logs_lift|intros created]. apply logs_ret. }
  destruct r2 as [record|e]; [|done].
  by destruct (write_outcome _ _ _) as [data|e].
Qed.

(** *** The pages of a note *)

Lemma summarize_pages_built chunks acc w pages w' :
  summarize_pages chunks acc w = (Ok pages, w') ->
  exists built,
    pages = acc ++ built /\ Forall2 page_of_chunk built (filter has_text chunks).
Proof.
  revert acc w. induction chunks as [|chunk rest IH]; intros acc w.
  - intros [= <- <-]. exists []. rewrite app_nil_r. by split.
  - cbn [summarize_pages]. rewrite filter_cons. unfold has_text at 1.
    case_bool_decide as Htext.
    + rewrite decide_False by (by intros ?). apply IH.
    + rewrite decide_True by done. unfold bind at 1.
      destruct (_summarize_single_page _ _ w) as [[s|e] w1]; [|done].
      intros (built & -> & Hbuilt)%IH.
      eexists (_ :: built). split; [by rewrite <- app_assoc|].
      by constructor.
Qed.

Lemma clip_text_nonempty (value : pystr) (limit : Z) :
  strip value <> [] -> _clip_text value limit <> [].
Proof.
  intros Hne. unfold _clip_text. destruct (len (strip value) <=? limit); [done|].
  intros Heq. apply (f_equal length) in Heq.
  rewrite length_app, TextMore.ellipsis_length in Heq. cbn in Heq. lia.
Qed.

(** X24. Every page of a generated note stands for one page or slide of the
    document that has text: it carries that page's number, the label
    Page n or Slide n, and a non-empty text of at most 6002 characters;
    the numbers increase strictly. *)
Theorem note_pages_are_document_pages (payload : LearningNoteRequest)
    (w w' : World) (record : LearningNote) :
  generate_learning_note payload w = (Ok (NewNote record), w') ->
  StronglySorted Z.lt (index <$> pages record) /\
  Forall (fun p =>
            1 <= index p /\
            (label p = str "Page " ++ decimal (index p) \/
             label p = str "Slide " ++ decimal (index p)) /\
            text p <> [] /\ len (text p) <= MAX_PAGE_TEXT_CHARS + 2)
         (pages record).
Proof.
  intros Hrun. split.
  { apply NoteFacts.generate_learning_note_new in Hrun
      as (existing & w2 & data & _ & _ & Hbuild & _).
    apply NoteFacts.build_note_ok in Hbuild
      as (file & chunks & w1 & created & _ & Hchunks & Hpages & _).
    apply NoteFacts.summarize_pages_ok in Hpages as (built & new & Hbuilt & Hidx & _).
    cbn [app] in Hbuilt. subst built. rewrite Hidx.
    apply NoteFacts.extract_page_chunks_sorted in Hchunks.
    eapply NoteFacts.StronglySorted_sublist; [|exact Hchunks].
    apply fmap_sublist, sublist_filter. }
  apply NoteFacts.generate_learning_note_new in Hrun
    as (existing & w2 & data & _ & _ & Hbuild & _).
  apply NoteFacts.build_note_ok in Hbuild
    as (file & chunks & w1 & created & _ & Hchunks & Hpages & _).
  apply summarize_pages_built in Hpages as (built & Hbuilt & Hall).
  cbn [app] in Hbuilt. subst built.
  assert (Hlabels : Forall (fun chunk =>
            1 <= chunk_index chunk /\
            (chunk_label chunk = str "Page " ++ decimal (chunk_index chunk) \/
             chunk_label chunk = str "Slide " ++ decimal (chunk_index chunk))) chunks).
  { pose proof TextMore.extract_pdf_pages_shape as Hpdf.
    pose proof TextMore.extract_pptx_slides_shape as Hpptx.
    unfold _extract_page_chunks in Hchunks.
    assert (Hseq : forall n i, i ∈ seqZ 1 n -> 1 <= i)
      by (intros n i Hi%elem_of_seqZ; lia).
    case_bool_decide; [|case_bool_decide; [|done]].
    - destruct (pdf_pages file) as [ps|]; [|done]. injection Hchunks as <-.
      destruct (Hpdf ps) as [Hidx Hlab]. rewrite Forall_forall in *.
      intros chunk Hin. split; [|left; by apply Hlab].
      apply (Hseq (len ps)). rewrite <- Hidx. by apply list_elem_of_fmap_2.
    - destruct (pptx_slides file) as [ss|]; [|done]. injection Hchunks as <-.
      destruct (Hpptx ss) as [Hidx Hlab]. rewrite Forall_forall in *.
      intros chunk Hin. split; [|right; by apply Hlab].
      apply (Hseq (len ss)). rewrite <- Hidx. by apply list_elem_of_fmap_2. }
  apply Forall_forall. intros p Hp.
  destruct (proj1 (list_elem_of_lookup _ _) Hp) as [k Hk].
  destruct (Forall2_lookup_l _ _ _ _ _ Hall Hk) as (chunk & Hchunk & Htext & Hi & Hl & Ht).
  apply list_elem_of_lookup_2, list_elem_of_filter in Hchunk as [_ Hchunk].
  rewrite Forall_forall in Hlabels. destruct (Hlabels chunk Hchunk) as [Hone Hlab].
  rewrite Hi, Hl, Ht. split; [done|]. split; [done|]. split.
  - apply clip_text_nonempty. by rewrite strip_idem.
  - apply TextMore.clip_text_length. unfold MAX_PAGE_TEXT_CHARS. lia.
Qed.

End Remote.
End RemoteMore.

(** ** The properties on the sample data *)

Module Examples.
Import Py FileParsers LearningNoteStorage Main Spec Shapes.
Import Demo Samples.
#[local] Existing Instance demo_runtime.
#[local] Existing Instance demo_services.

(** X2 at three pages, window size 3, a model that always answers. *)
Lemma windows_one_per_page_witness :
  exists ws w',
    _summarize_windows (demo_page <$> [1; 2; 3]) 3 empty_world = (Ok ws, w') /\
    length ws = 3%nat.
Proof.
  destruct (_summarize_windows (demo_page <$> [1; 2; 3]) 3 empty_world)
    as [r w'] eqn:Hrun.
  assert (exists ws, r = Ok ws) as [ws ->].
  { pose proof Hrun as Hval. vm_compute in Hval. injection Hval as <- _. by eexists. }
  exists ws, w'. split; [done|].
  exact (WindowMore.windows_one_per_page _ _ _ _ _ Hrun).
Defined.

(** X1 at pages given as 3, 1, 2 with window size 2. *)
Lemma windows_sorted_by_startPage_witness :
  exists ws w',
    _summarize_windows (demo_page <$> [3; 1; 2]) 2 empty_world = (Ok ws, w') /\
    StronglySorted by_startPage ws.
Proof.
  destruct (_summarize_windows (demo_page <$> [3; 1; 2]) 2 empty_world)
    as [r w'] eqn:Hrun.
  assert (exists ws, r = Ok ws) as [ws ->].
  { pose proof Hrun as Hval. vm_compute in Hval. injection Hval as <- _. by eexists. }
  exists ws, w'. split; [done|].
  exact (WindowMore.windows_sorted_by_startPage _ _ _ _ _ Hrun).
Defined.

(** X4 on the two-page lecture: four remote calls. *)
Lemma note_costs_two_calls_per_page_witness :
  exists record w',
    generate_learning_note (request false) fresh_world = (Ok (NewNote record), w') /\
    pageCount record = 2 /\ length (calls w') = 4%nat.
Proof.
  destruct (generate_learning_note (request false) fresh_world) as [r w'] eqn:Hrun.
  assert (exists record, r = Ok (NewNote record)) as [record ->].
  { pose proof Hrun as Hval. vm_compute in Hval. injection Hval as <- _. by eexists. }
  exists record, w'. split; [done|].
  destruct (NoteMore.note_costs_two_calls_per_page _ _ _ _ Hrun)
    as (page_calls & window_calls & Hcalls & _ & _ & Hp & Hw & _).
  assert (Hcount : pageCount record = 2).
  { pose proof Hrun as Hval. vm_compute in Hval. by injection Hval as <- _. }
  split; [done|]. rewrite Hcalls. cbn [calls fresh_world app].
  rewrite length_app. unfold len in *. lia.
Defined.

(** X5 on the lecture, with an empty note directory. *)
Lemma first_generation_stamps_both_witness :
  exists record w',
    generate_learning_note (request false) fresh_world = (Ok (NewNote record), w') /\
    createdAt record = PStr (updatedAt record).
Proof.
  destruct (generate_learning_note (request false) fresh_world) as [r w'] eqn:Hrun.
  assert (exists record, r = Ok (NewNote record)) as [record ->].
  { pose proof Hrun as Hval. vm_compute in Hval. injection Hval as <- _. by eexists. }
  exists record, w'. split; [done|].
  destruct (NoteMore.first_generation_stamps_both
              (request false) fresh_world w' record PNone) as [Hboth _]; try done.
Defined.

(** X7 in a world without uploads. *)
Lemma note_refused_before_any_call_witness :
  generate_learning_note (request false) empty_world
  = (Raise (HTTPException 404 UploadNotFound), empty_world).
Proof.
  destruct (NoteMore.note_refused_before_any_call (request false) empty_world PNone)
    as [Hmissing _]; [done|done|].
  by apply Hmissing.
Defined.

(** X24 on the lecture. *)
Lemma note_pages_are_document_pages_witness :
  exists record w',
    generate_learning_note (request false) fresh_world = (Ok (NewNote record), w') /\
    StronglySorted Z.lt (index <$> pages record).
Proof.
  destruct (generate_learning_note (request false) fresh_world) as [r w'] eqn:Hrun.
  assert (exists record, r = Ok (NewNote record)) as [record ->].
  { pose proof Hrun as Hval. vm_compute in Hval. injection Hval as <- _. by eexists. }
  exists record, w'. split; [done|].
  by destruct (RemoteMore.note_pages_are_document_pages _ _ _ _ Hrun).
Defined.

(** X12 on an answer with one question and two lines of notes. *)
Lemma quiz_notes_shape_witness :
  exists parsed,
    parse_quiz_data quiz_with_notes = Ok parsed /\
    notes parsed = [str "sets"; str "maps"] /\ Forall trimmed (notes parsed).
Proof.
  destruct (parse_quiz_data quiz_with_notes) as [parsed|e] eqn:Hparse.
  - exists parsed. split; [done|].
    destruct (ParseMore.quiz_notes_shape _ _ Hparse) as [Htrimmed _].
    split; [|done]. vm_compute in Hparse. by injection Hparse as <-.
  - vm_compute in Hparse. discriminate.
Defined.

(** X18 at a limit of seven characters. *)
Lemma clip_text_bounded_witness :
  len (_clip_text (str "  lecture notes  ") 7) <= 9.
Proof.
  destruct (TextMore.clip_text_bounded (str "  lecture notes  ") 7) as [Hlen _]; [lia|].
  exact Hlen.
Defined.

(** X19 on three windows, the middle one blank. *)
Lemma merge_skips_blank_windows_witness :
  _merge_markdown sample_windows = str "### A" ++ [LF; LF] ++ str "### B".
Proof.
  etrans.
  - apply (TextMore.merge_skips_blank_windows
             (take 1 sample_windows) (drop 2 sample_windows)).
    reflexivity.
  - reflexivity.
Defined.

End Examples.

Module StoreExamples.
Import Py FileParsers LearningNoteStorage Main Spec Shapes.
Import Demo Samples.
#[local] Existing Instance note_runtime.
#[local] Existing Instance demo_services.

(** X9 on an empty directory and the sample note. *)
Lemma save_then_read_witness :
  read (save ∅ (str "lecture.pdf") stored_note).2 (str "lecture.pdf") = Ok stored_note.
Proof.
  destruct (StoreMore.save_then_read ∅ (str "lecture.pdf") stored_note
              (str "k3v9x2qa") (ascii_bytes stored_note_text) stored_note_text)
    as (_ & _ & Hread).
  - reflexivity.
  - by rewrite lookup_empty.
  - reflexivity.
  - vm_compute. reflexivity.
  - vm_compute. reflexivity.
  - by rewrite lookup_empty.
  - exact Hread.
Defined.

(** X8 on the lecture, with the runtime that stores the sample note. *)
Lemma generated_note_is_served_from_store_witness :
  exists record w1,
    generate_learning_note (request false) fresh_world = (Ok (NewNote record), w1) /\
    generate_learning_note (request false) w1 = (Ok (StoredNote stored_note), w1) /\
    get_learning_note (str "lecture.pdf") w1 = (Ok stored_note, w1).
Proof.
  destruct (generate_learning_note (request false) fresh_world) as [r w1] eqn:Hrun.
  assert (exists record, r = Ok (NewNote record)) as [record ->].
  { pose proof Hrun as Hval. vm_compute in Hval. injection Hval as <- _. by eexists. }
  exists record, w1. split; [done|].
  apply (NoteMore.generated_note_is_served_from_store
           (request false) fresh_world w1 record stored_note 3 Hrun).
  - intros data [= <-]. exists stored_note_text. split; vm_compute; reflexivity.
  - vm_compute. reflexivity.
Defined.

End StoreExamples.
